(** * iam-scoped-permissions: denial extraction and policy synthesis

    A shallow embedding of the two services that carry the algorithmic
    decisions of the tool,

    - [CloudWatchLogsService] (services/cloudwatch-logs.ts): the denial
      parser [parsePermissionDenial] with its signature check and its
      ordered regular-expression extractors, the tests on log group
      names, and the methods that query the logs, in state-passing style
      over the answers of the client;
    - [PermissionAnalyzerService] (services/permission-analyzer.ts): the
      aggregation loop of [analyzeLogs], [calculateSeverity],
      [generateConditions], [generateIAMPolicy], [generateCDKCode] with
      its two grouping loops, and [optimizeResourceArn];

    followed by the properties established about them. *)

From Stdlib Require Import List Bool Arith ZArith NArith Lia.
From Stdlib Require Import Ascii String DecimalString Sorted.
Import ListNotations.

Set Warnings "-register-all".

(** ** JavaScript strings

    A JavaScript string is a finite sequence of UTF-16 code units; it is
    modelled as the list of their values.  [js] embeds a literal written
    with one-byte characters (every literal of the two services is
    ASCII). *)

Module JS.

Definition jsstring := list N.

Definition js (s : string) : jsstring :=
  List.map N_of_ascii (list_ascii_of_string s).

(** [a === b] on strings. *)
Fixpoint str_eqb (a b : jsstring) : bool :=
  match a, b with
  | [], [] => true
  | x :: a', y :: b' => N.eqb x y && str_eqb a' b'
  | _, _ => false
  end.

(** [s.startsWith(p)]. *)
Fixpoint startsWith (s p : jsstring) {struct p} : bool :=
  match p with
  | [] => true
  | c :: p' =>
      match s with
      | [] => false
      | d :: s' => N.eqb d c && startsWith s' p'
      end
  end.

(** [s.includes(p)]. *)
Fixpoint includes (s p : jsstring) : bool :=
  startsWith s p ||
  match s with
  | [] => false
  | _ :: s' => includes s' p
  end.

(** [s.endsWith(p)]. *)
Definition endsWith (s p : jsstring) : bool :=
  startsWith (rev s) (rev p).

(** [s.replace(p, r)] for a string pattern [p] and a replacement [r] free
    of [$]: the first occurrence of [p] is replaced, and [s] is returned
    as it is when there is none. *)
Fixpoint replace (s p r : jsstring) : jsstring :=
  if startsWith s p then r ++ skipn (List.length p) s
  else
    match s with
    | [] => []
    | c :: s' => c :: replace s' p r
    end.

(** One code unit of [toLowerCase].  The Unicode lower-case mapping is
    written out for the code units below 256 (A-Z, and the Latin-1
    capitals U+00C0..U+00DE without the multiplication sign); it agrees
    with JavaScript on every string whose code units are below 256. *)
Definition lowerUnit (c : N) : N :=
  if ((65 <=? c) && (c <=? 90))%N
     || ((192 <=? c) && (c <=? 222) && negb (c =? 215))%N
  then (c + 32)%N else c.

(** [s.toLowerCase()] on the strings whose code units are below 256.
    Beyond them the function of JavaScript maps further letters (the
    Kelvin sign to [k], for one), which this one leaves as they are: a
    property that reads the result is stated for strings within the
    range. *)
Definition toLowerCase (s : jsstring) : jsstring := List.map lowerUnit s.

(** Code-unit order of two strings, the order of the default
    [Array.prototype.sort]: [true] when [a] comes strictly before [b]. *)
Fixpoint str_ltb (a b : jsstring) : bool :=
  match a, b with
  | _, [] => false
  | [], _ :: _ => true
  | x :: a', y :: b' =>
      if N.ltb x y then true
      else if N.ltb y x then false
      else str_ltb a' b'
  end.

Fixpoint insert_sorted (x : jsstring) (l : list jsstring) : list jsstring :=
  match l with
  | [] => [x]
  | y :: l' => if str_ltb y x then y :: insert_sorted x l' else x :: l
  end.

(** [arr.sort()] on an array of strings. *)
Definition sort (l : list jsstring) : list jsstring :=
  fold_right insert_sorted [] l.

(** [arr.join(sep)]. *)
Fixpoint join (sep : jsstring) (l : list jsstring) : jsstring :=
  match l with
  | [] => []
  | [x] => x
  | x :: l' => x ++ sep ++ join sep l'
  end.

(** A [Set<string>] in insertion order, and [set.add(x)]. *)
Definition set_has (s : list jsstring) (x : jsstring) : bool :=
  existsb (str_eqb x) s.

Definition set_add (s : list jsstring) (x : jsstring) : list jsstring :=
  if set_has s x then s else s ++ [x].

(** [[...new Set(arr)]]: the distinct elements in order of first
    occurrence. *)
Definition unique (l : list jsstring) : list jsstring :=
  fold_left set_add l [].

(** One code unit of [toUpperCase]; the mapping is written out for the
    code units below 256, where it agrees with JavaScript (the sharp s
    becomes two letters, the micro sign and y with diaeresis leave the
    range). *)
Definition upperUnit (c : N) : jsstring :=
  if ((97 <=? c) && (c <=? 122))%N
     || ((224 <=? c) && (c <=? 254) && negb (c =? 247))%N
  then [(c - 32)%N]
  else if (c =? 223)%N then [83%N; 83%N]
  else if (c =? 181)%N then [924%N]
  else if (c =? 255)%N then [376%N]
  else [c].

(** [s.split(sep)[0]] for a separator of one code unit. *)
Fixpoint splitHead (s : jsstring) (sep : N) : jsstring :=
  match s with
  | [] => []
  | c :: s' => if N.eqb c sep then [] else c :: splitHead s' sep
  end.

(** [s.replace(/[^a-zA-Z0-9]/g, '')]. *)
Definition isAlnum (c : N) : bool :=
  (((97 <=? c) && (c <=? 122)) || ((65 <=? c) && (c <=? 90))
   || ((48 <=? c) && (c <=? 57)))%N.

Definition keepAlnum (s : jsstring) : jsstring := filter isAlnum s.

(** The decimal numeral of a loop counter. *)
Definition decimal (n : nat) : jsstring :=
  js (DecimalString.NilZero.string_of_uint (Nat.to_uint n)).

(** [s.replace(/^/gm, '    ')]: four spaces at the start of the text and
    after every line terminator. *)
Definition isLineTerminator (c : N) : bool :=
  ((c =? 10) || (c =? 13) || (c =? 8232) || (c =? 8233))%N.

Fixpoint indentAfterBreaks (s : jsstring) : jsstring :=
  match s with
  | [] => []
  | c :: s' =>
      if isLineTerminator c then c :: js "    " ++ indentAfterBreaks s'
      else c :: indentAfterBreaks s'
  end.

Definition indentLines (s : jsstring) : jsstring :=
  js "    " ++ indentAfterBreaks s.

(** *** JSON text of strings, arrays and objects *)

Definition hexDigit (n : N) : N :=
  if (n <? 10)%N then (48 + n)%N else (87 + n)%N.

Definition unicodeEscape (c : N) : jsstring :=
  [92%N; 117%N;
   hexDigit (c / 4096 mod 16); hexDigit (c / 256 mod 16);
   hexDigit (c / 16 mod 16); hexDigit (c mod 16)]%N.

Definition isLeadSurrogate (c : N) : bool := ((55296 <=? c) && (c <=? 56319))%N.
Definition isTrailSurrogate (c : N) : bool := ((56320 <=? c) && (c <=? 57343))%N.

(** The body of [QuoteJSONString]: short escapes, [\u] escapes for the
    other control characters and for unpaired surrogates. *)
Fixpoint quoteUnits (s : jsstring) : jsstring :=
  match s with
  | [] => []
  | c :: s' =>
      if isLeadSurrogate c then
        match s' with
        | d :: s'' =>
            if isTrailSurrogate d then c :: d :: quoteUnits s''
            else unicodeEscape c ++ quoteUnits s'
        | [] => unicodeEscape c
        end
      else if isTrailSurrogate c then unicodeEscape c ++ quoteUnits s'
      else if (c =? 8)%N then [92; 98]%N ++ quoteUnits s'
      else if (c =? 9)%N then [92; 116]%N ++ quoteUnits s'
      else if (c =? 10)%N then [92; 110]%N ++ quoteUnits s'
      else if (c =? 12)%N then [92; 102]%N ++ quoteUnits s'
      else if (c =? 13)%N then [92; 114]%N ++ quoteUnits s'
      else if (c =? 34)%N then [92; 34]%N ++ quoteUnits s'
      else if (c =? 92)%N then [92; 92]%N ++ quoteUnits s'
      else if (c <? 32)%N then unicodeEscape c ++ quoteUnits s'
      else c :: quoteUnits s'
  end.

Definition quoteJSONString (s : jsstring) : jsstring :=
  [34%N] ++ quoteUnits s ++ [34%N].

(** A value made of strings, arrays and objects (keys in insertion
    order). *)
Inductive tree :=
| TStr (s : jsstring)
| TArr (items : list tree)
| TObj (props : list (jsstring * tree)).

Fixpoint repeatStr (n : nat) (s : jsstring) : jsstring :=
  match n with
  | O => []
  | S n' => s ++ repeatStr n' s
  end.

(** [JSON.stringify(v)]. *)
Fixpoint stringifyTree (v : tree) : jsstring :=
  match v with
  | TStr s => quoteJSONString s
  | TArr items =>
      js "[" ++ join (js ",") (List.map stringifyTree items) ++ js "]"
  | TObj props =>
      js "{"
      ++ join (js ",")
           (List.map
              (fun kv => quoteJSONString (fst kv) ++ js ":" ++ stringifyTree (snd kv))
              props)
      ++ js "}"
  end.

(** [JSON.stringify(v, null, 4)] at nesting depth [depth]. *)
Fixpoint stringifyTreeIndent (depth : nat) (v : tree) : jsstring :=
  let stepback := repeatStr depth (js "    ") in
  let indent := stepback ++ js "    " in
  let separator := js "," ++ [10%N] ++ indent in
  match v with
  | TStr s => quoteJSONString s
  | TArr [] => js "[]"
  | TArr items =>
      js "[" ++ [10%N] ++ indent
      ++ join separator (List.map (stringifyTreeIndent (S depth)) items)
      ++ [10%N] ++ stepback ++ js "]"
  | TObj [] => js "{}"
  | TObj props =>
      js "{" ++ [10%N] ++ indent
      ++ join separator
           (List.map
              (fun kv =>
                 quoteJSONString (fst kv) ++ js ": "
                 ++ stringifyTreeIndent (S depth) (snd kv))
              props)
      ++ [10%N] ++ stepback ++ js "}"
  end.

End JS.

Import JS.

(** A [Map<string, V>]: the entries in insertion order, one per key. *)
Module StrMap.
Section Map.
Context {V : Type}.

Definition t := list (jsstring * V).

Fixpoint get (m : t) (k : jsstring) : option V :=
  match m with
  | [] => None
  | (k', v) :: m' => if str_eqb k' k then Some v else get m' k
  end.

Definition has (m : t) (k : jsstring) : bool :=
  match get m k with Some _ => true | None => false end.

(** [m.set(k, v)]: an existing key keeps its place. *)
Fixpoint set (m : t) (k : jsstring) (v : V) : t :=
  match m with
  | [] => [(k, v)]
  | (k', v') :: m' =>
      if str_eqb k' k then (k', v) :: m' else (k', v') :: set m' k v
  end.

Definition values (m : t) : list V := List.map snd m.

End Map.
Arguments t : clear implicits.
End StrMap.

(** ** JSON.parse *)

Module Json.

(** A number keeps the decimal value written in the text,
    [(-1)^negative * mantissa * 10^exponent]; JavaScript holds the double
    nearest to it. *)
Record number := {
  negative : bool;
  mantissa : N;
  exponent : Z
}.

Inductive value :=
| Null
| Bool (b : bool)
| Num (n : number)
| Str (s : jsstring)
| Arr (items : list value)
| Obj (props : StrMap.t value).

Definition isWhitespace (c : N) : bool :=
  ((c =? 9) || (c =? 10) || (c =? 13) || (c =? 32))%N.

Fixpoint skipWhitespace (s : jsstring) : jsstring :=
  match s with
  | c :: s' => if isWhitespace c then skipWhitespace s' else s
  | [] => []
  end.

Definition isDigit (c : N) : bool := ((48 <=? c) && (c <=? 57))%N.

Definition hexValue (c : N) : option N :=
  if isDigit c then Some (c - 48)%N
  else if ((97 <=? c) && (c <=? 102))%N then Some (c - 87)%N
  else if ((65 <=? c) && (c <=? 70))%N then Some (c - 55)%N
  else None.

(** The characters of a string, after its opening quote. *)
Fixpoint parseChars (s : jsstring) (acc : jsstring)
  : option (jsstring * jsstring) :=
  match s with
  | [] => None
  | 34%N :: rest => Some (rev acc, rest)
  | 92%N :: 34%N :: rest => parseChars rest (34%N :: acc)
  | 92%N :: 92%N :: rest => parseChars rest (92%N :: acc)
  | 92%N :: 47%N :: rest => parseChars rest (47%N :: acc)
  | 92%N :: 98%N :: rest => parseChars rest (8%N :: acc)
  | 92%N :: 102%N :: rest => parseChars rest (12%N :: acc)
  | 92%N :: 110%N :: rest => parseChars rest (10%N :: acc)
  | 92%N :: 114%N :: rest => parseChars rest (13%N :: acc)
  | 92%N :: 116%N :: rest => parseChars rest (9%N :: acc)
  | 92%N :: 117%N :: a :: b :: c :: d :: rest =>
      match hexValue a, hexValue b, hexValue c, hexValue d with
      | Some a', Some b', Some c', Some d' =>
          parseChars rest ((a' * 4096 + b' * 256 + c' * 16 + d')%N :: acc)
      | _, _, _, _ => None
      end
  | 92%N :: _ => None
  | c :: rest => if (c <? 32)%N then None else parseChars rest (c :: acc)
  end.

(** A run of digits: its value after [acc], the number of digits, and the
    rest of the text. *)
Fixpoint takeDigits (s : jsstring) (acc : N) (count : nat)
  : N * nat * jsstring :=
  match s with
  | c :: s' =>
      if isDigit c then takeDigits s' (acc * 10 + (c - 48))%N (S count)
      else (acc, count, s)
  | [] => (acc, count, [])
  end.

Definition parseExponent (s : jsstring) : option (Z * jsstring) :=
  match s with
  | c :: rest =>
      if ((c =? 101) || (c =? 69))%N then
        let '(sign, rest') :=
          match rest with
          | 43%N :: r => (1%Z, r)
          | 45%N :: r => ((-1)%Z, r)
          | _ => (1%Z, rest)
          end in
        match takeDigits rest' 0 0 with
        | (_, O, _) => None
        | (e, _, rest'') => Some ((sign * Z.of_N e)%Z, rest'')
        end
      else Some (0%Z, s)
  | [] => Some (0%Z, s)
  end.

Definition parseNumber (s : jsstring) : option (number * jsstring) :=
  let '(neg, s1) :=
    match s with
    | 45%N :: r => (true, r)
    | _ => (false, s)
    end in
  let integer :=
    match s1 with
    | 48%N :: r => Some (0%N, r)
    | _ =>
        match takeDigits s1 0 0 with
        | (_, O, _) => None
        | (i, _, r) => Some (i, r)
        end
    end in
  match integer with
  | None => None
  | Some (i, s2) =>
      let fraction :=
        match s2 with
        | 46%N :: r =>
            match takeDigits r i 0 with
            | (_, O, _) => None
            | (m, digits, r') => Some (m, digits, r')
            end
        | _ => Some (i, O, s2)
        end in
      match fraction with
      | None => None
      | Some (m, digits, s3) =>
          match parseExponent s3 with
          | None => None
          | Some (e, s4) =>
              Some ({| negative := neg; mantissa := m;
                       exponent := (e - Z.of_nat digits)%Z |}, s4)
          end
      end
  end.

Definition literal (word : jsstring) (v : value) (s : jsstring)
  : option (value * jsstring) :=
  if startsWith s word then Some (v, skipn (List.length word) s) else None.

Fixpoint parseValue (fuel : nat) (s : jsstring) : option (value * jsstring) :=
  match fuel with
  | O => None
  | S fuel' =>
      match skipWhitespace s with
      | [] => None
      | 123%N :: rest =>
          match skipWhitespace rest with
          | 125%N :: rest' => Some (Obj [], rest')
          | members => parseMembers fuel' members []
          end
      | 91%N :: rest =>
          match skipWhitespace rest with
          | 93%N :: rest' => Some (Arr [], rest')
          | elements => parseElements fuel' elements []
          end
      | 34%N :: rest =>
          match parseChars rest [] with
          | Some (text, rest') => Some (Str text, rest')
          | None => None
          end
      | (116%N :: _) as t => literal (js "true") (Bool true) t
      | (102%N :: _) as t => literal (js "false") (Bool false) t
      | (110%N :: _) as t => literal (js "null") Null t
      | t =>
          match parseNumber t with
          | Some (n, rest) => Some (Num n, rest)
          | None => None
          end
      end
  end
with parseMembers (fuel : nat) (s : jsstring) (acc : StrMap.t value)
  : option (value * jsstring) :=
  match fuel with
  | O => None
  | S fuel' =>
      match s with
      | 34%N :: rest =>
          match parseChars rest [] with
          | Some (name, rest1) =>
              match skipWhitespace rest1 with
              | 58%N :: rest2 =>
                  match parseValue fuel' rest2 with
                  | Some (v, rest3) =>
                      match skipWhitespace rest3 with
                      | 44%N :: rest4 =>
                          parseMembers fuel' (skipWhitespace rest4)
                            (StrMap.set acc name v)
                      | 125%N :: rest4 =>
                          Some (Obj (StrMap.set acc name v), rest4)
                      | _ => None
                      end
                  | None => None
                  end
              | _ => None
              end
          | None => None
          end
      | _ => None
      end
  end
with parseElements (fuel : nat) (s : jsstring) (acc : list value)
  : option (value * jsstring) :=
  match fuel with
  | O => None
  | S fuel' =>
      match parseValue fuel' s with
      | Some (v, rest) =>
          match skipWhitespace rest with
          | 44%N :: rest' => parseElements fuel' rest' (acc ++ [v])
          | 93%N :: rest' => Some (Arr (acc ++ [v]), rest')
          | _ => None
          end
      | None => None
      end
  end.

(** [JSON.parse(text)]; [None] when it throws a [SyntaxError]. *)
Definition parse (text : jsstring) : option value :=
  match parseValue (S (List.length text)) text with
  | Some (v, rest) =>
      match skipWhitespace rest with
      | [] => Some v
      | _ :: _ => None
      end
  | None => None
  end.

(** The double nearest to a number is not zero: the number is not zero
    and exceeds half the least positive double, [2^-1075]. *)
Definition nonzero (n : number) : bool :=
  negb (mantissa n =? 0)%N
  && ((0 <=? exponent n)%Z
      || (10 ^ (- exponent n) <? Z.of_N (mantissa n) * 2 ^ 1075)%Z).

(** [!!v]. *)
Definition truthy (v : value) : bool :=
  match v with
  | Null => false
  | Bool b => b
  | Num n => nonzero n
  | Str s => match s with [] => false | _ :: _ => true end
  | Arr _ => true
  | Obj _ => true
  end.

(** [v.name] for a value other than [null] and a name that no prototype
    defines: an own property of an object, [undefined] ([None])
    otherwise. *)
Definition get (v : value) (name : jsstring) : option value :=
  match v with
  | Obj props => StrMap.get props name
  | _ => None
  end.

(** [v?.name] on a possibly undefined value. *)
Definition getOptional (v : option value) (name : jsstring) : option value :=
  match v with
  | None => None
  | Some Null => None
  | Some v' => get v' name
  end.

(** [v?.[0]]: the first element of an array, the first code unit of a
    string, the property ["0"] of an object. *)
Definition firstOptional (v : option value) : option value :=
  match v with
  | Some (Arr (item :: _)) => Some item
  | Some (Str (c :: _)) => Some (Str [c])
  | Some (Obj props) => StrMap.get props (js "0")
  | _ => None
  end.

(** [a || b] with [undefined] as [None]. *)
Definition orElse (a b : option value) : option value :=
  match a with
  | Some v => if truthy v then a else b
  | None => b
  end.

End Json.

(** ** Date.prototype.toISOString *)

Module Date.

Local Open Scope Z_scope.

Definition msPerDay : Z := 86400000.

(** The civil date of a day number counted from 1970-01-01. *)
Definition civil (days : Z) : Z * Z * Z :=
  let z := days + 719468 in
  let era := z / 146097 in
  let doe := z - era * 146097 in
  let yoe := (doe - doe / 1460 + doe / 36524 - doe / 146096) / 365 in
  let doy := doe - (365 * yoe + yoe / 4 - yoe / 100) in
  let mp := (5 * doy + 2) / 153 in
  let d := doy - (153 * mp + 2) / 5 + 1 in
  let m := if mp <? 10 then mp + 3 else mp - 9 in
  let y := yoe + era * 400 + (if m <=? 2 then 1 else 0) in
  (y, m, d).

(** [n] written with [width] decimal digits. *)
Fixpoint digits (width : nat) (n : Z) : jsstring :=
  match width with
  | O => []
  | S width' => digits width' (n / 10) ++ [Z.to_N (48 + n mod 10)]
  end.

(** [new Date(t).toISOString()] for a whole number of milliseconds;
    [None] when the time value is out of range and the call throws a
    [RangeError]. *)
Definition toISOString (t : Z) : option jsstring :=
  if (Z.abs t <=? 8640000000000000) then
    let '(y, m, d) := civil (t / msPerDay) in
    let ms := t mod msPerDay in
    let year :=
      if (0 <=? y) && (y <=? 9999) then digits 4 y
      else (if y <? 0 then js "-" else js "+") ++ digits 6 (Z.abs y) in
    Some (year ++ js "-" ++ digits 2 m ++ js "-" ++ digits 2 d
          ++ js "T" ++ digits 2 (ms / 3600000)
          ++ js ":" ++ digits 2 (ms / 60000 mod 60)
          ++ js ":" ++ digits 2 (ms / 1000 mod 60)
          ++ js "." ++ digits 3 (ms mod 1000) ++ js "Z")
  else None.

End Date.

(** ** Regular expressions

    The patterns of the log service are kept as their source text and
    compiled by [Regex.compile]; matching is the backtracking search of
    [RegExp.prototype.exec] on code units (no [u] flag), with greedy
    quantifiers, left-to-right alternatives and numbered captures. *)

Module Regex.

Inductive classItem :=
| CUnit (c : N)
| CRange (lo hi : N)
| CSpace.

Inductive regex :=
| Empty
| Unit (c : N)
| Any
| Class (negated : bool) (items : list classItem)
| Seq (a b : regex)
| Alt (a b : regex)
| Star (a : regex)
| Plus (a : regex)
| Group (index : nat) (a : regex).

(** *** Compiling the source text

    The syntax used by the service: literals, [.], [\s], escaped
    punctuation, bracket classes with ranges and negation, groups,
    alternatives, and the quantifiers [*] and [+]. *)

Definition isPunctuation (c : N) : bool :=
  negb (isAlnum c) && (32 <? c)%N && (c <? 127)%N && negb (c =? 95)%N.

Fixpoint parseClass (fuel : nat) (s : jsstring) (acc : list classItem)
  : option (list classItem * jsstring) :=
  match fuel with
  | O => None
  | S fuel' =>
      match s with
      | [] => None
      | 93%N :: rest => Some (rev acc, rest)
      | 92%N :: 115%N :: rest => parseClass fuel' rest (CSpace :: acc)
      | 92%N :: c :: rest =>
          if isPunctuation c then parseClass fuel' rest (CUnit c :: acc)
          else None
      | [92%N] => None
      | lo :: 45%N :: hi :: rest =>
          if (N.eqb hi 93 || N.eqb hi 92)%N
          then parseClass fuel' (45%N :: hi :: rest) (CUnit lo :: acc)
          else parseClass fuel' rest (CRange lo hi :: acc)
      | c :: rest => parseClass fuel' rest (CUnit c :: acc)
      end
  end.

Definition quantified (a : regex) (s : jsstring) : regex * jsstring :=
  match s with
  | 42%N :: rest => (Star a, rest)
  | 43%N :: rest => (Plus a, rest)
  | _ => (a, s)
  end.

(** [groups] is the number of groups opened so far. *)
Fixpoint parseAlt (fuel : nat) (s : jsstring) (groups : nat)
  : option (regex * jsstring * nat) :=
  match fuel with
  | O => None
  | S fuel' =>
      match parseSeq fuel' s groups with
      | Some (a, 124%N :: rest, groups') =>
          match parseAlt fuel' rest groups' with
          | Some (b, rest', groups'') => Some (Alt a b, rest', groups'')
          | None => None
          end
      | other => other
      end
  end
with parseSeq (fuel : nat) (s : jsstring) (groups : nat)
  : option (regex * jsstring * nat) :=
  match fuel with
  | O => None
  | S fuel' =>
      match s with
      | [] => Some (Empty, s, groups)
      | 41%N :: _ => Some (Empty, s, groups)
      | 124%N :: _ => Some (Empty, s, groups)
      | _ =>
          match parseAtom fuel' s groups with
          | Some (a, rest, groups') =>
              let (a', rest') := quantified a rest in
              match parseSeq fuel' rest' groups' with
              | Some (Empty, rest'', groups'') => Some (a', rest'', groups'')
              | Some (b, rest'', groups'') => Some (Seq a' b, rest'', groups'')
              | None => None
              end
          | None => None
          end
      end
  end
with parseAtom (fuel : nat) (s : jsstring) (groups : nat)
  : option (regex * jsstring * nat) :=
  match fuel with
  | O => None
  | S fuel' =>
      match s with
      | [] => None
      | 40%N :: rest =>
          match parseAlt fuel' rest (S groups) with
          | Some (a, 41%N :: rest', groups') =>
              Some (Group (S groups) a, rest', groups')
          | _ => None
          end
      | 91%N :: 94%N :: rest =>
          match parseClass fuel' rest [] with
          | Some (items, rest') => Some (Class true items, rest', groups)
          | None => None
          end
      | 91%N :: rest =>
          match parseClass fuel' rest [] with
          | Some (items, rest') => Some (Class false items, rest', groups)
          | None => None
          end
      | 46%N :: rest => Some (Any, rest, groups)
      | 92%N :: 115%N :: rest => Some (Class false [CSpace], rest, groups)
      | 92%N :: c :: rest =>
          if isPunctuation c then Some (Unit c, rest, groups) else None
      | c :: rest =>
          if existsb (N.eqb c) [42; 43; 63; 41; 93; 123; 125; 94; 36; 92]%N
          then None
          else Some (Unit c, rest, groups)
      end
  end.

(** [None] for a source text outside this syntax. *)
Definition compile (source : jsstring) : option regex :=
  match parseAlt (S (S (List.length source)) * 3) source 0 with
  | Some (r, [], _) => Some r
  | _ => None
  end.

(** *** Matching *)

(** [\s]: white space and line terminators. *)
Definition isSpace (c : N) : bool :=
  (((9 <=? c) && (c <=? 13)) || (c =? 32) || (c =? 160) || (c =? 5760)
   || ((8192 <=? c) && (c <=? 8202)) || (c =? 8232) || (c =? 8233)
   || (c =? 8239) || (c =? 8287) || (c =? 12288) || (c =? 65279))%N.

(** The other case of an ASCII letter.  With the [i] flag two code units
    match when their canonical (upper case) forms agree; a code unit from
    128 on never canonicalises to an ASCII one and white space has no
    case, so for the patterns at hand, whose literals and class members
    are ASCII or [\s], this is agreement up to the case of ASCII
    letters. *)
Definition swapCase (c : N) : N :=
  if ((97 <=? c) && (c <=? 122))%N then (c - 32)%N
  else if ((65 <=? c) && (c <=? 90))%N then (c + 32)%N
  else c.

Definition unitMatches (ignoreCase : bool) (c d : N) : bool :=
  N.eqb c d || (ignoreCase && N.eqb c (swapCase d)).

Definition itemHas (item : classItem) (d : N) : bool :=
  match item with
  | CUnit c => N.eqb c d
  | CRange lo hi => ((lo <=? d) && (d <=? hi))%N
  | CSpace => isSpace d
  end.

Definition classMatches (ignoreCase : bool) (items : list classItem) (d : N)
  : bool :=
  existsb (fun item => itemHas item d) items
  || (ignoreCase && existsb (fun item => itemHas item (swapCase d)) items).

Definition captures := list (nat * jsstring).

(** A match state: the input still to be read and the captures set so
    far, the most recent first. *)
Definition continuation := jsstring -> captures -> option (jsstring * captures).

(** The greedy repetition of [step]: another round that consumes input
    is tried before the continuation; [fuel] bounds the rounds by the
    length of the input.  (No pattern of the service has a group under a
    quantifier, so no capture has to be reset between rounds.) *)
Fixpoint repeatMatcher
  (step : jsstring -> captures -> continuation -> option (jsstring * captures))
  (fuel : nat) (s : jsstring) (caps : captures) (k : continuation)
  : option (jsstring * captures) :=
  match fuel with
  | O => k s caps
  | S fuel' =>
      match step s caps
              (fun s' caps' =>
                 if List.length s' <? List.length s
                 then repeatMatcher step fuel' s' caps' k
                 else None) with
      | Some result => Some result
      | None => k s caps
      end
  end.

Fixpoint run (ignoreCase : bool) (r : regex) (s : jsstring) (caps : captures)
  (k : continuation) : option (jsstring * captures) :=
  match r with
  | Empty => k s caps
  | Unit c =>
      match s with
      | d :: s' => if unitMatches ignoreCase c d then k s' caps else None
      | [] => None
      end
  | Any =>
      match s with
      | d :: s' => if isLineTerminator d then None else k s' caps
      | [] => None
      end
  | Class negated items =>
      match s with
      | d :: s' =>
          if xorb negated (classMatches ignoreCase items d) then k s' caps
          else None
      | [] => None
      end
  | Seq a b => run ignoreCase a s caps (fun s' caps' => run ignoreCase b s' caps' k)
  | Alt a b =>
      match run ignoreCase a s caps k with
      | Some result => Some result
      | None => run ignoreCase b s caps k
      end
  | Star a => repeatMatcher (run ignoreCase a) (S (List.length s)) s caps k
  | Plus a =>
      run ignoreCase a s caps
        (fun s' caps' =>
           repeatMatcher (run ignoreCase a) (S (List.length s')) s' caps' k)
  | Group index a =>
      run ignoreCase a s caps
        (fun s' caps' =>
           k s' ((index, firstn (List.length s - List.length s') s) :: caps'))
  end.

(** The result of [exec]: [match[0]] and the captures. *)
Record result := {
  whole : jsstring;
  groups : captures
}.

(** [match[index]], [None] for [undefined]. *)
Fixpoint group (caps : captures) (index : nat) : option jsstring :=
  match caps with
  | [] => None
  | (i, text) :: caps' => if Nat.eqb i index then Some text else group caps' index
  end.

(** The leftmost match of [r] in [s]. *)
Fixpoint search (ignoreCase : bool) (r : regex) (s : jsstring) : option result :=
  match run ignoreCase r s [] (fun rest caps => Some (rest, caps)) with
  | Some (rest, caps) =>
      Some {| whole := firstn (List.length s - List.length rest) s;
              groups := caps |}
  | None =>
      match s with
      | [] => None
      | _ :: s' => search ignoreCase r s'
      end
  end.

(** A regular expression literal [/source/] or [/source/i]. *)
Record literal := {
  source : jsstring;
  ignoreCase : bool
}.

(** [message.match(pattern)]. *)
Definition exec (pattern : literal) (message : jsstring) : option result :=
  match compile (source pattern) with
  | Some r => search (ignoreCase pattern) r message
  | None => None
  end.

(** [pattern.test(message)]. *)
Definition test (pattern : literal) (message : jsstring) : bool :=
  match exec pattern message with
  | Some _ => true
  | None => false
  end.

End Regex.

Notation "// s //i" := {| Regex.source := js s; Regex.ignoreCase := true |}
  (at level 0, s at level 0, format "// s //i").
Notation "// s //" := {| Regex.source := js s; Regex.ignoreCase := false |}
  (at level 0, s at level 0, format "// s //").

(** ** CloudWatchLogsService *)

(** The result of a call: a returned value or a thrown error, named by
    its constructor. *)
Inductive outcome (A : Type) :=
| Returned (a : A)
| Thrown (error : jsstring).
Arguments Returned {A} _.
Arguments Thrown {A} _.

(** [FilteredLogEvent] of the AWS SDK: every member is optional.  The
    times are whole numbers of milliseconds. *)
Module FilteredLogEvent.
Record t := {
  logStreamName : option jsstring;
  timestamp : option Z;
  message : option jsstring;
  ingestionTime : option Z;
  eventId : option jsstring
}.
End FilteredLogEvent.

Module Logs.

(** The object returned by [parsePermissionDenial].  It is declared as a
    [PermissionDenial], whose fields are strings; on the JSON path the
    four extracted fields hold whatever truthy value the parsed message
    has under the key, hence [Json.value]. *)
Module Denial.
Record t := {
  timestamp : jsstring;
  logGroup : jsstring;
  logStream : jsstring;
  message : jsstring;
  action : Json.value;
  resource : Json.value;
  principal : Json.value;
  errorCode : Json.value;
  sourceIp : option Json.value;
  userAgent : option Json.value
}.
End Denial.

Definition denialPatterns : list Regex.literal :=
  [//"AccessDenied"//i;
   //"UnauthorizedOperation"//i;
   //"Forbidden"//i;
   //"not authorized"//i;
   //"permission denied"//i;
   //"access denied"//i;
   //"InvalidUserID\.NotFound"//i;
   //"InvalidAction"//i;
   //"CredentialsNotFound"//i;
   //"InvalidAccessKeyId"//i;
   //"SignatureDoesNotMatch"//i;
   //"TokenRefreshRequired"//i;
   //"User is not authorized to perform"//i;
   //"is not authorized to perform"//i;
   //"States\.TaskFailed"//i;
   //"States\.ExecutionFailed"//i;
   //"lambda:InvokeFunction"//i;
   //"User: .* is not authorized to perform: lambda:InvokeFunction"//i;
   //"User: .* is not authorized to perform: sns:Publish"//i;
   //"User: .* is not authorized to perform: sqs:SendMessage"//i;
   //"User: .* is not authorized to perform: dynamodb:"//i;
   //"User: .* is not authorized to perform: s3:"//i;
   //"User: .* is not authorized to perform: kms:"//i].

Definition hasPermissionDenialPattern (message : jsstring) : bool :=
  existsb (fun pattern => Regex.test pattern message) denialPatterns.

Definition actionPatterns : list Regex.literal :=
  [//"perform:\s*([a-zA-Z0-9:_-]+)"//i;
   //"perform\s+([a-zA-Z0-9:_-]+)"//i;
   //"action\s+([a-zA-Z0-9:_-]+)"//i;
   //"Action:\s*([^\s,]+)"//i;
   //"Operation:\s*([^\s,]+)"//i;
   //"EventName:\s*([^\s,]+)"//i;
   //"([a-zA-Z0-9]+:[a-zA-Z0-9]+)"//].

(** [match && match[1]]: the first capture of a match, when it is not
    empty. *)
Definition capture1 (pattern : Regex.literal) (message : jsstring)
  : option jsstring :=
  match Regex.exec pattern message with
  | Some m =>
      match Regex.group (Regex.groups m) 1 with
      | Some (c :: text) => Some (c :: text)
      | _ => None
      end
  | None => None
  end.

Fixpoint firstCapture (patterns : list Regex.literal) (message : jsstring)
  : option jsstring :=
  match patterns with
  | [] => None
  | pattern :: rest =>
      match capture1 pattern message with
      | Some text => Some text
      | None => firstCapture rest message
      end
  end.

Definition extractActionFromText (message : jsstring) : jsstring :=
  match firstCapture actionPatterns message with
  | Some text => text
  | None => js "Unknown"
  end.

Definition resourcePatterns : list Regex.literal :=
  [//"on resource:\s*(arn:aws:[^:\s]+:[^:\s]*:[^:\s]*:[^:\s]+:[^\s,]+)"//i;
   //"resource:\s*(arn:aws:[^:\s]+:[^:\s]*:[^:\s]*:[^:\s]+:[^\s,]+)"//i;
   //"on\s+(arn:aws:[^:\s]+:[^:\s]*:[^:\s]*:[^:\s]+:[^\s,]+)"//i;
   //"(arn:aws:[^:\s]+:[^:\s]*:[^:\s]*:[^:\s]+:[^\s,]+)"//i;
   //"on table\s+([^\s,]+)"//i;
   //"table\s+([^\s,]+)"//i;
   //"Resource:\s*([^\s,]+)"//i;
   //"Bucket:\s*([^\s,]+)"//i;
   //"Key:\s*([^\s,]+)"//i].

Fixpoint firstResource (patterns : list Regex.literal) (message : jsstring)
  : option jsstring :=
  match patterns with
  | [] => None
  | pattern :: rest =>
      match capture1 pattern message with
      | Some text =>
          if includes (Regex.source pattern) (js "table")
             && negb (startsWith text (js "table "))
          then Some (js "table " ++ text)
          else Some text
      | None => firstResource rest message
      end
  end.

Definition extractResourceFromText (message : jsstring) : jsstring :=
  match firstResource resourcePatterns message with
  | Some text => text
  | None => js "Unknown"
  end.

Definition principalPatterns : list Regex.literal :=
  [//"User:\s*(arn:aws:iam::[^:\s]+:(user|role)\/[^\s,]+)"//i;
   //"Principal\s+(arn:aws:iam::[^:\s]+:(user|role)\/[^\s,]+)"//i;
   //"(arn:aws:iam::[^:\s]+:(user|role)\/[^\s,]+)"//i;
   //"for\s+(role\/[^\s,]+)"//i;
   //"User:\s*([^\s,]+)"//i;
   //"Role:\s*([^\s,]+)"//i;
   //"Principal:\s*([^\s,]+)"//i].

Definition extractPrincipalFromText (message : jsstring) : jsstring :=
  match firstCapture principalPatterns message with
  | Some text => text
  | None => js "Unknown"
  end.

Definition errorPatterns : list Regex.literal :=
  [//"ErrorCode:\s*([^\s,]+)"//i;
   //"(AccessDenied)"//i;
   //"(UnauthorizedOperation)"//i;
   //"(Forbidden)"//i;
   //"(InvalidUserID\.NotFound)"//i;
   //"(InvalidAction)"//i;
   //"(NoSuchBucket)"//i;
   //"(NoSuchKey)"//i;
   //"(CredentialsNotFound)"//i;
   //"(InvalidAccessKeyId)"//i;
   //"(SignatureDoesNotMatch)"//i;
   //"(TokenRefreshRequired)"//i].

(** The loop of [extractErrorCodeFromText]: the first pattern that
    matches decides, with [match[1] || match[0] || 'Unknown']. *)
Fixpoint firstError (patterns : list Regex.literal) (message : jsstring)
  : option jsstring :=
  match patterns with
  | [] => None
  | pattern :: rest =>
      match Regex.exec pattern message with
      | Some m =>
          match Regex.group (Regex.groups m) 1 with
          | Some (c :: text) => Some (c :: text)
          | _ =>
              match Regex.whole m with
              | c :: text => Some (c :: text)
              | [] => Some (js "Unknown")
              end
          end
      | None => firstError rest message
      end
  end.

Definition extractErrorCodeFromText (message : jsstring) : jsstring :=
  match firstError errorPatterns message with
  | Some text => text
  | None =>
      if Regex.test (//"not authorized"//i) message
         || Regex.test (//"access denied"//i) message
      then js "AccessDenied"
      else js "Unknown"
  end.

(** The last two operands of the chains: the text extractor, then
    ['Unknown']. *)
Definition orText (a : option Json.value) (text : jsstring) : Json.value :=
  match Json.orElse (Json.orElse a (Some (Json.Str text)))
          (Some (Json.Str (js "Unknown"))) with
  | Some v => v
  | None => Json.Str (js "Unknown")
  end.

Definition extractAction (parsedMessage : Json.value) (rawMessage : jsstring)
  : Json.value :=
  orText
    (Json.orElse (Json.get parsedMessage (js "eventName"))
       (Json.orElse (Json.get parsedMessage (js "action"))
          (Json.get parsedMessage (js "operation"))))
    (extractActionFromText rawMessage).

Definition extractResource (parsedMessage : Json.value) (rawMessage : jsstring)
  : Json.value :=
  orText
    (Json.orElse
       (Json.getOptional
          (Json.firstOptional (Json.get parsedMessage (js "resources")))
          (js "ARN"))
       (Json.orElse (Json.get parsedMessage (js "resourceARN"))
          (Json.orElse (Json.get parsedMessage (js "resource"))
             (Json.orElse (Json.get parsedMessage (js "bucketName"))
                (Json.get parsedMessage (js "key"))))))
    (extractResourceFromText rawMessage).

Definition extractPrincipal (parsedMessage : Json.value) (rawMessage : jsstring)
  : Json.value :=
  orText
    (Json.orElse
       (Json.getOptional (Json.get parsedMessage (js "userIdentity")) (js "arn"))
       (Json.orElse
          (Json.getOptional (Json.get parsedMessage (js "userIdentity"))
             (js "userName"))
          (Json.orElse (Json.get parsedMessage (js "principal"))
             (Json.get parsedMessage (js "user")))))
    (extractPrincipalFromText rawMessage).

Definition extractErrorCode (parsedMessage : Json.value) (rawMessage : jsstring)
  : Json.value :=
  orText
    (Json.orElse (Json.get parsedMessage (js "errorCode"))
       (Json.orElse (Json.get parsedMessage (js "errorMessage"))
          (Json.get parsedMessage (js "error"))))
    (extractErrorCodeFromText rawMessage).

(** The [catch] block: the message is read as plain text. *)
Definition parseAsText (timestamp : Z) (logStream message : jsstring)
  (logGroupName : jsstring) : outcome (option Denial.t) :=
  match Date.toISOString timestamp with
  | None => Thrown (js "RangeError")
  | Some iso =>
      Returned
        (Some
           {| Denial.timestamp := iso;
              Denial.logGroup := logGroupName;
              Denial.logStream := logStream;
              Denial.message := message;
              Denial.action := Json.Str (extractActionFromText message);
              Denial.resource := Json.Str (extractResourceFromText message);
              Denial.principal := Json.Str (extractPrincipalFromText message);
              Denial.errorCode := Json.Str (extractErrorCodeFromText message);
              Denial.sourceIp := None;
              Denial.userAgent := None |})
  end.

(** [!s] for an optional string and [!n] for an optional number. *)
Definition noString (s : option jsstring) : bool :=
  match s with
  | Some (_ :: _) => false
  | _ => true
  end.

Definition noNumber (n : option Z) : bool :=
  match n with
  | Some t => (t =? 0)%Z
  | None => true
  end.

(** The value of a member known to be present. *)
Definition theString (s : option jsstring) : jsstring :=
  match s with Some text => text | None => [] end.

Definition theNumber (n : option Z) : Z :=
  match n with Some t => t | None => 0%Z end.

Definition parsePermissionDenial (event : FilteredLogEvent.t)
  (logGroupName : jsstring) : outcome (option Denial.t) :=
  if noString (FilteredLogEvent.message event)
     || noNumber (FilteredLogEvent.timestamp event)
     || noString (FilteredLogEvent.logStreamName event)
  then Returned None
  else
    let message := theString (FilteredLogEvent.message event) in
    let timestamp := theNumber (FilteredLogEvent.timestamp event) in
    let logStream :=
      match FilteredLogEvent.logStreamName event with
      | Some (c :: text) => c :: text
      | _ => js "unknown"
      end in
    let hasPermissionDenial := hasPermissionDenialPattern message in
    if negb hasPermissionDenial then Returned None
    else
      (* try *)
      match Json.parse message with
      | None => (* SyntaxError *)
          parseAsText timestamp logStream message logGroupName
      | Some parsedMessage =>
          match Date.toISOString timestamp with
          | None => (* RangeError *)
              parseAsText timestamp logStream message logGroupName
          | Some iso =>
              match parsedMessage with
              | Json.Null => (* TypeError *)
                  parseAsText timestamp logStream message logGroupName
              | _ =>
                  Returned
                    (Some
                       {| Denial.timestamp := iso;
                          Denial.logGroup := logGroupName;
                          Denial.logStream := logStream;
                          Denial.message := message;
                          Denial.action := extractAction parsedMessage message;
                          Denial.resource :=
                            extractResource parsedMessage message;
                          Denial.principal :=
                            extractPrincipal parsedMessage message;
                          Denial.errorCode :=
                            extractErrorCode parsedMessage message;
                          Denial.sourceIp :=
                            Json.orElse
                              (Json.orElse
                                 (Json.get parsedMessage (js "sourceIPAddress"))
                                 (Json.get parsedMessage (js "sourceIp")))
                              None;
                          Denial.userAgent :=
                            Json.orElse
                              (Json.get parsedMessage (js "userAgent")) None |})
              end
          end
      end.

End Logs.

(** ** PermissionAnalyzerService *)

Inductive Severity := Low | Medium | High | Critical.

(** ** Data model (types/index.ts) *)

Module CloudFormationResource.
Record t := {
  logicalId : jsstring;
  physicalId : jsstring;
  resourceType : jsstring;
  logGroups : list jsstring;
  associatedRoles : option (list jsstring);
  associatedPolicies : option (list jsstring)
}.
End CloudFormationResource.

Module PermissionDenial.
Record t := {
  timestamp : jsstring;
  logGroup : jsstring;
  logStream : jsstring;
  message : jsstring;
  action : jsstring;
  resource : jsstring;
  principal : jsstring;
  errorCode : jsstring;
  sourceIp : option jsstring;
  userAgent : option jsstring
}.
End PermissionDenial.

Module LogAnalysisResult.
Record t := {
  logGroupName : jsstring;
  associatedResource : option CloudFormationResource.t;
  permissionDenials : list PermissionDenial.t;
  totalEvents : Z;
  timeRange : Z * Z
}.
End LogAnalysisResult.

Inductive Effect := Allow.

(** [SuggestedPermission]; [C] is the type of the condition objects
    ([Record<string, unknown>]). *)
Module SuggestedPermission.
Record t (C : Type) := {
  action : jsstring;
  resource : jsstring;
  effect : Effect;
  condition : option C;
  reasoning : jsstring;
  frequency : Z;
  severity : Severity
}.
Arguments action {C} _.
Arguments resource {C} _.
Arguments effect {C} _.
Arguments condition {C} _.
Arguments reasoning {C} _.
Arguments frequency {C} _.
Arguments severity {C} _.
End SuggestedPermission.

(** What the analyzer does with a condition object: it serialises it
    ([JSON.stringify(c)] and [JSON.stringify(c, null, 4)]), counts its own
    keys and stores it in a [Set], which compares object references. *)
Class JsObject (C : Type) := {
  JSON_stringify : C -> jsstring;
  JSON_stringify_indent4 : C -> jsstring;
  Object_keys_length : C -> nat;
  same_object : C -> C -> bool
}.

Module Analyzer.

(** [action.toLowerCase()]; as [toLowerCase], it is the function of the
    code on the actions whose code units are below 256 (every action name
    of AWS is ASCII), and the properties that read its result are stated
    for such actions. *)
Definition normalizeAction (action : jsstring) : jsstring :=
  toLowerCase action.

Definition normalizeResource (resource : jsstring) : jsstring :=
  if startsWith resource (js "arn:aws:") then resource
  else if includes resource (js "/") then js "arn:aws:*:*:*:" ++ resource
  else resource.

(** The action is lower-cased with [toLowerCase]: the rating is that of
    the code for the actions whose code units are below 256. *)
Definition calculateSeverity
  (action errorCode : jsstring) (totalDenials : nat) : Severity :=
  let lowerAction := toLowerCase action in
  if includes errorCode (js "AccessDenied")
     && (includes lowerAction (js "lambda:invokefunction")
         || includes lowerAction (js "dynamodb:")
         || includes lowerAction (js "s3:getobject"))
  then Critical
  else if (10 <? totalDenials) || includes errorCode (js "UnauthorizedOperation")
  then High
  else if (3 <? totalDenials)
          || includes lowerAction (js "read")
          || includes lowerAction (js "get")
  then Medium
  else Low.


(** *** analyzeLogs *)

(** A row of [permissionMap]. *)
Module Candidate.
Record t := {
  action : jsstring;
  frequency : Z;
  resource : jsstring;
  reasoning : list jsstring;
  severity : Severity;
  associatedResources : list jsstring
}.
End Candidate.

(** The key under which the loop of [analyzeLogs] stores a denial. *)
Definition key (denial : PermissionDenial.t) : jsstring :=
  normalizeAction (PermissionDenial.action denial)
  ++ js "|||" ++ normalizeResource (PermissionDenial.resource denial).

(** The body of the inner loop: one denial of [result] is merged into
    [permissionMap].  In the first branch the stored object is mutated in
    place; [StrMap.set] on its key writes the mutated row back at the same
    position. *)
Definition processDenial (result : LogAnalysisResult.t)
  (permissionMap : StrMap.t Candidate.t) (denial : PermissionDenial.t)
  : StrMap.t Candidate.t :=
  let action := normalizeAction (PermissionDenial.action denial) in
  let resource := normalizeResource (PermissionDenial.resource denial) in
  let key := action ++ js "|||" ++ resource in
  match StrMap.get permissionMap key with
  | Some existing =>
      StrMap.set permissionMap key
        {| Candidate.action := Candidate.action existing;
           Candidate.frequency := (Candidate.frequency existing + 1)%Z;
           Candidate.resource := Candidate.resource existing;
           Candidate.reasoning :=
             Candidate.reasoning existing
             ++ [js "Additional denial in "
                 ++ LogAnalysisResult.logGroupName result
                 ++ js ": " ++ PermissionDenial.errorCode denial];
           Candidate.severity := Candidate.severity existing;
           Candidate.associatedResources :=
             match LogAnalysisResult.associatedResource result with
             | Some r =>
                 Candidate.associatedResources existing
                 ++ [CloudFormationResource.logicalId r]
             | None => Candidate.associatedResources existing
             end |}
  | None =>
      let severity :=
        calculateSeverity action (PermissionDenial.errorCode denial)
          (List.length (LogAnalysisResult.permissionDenials result)) in
      StrMap.set permissionMap key
        {| Candidate.action := action;
           Candidate.frequency := 1%Z;
           Candidate.resource := resource;
           Candidate.reasoning :=
             [js "Permission denied in "
              ++ LogAnalysisResult.logGroupName result
              ++ js ": " ++ PermissionDenial.errorCode denial];
           Candidate.severity := severity;
           Candidate.associatedResources :=
             match LogAnalysisResult.associatedResource result with
             | Some r => [CloudFormationResource.logicalId r]
             | None => []
             end |}
  end.

(** The two nested loops of [analyzeLogs], from an empty map. *)
Definition aggregate (logAnalysisResults : list LogAnalysisResult.t)
  : StrMap.t Candidate.t :=
  fold_left
    (fun permissionMap result =>
       fold_left (processDenial result)
         (LogAnalysisResult.permissionDenials result) permissionMap)
    logAnalysisResults [].

(** The condition object built by [generateConditions]: its three
    possible entries, in the order in which they are inserted.
    [DateGreaterThan] holds the value of ['aws:CurrentTime'].  [ref]
    identifies the object: it is the number of the call that created
    it. *)
Module Conditions.
Record t := {
  ref : nat;
  DateGreaterThan : option jsstring;
  IpAddress : bool;
  Bool : bool
}.

Definition toTree (c : t) : tree :=
  TObj
    (match DateGreaterThan c with
     | Some now =>
         [(js "DateGreaterThan", TObj [(js "aws:CurrentTime", TStr now)])]
     | None => []
     end
     ++ (if IpAddress c
         then [(js "IpAddress",
                TObj [(js "aws:SourceIp",
                       TArr [TStr (js "10.0.0.0/8"); TStr (js "172.16.0.0/12");
                             TStr (js "192.168.0.0/16")])])]
         else [])
     ++ (if Bool c
         then [(js "Bool",
                TObj [(js "aws:MultiFactorAuthPresent", TStr (js "true"))])]
         else [])).

Definition keys (c : t) : nat :=
  match toTree c with
  | TObj props => List.length props
  | _ => 0
  end.
End Conditions.

#[global] Instance Conditions_JsObject : JsObject Conditions.t := {
  JSON_stringify c := stringifyTree (Conditions.toTree c);
  JSON_stringify_indent4 c := stringifyTreeIndent 0 (Conditions.toTree c);
  Object_keys_length := Conditions.keys;
  same_object a b := Nat.eqb (Conditions.ref a) (Conditions.ref b)
}.

(** [call] numbers the call and [now] is the value of
    [new Date().toISOString()] during it. *)
Definition generateConditions (call : nat) (now : jsstring)
  (action resource : jsstring) : option Conditions.t :=
  let conditions :=
    {| Conditions.ref := call;
       Conditions.DateGreaterThan :=
         if includes action (js "delete") || includes action (js "put")
            || includes action (js "create")
         then Some now else None;
       Conditions.IpAddress :=
         includes resource (js "api") || includes resource (js "public");
       Conditions.Bool :=
         includes action (js "delete") || includes action (js "iam:")
         || includes action (js "admin") |} in
  if 0 <? Conditions.keys conditions then Some conditions else None.

Definition consolidateReasoning (reasons associatedResources : list jsstring)
  : jsstring :=
  let uniqueReasons := unique reasons in
  let consolidated := join (js "; ") uniqueReasons in
  match associatedResources with
  | [] => consolidated
  | _ :: _ =>
      let uniqueResources := unique associatedResources in
      consolidated ++ js ". Associated with CloudFormation resources: "
        ++ join (js ", ") uniqueResources
  end.

Definition severityOrder (s : Severity) : Z :=
  match s with Critical => 4%Z | High => 3%Z | Medium => 2%Z | Low => 1%Z end.

(** The comparator handed to [suggestions.sort]. *)
Definition compareSuggestions {C} (a b : SuggestedPermission.t C) : Z :=
  let severityDiff :=
    (severityOrder (SuggestedPermission.severity b)
     - severityOrder (SuggestedPermission.severity a))%Z in
  if negb (severityDiff =? 0)%Z then severityDiff
  else (SuggestedPermission.frequency b - SuggestedPermission.frequency a)%Z.

(** [arr.sort(cmp)], a stable sort. *)
Fixpoint insertBy {A} (cmp : A -> A -> Z) (x : A) (l : list A) : list A :=
  match l with
  | [] => [x]
  | y :: l' => if (cmp x y <=? 0)%Z then x :: l else y :: insertBy cmp x l'
  end.

Definition sortBy {A} (cmp : A -> A -> Z) (l : list A) : list A :=
  fold_right (insertBy cmp) [] l.

(** The conversion loop.  [clock n] is the time read by the [n]-th call of
    [generateConditions]; the function is called a second time for a row
    whose first call produced a condition, and the object of the second
    call is the one stored. *)
Fixpoint suggest (clock : nat -> jsstring) (n : nat)
  (rows : list Candidate.t) : list (SuggestedPermission.t Conditions.t) :=
  match rows with
  | [] => []
  | data :: rows' =>
      let action := Candidate.action data in
      let mk c :=
        {| SuggestedPermission.action :=
             match action with [] => js "Unknown" | _ :: _ => action end;
           SuggestedPermission.resource := Candidate.resource data;
           SuggestedPermission.effect := Allow;
           SuggestedPermission.condition := c;
           SuggestedPermission.reasoning :=
             consolidateReasoning (Candidate.reasoning data)
               (Candidate.associatedResources data);
           SuggestedPermission.frequency := Candidate.frequency data;
           SuggestedPermission.severity := Candidate.severity data |} in
      match generateConditions n (clock n) action (Candidate.resource data) with
      | Some _ =>
          mk (generateConditions (S n) (clock (S n)) action
                (Candidate.resource data))
          :: suggest clock (S (S n)) rows'
      | None => mk None :: suggest clock (S n) rows'
      end
  end.

Definition analyzeLogs (clock : nat -> jsstring)
  (logAnalysisResults : list LogAnalysisResult.t)
  : list (SuggestedPermission.t Conditions.t) :=
  let permissionMap := aggregate logAnalysisResults in
  sortBy compareSuggestions (suggest clock 0 (StrMap.values permissionMap)).

(** *** generateIAMPolicy *)

(** A row of [statementMap]. *)
Module StatementGroup.
Record t (C : Type) := {
  actions : list jsstring;
  resources : list jsstring;
  condition : option C
}.
Arguments actions {C} _.
Arguments resources {C} _.
Arguments condition {C} _.
End StatementGroup.

Module Statement.
Record t (C : Type) := {
  Effect : jsstring;
  Action : list jsstring;
  Resource : list jsstring;
  Condition : option C
}.
Arguments Effect {C} _.
Arguments Action {C} _.
Arguments Resource {C} _.
Arguments Condition {C} _.
End Statement.

Module Policy.
Record t (C : Type) := {
  Version : jsstring;
  Statement : list (Statement.t C)
}.
Arguments Version {C} _.
Arguments Statement {C} _.
End Policy.

Section Policy.
Context {C : Type} `{JsObject C}.

Definition conditionKey (condition : option C) : jsstring :=
  match condition with
  | Some c => JSON_stringify c
  | None => js "{}"
  end.

(** The body of the loop over [permissions]. *)
Definition addPermission (statementMap : StrMap.t (StatementGroup.t C))
  (permission : SuggestedPermission.t C) : StrMap.t (StatementGroup.t C) :=
  if (SuggestedPermission.frequency permission =? 0)%Z
     && match SuggestedPermission.severity permission with
        | Low => true
        | _ => false
        end
  then statementMap
  else
    let conditionKey := conditionKey (SuggestedPermission.condition permission) in
    let key := SuggestedPermission.resource permission ++ js ":" ++ conditionKey in
    match StrMap.get statementMap key with
    | Some statement =>
        StrMap.set statementMap key
          {| StatementGroup.actions :=
               set_add (StatementGroup.actions statement)
                 (SuggestedPermission.action permission);
             StatementGroup.resources :=
               set_add (StatementGroup.resources statement)
                 (SuggestedPermission.resource permission);
             StatementGroup.condition := StatementGroup.condition statement |}
    | None =>
        StrMap.set statementMap key
          {| StatementGroup.actions := [SuggestedPermission.action permission];
             StatementGroup.resources :=
               [SuggestedPermission.resource permission];
             StatementGroup.condition :=
               SuggestedPermission.condition permission |}
    end.

Definition toStatement (statement : StatementGroup.t C) : Statement.t C :=
  {| Statement.Effect := js "Allow";
     Statement.Action := sort (StatementGroup.actions statement);
     Statement.Resource := sort (StatementGroup.resources statement);
     Statement.Condition :=
       match StatementGroup.condition statement with
       | Some c => if 0 <? Object_keys_length c then Some c else None
       | None => None
       end |}.

Definition generateIAMPolicy (permissions : list (SuggestedPermission.t C))
  : Policy.t C :=
  let statementMap := fold_left addPermission permissions [] in
  let statements := List.map toStatement (StrMap.values statementMap) in
  {| Policy.Version := js "2012-10-17"; Policy.Statement := statements |}.

End Policy.

(** *** optimizeResourceArn *)

Definition optimizeResourceArn (resource : jsstring) : jsstring :=
  if str_eqb resource (js "Unknown") || str_eqb resource (js "*") then js "*"
  else if includes resource (js "arn:aws:s3:::")
          && negb (includes resource (js "/*"))
  then resource ++ js "/*"
  else if includes resource (js "*") then
    if includes resource (js "arn:aws:logs:") && endsWith resource (js "*")
    then
      if includes resource (js "log-group:") then resource
      else replace resource (js "*") (js "log-group:*")
    else resource
  else resource.

(** *** generateCDKCode *)

(** A row of the map built by [groupStatementsByResource]; [conditions] is
    a [Set] of objects. *)
Module ResourceGroup.
Record t (C : Type) := {
  actions : list jsstring;
  resources : list jsstring;
  conditions : list C
}.
Arguments actions {C} _.
Arguments resources {C} _.
Arguments conditions {C} _.
End ResourceGroup.

Definition getResourcePattern (resource : jsstring) : jsstring :=
  if includes resource (js "arn:aws:s3:::") then js "S3 Bucket Access"
  else if includes resource (js "arn:aws:dynamodb:") then js "DynamoDB Table Access"
  else if includes resource (js "arn:aws:lambda:") then js "Lambda Function Access"
  else if includes resource (js "arn:aws:logs:") then js "CloudWatch Logs Access"
  else if includes resource (js "arn:aws:iam:") then js "IAM Access"
  else if includes resource (js "arn:aws:ssm:") then js "Systems Manager Access"
  else if includes resource (js "arn:aws:secretsmanager:")
  then js "Secrets Manager Access"
  else if includes resource (js "arn:aws:kms:") then js "KMS Access"
  else js "General AWS Access".

(** The first letter of the service is changed by [upperUnit], and in
    [toCamelCase] by [lowerUnit]: the names are those of the code for
    services whose first code unit is below 256. *)
Definition generateRoleName (service stackName : jsstring) : jsstring :=
  let cleanStackName := keepAlnum stackName in
  let cleanService :=
    match service with
    | [] => []
    | c :: rest => upperUnit c ++ rest
    end in
  cleanStackName ++ cleanService ++ js "Role".

Definition toCamelCase (str : jsstring) : jsstring :=
  match str with
  | [] => []
  | c :: rest => lowerUnit c :: rest
  end.

(** The own properties of the table [principals]. *)
Definition principals : StrMap.t jsstring :=
  [(js "lambda", js "lambda.amazonaws.com");
   (js "s3", js "s3.amazonaws.com");
   (js "dynamodb", js "dynamodb.amazonaws.com");
   (js "ecs", js "ecs-tasks.amazonaws.com");
   (js "codebuild", js "codebuild.amazonaws.com");
   (js "stepfunctions", js "states.amazonaws.com");
   (js "apigateway", js "apigateway.amazonaws.com");
   (js "logs", js "logs.amazonaws.com");
   (js "ec2", js "ec2.amazonaws.com");
   (js "iam", js "iam.amazonaws.com")].

Section CDK.
Context {C : Type} `{JsObject C}.

(** [principals] is an object literal, so [principals[service]] also finds
    what [Object.prototype] has under the name [service] (such as
    [constructor]), all of it truthy.  [inherited name] is the text that
    a template literal prints for that member, when there is one. *)
Variable inherited : jsstring -> option jsstring.

Definition getServicePrincipal (service : jsstring) : jsstring :=
  match StrMap.get principals service with
  | Some principal => principal
  | None =>
      match inherited service with
      | Some text => text
      | None => service ++ js ".amazonaws.com"
      end
  end.

Definition groupPermissionsByService
  (permissions : list (SuggestedPermission.t C))
  : StrMap.t (list (SuggestedPermission.t C)) :=
  fold_left
    (fun groups permission =>
       let service :=
         match splitHead (SuggestedPermission.action permission) 58 with
         | [] => js "unknown"
         | head => head
         end in
       let groups :=
         if negb (StrMap.has groups service) then StrMap.set groups service []
         else groups in
       match StrMap.get groups service with
       | Some members => StrMap.set groups service (members ++ [permission])
       | None => groups
       end)
    permissions [].

(** [set.add(c)] on a [Set] of objects. *)
Definition add_object (s : list C) (c : C) : list C :=
  if existsb (same_object c) s then s else s ++ [c].

Definition groupStatementsByResource
  (permissions : list (SuggestedPermission.t C))
  : StrMap.t (ResourceGroup.t C) :=
  fold_left
    (fun groups permission =>
       let resourceKey :=
         getResourcePattern (SuggestedPermission.resource permission) in
       let groups :=
         if negb (StrMap.has groups resourceKey)
         then StrMap.set groups resourceKey
                {| ResourceGroup.actions := [];
                   ResourceGroup.resources := [];
                   ResourceGroup.conditions := [] |}
         else groups in
       match StrMap.get groups resourceKey with
       | Some group =>
           StrMap.set groups resourceKey
             {| ResourceGroup.actions :=
                  set_add (ResourceGroup.actions group)
                    (SuggestedPermission.action permission);
                ResourceGroup.resources :=
                  set_add (ResourceGroup.resources group)
                    (SuggestedPermission.resource permission);
                ResourceGroup.conditions :=
                  match SuggestedPermission.condition permission with
                  | Some c => add_object (ResourceGroup.conditions group) c
                  | None => ResourceGroup.conditions group
                  end |}
       | None => groups
       end)
    permissions [].

(** The filter at the head of [generateCDKCode]. *)
Definition relevant (p : SuggestedPermission.t C) : bool :=
  (0 <? SuggestedPermission.frequency p)%Z
  || match SuggestedPermission.severity p with
     | Critical => true
     | _ => false
     end
  || match SuggestedPermission.severity p with
     | High => true
     | _ => false
     end.

Definition header : list jsstring :=
  [js "// CDK TypeScript code generated by iam-scoped-permissions";
   js "// Copy this code into your CDK application";
   [];
   js "import * as iam from 'aws-cdk-lib/aws-iam';";
   js "import * as cdk from 'aws-cdk-lib';";
   js "import { Construct } from 'constructs';";
   []].

(** The lines pushed for one entry of [statementGroups]. *)
Definition statementLines (roleName : jsstring)
  (servicePermissions : list (SuggestedPermission.t C))
  (statementIndex : nat) (resourcePattern : jsstring)
  (actions : ResourceGroup.t C) : list jsstring :=
  let policyName := roleName ++ js "Policy" ++ decimal statementIndex in
  let optimizedResources :=
    sort (List.map optimizeResourceArn (ResourceGroup.resources actions)) in
  let triggerReasons :=
    firstn 3
      (List.map SuggestedPermission.reasoning
         (filter
            (fun p => set_has (ResourceGroup.actions actions)
                        (SuggestedPermission.action p))
            servicePermissions)) in
  [js "// Policy " ++ decimal statementIndex ++ js " for " ++ resourcePattern;
   toCamelCase roleName ++ js ".addToPolicy(new iam.PolicyStatement({";
   js "  sid: '" ++ policyName ++ js "',";
   js "  effect: iam.Effect.ALLOW,"]
  ++ match ResourceGroup.actions actions with
     | [action] => [js "  actions: ['" ++ action ++ js "'],"]
     | all =>
         [js "  actions: ["]
         ++ List.map (fun action => js "    '" ++ action ++ js "',") (sort all)
         ++ [js "  ],"]
     end
  ++ match optimizedResources with
     | [resource] => [js "  resources: ['" ++ resource ++ js "'],"]
     | all =>
         [js "  resources: ["]
         ++ List.map (fun resource => js "    '" ++ resource ++ js "',") all
         ++ [js "  ],"]
     end
  ++ match ResourceGroup.conditions actions with
     | [] => []
     | all =>
         [js "  conditions: {"]
         ++ List.map
              (fun condition =>
                 js "    " ++ indentLines (JSON_stringify_indent4 condition)
                 ++ js ",")
              all
         ++ [js "  },"]
     end
  ++ [js "}));"; []]
  ++ match triggerReasons with
     | [] => []
     | first :: more =>
         [js "// Triggered by: " ++ first]
         ++ match more with
            | [] => []
            | _ :: _ => [js "// Additional reasons: " ++ join (js ", ") more]
            end
         ++ [[]]
     end.

(** The inner loop, [statementIndex] counting from [statementIndex]. *)
Fixpoint statementsLines (roleName : jsstring)
  (servicePermissions : list (SuggestedPermission.t C))
  (statementIndex : nat)
  (statementGroups : StrMap.t (ResourceGroup.t C)) : list jsstring :=
  match statementGroups with
  | [] => []
  | (resourcePattern, actions) :: rest =>
      statementLines roleName servicePermissions statementIndex
        resourcePattern actions
      ++ statementsLines roleName servicePermissions (S statementIndex) rest
  end.

(** The outer loop, [roleIndex] counting from [roleIndex]. *)
Fixpoint rolesLines (stackName : jsstring) (roleIndex : nat)
  (serviceGroups : StrMap.t (list (SuggestedPermission.t C)))
  : list jsstring :=
  match serviceGroups with
  | [] => []
  | (serviceName, servicePermissions) :: rest =>
      let roleName := generateRoleName serviceName stackName in
      [js "// Role " ++ decimal roleIndex ++ js ": " ++ serviceName
       ++ js " permissions";
       js "const " ++ toCamelCase roleName ++ js " = new iam.Role(this, '"
       ++ roleName ++ js "', {";
       js "  assumedBy: new iam.ServicePrincipal('"
       ++ getServicePrincipal serviceName ++ js "'),";
       js "  description: 'Role for " ++ serviceName
       ++ js " with least privilege permissions based on log analysis',";
       js "});";
       []]
      ++ statementsLines roleName servicePermissions 1
           (groupStatementsByResource servicePermissions)
      ++ rolesLines stackName (S roleIndex) rest
  end.

Definition instructions : list jsstring :=
  [[];
   js "// Instructions:";
   js "// 1. Review the generated policies and adjust resource ARNs as needed";
   js "// 2. Replace service principals with your actual compute resources";
   js "// 3. Test thoroughly in a development environment";
   js "// 4. Ensure resource ARNs are as specific as possible (avoid wildcards)";
   js "// 5. Remove unused permissions after validation";
   js "// 6. This code avoids managed policies to comply with cdk-nag AWS Solutions IAM4"].

Definition generateCDKCode (permissions : list (SuggestedPermission.t C))
  (stackName : jsstring) : jsstring :=
  let code := header in
  let relevantPermissions := filter relevant permissions in
  match relevantPermissions with
  | [] =>
      join [10%N]
        (code ++ [js "// No permissions to generate - no issues found!"])
  | _ :: _ =>
      let serviceGroups := groupPermissionsByService relevantPermissions in
      join [10%N]
        (code
         ++ [js "// Add this to your CDK Stack class:"; []]
         ++ rolesLines stackName 1 serviceGroups
         ++ instructions)
  end.

End CDK.

End Analyzer.

(** ** CloudWatchLogsService: log groups *)

Module LogGroups.

Definition isCloudTrailLogGroup (logGroupName : jsstring) : bool :=
  includes logGroupName (js "CloudTrail")
  || includes logGroupName (js "cloudtrail")
  || includes logGroupName (js "aws-cloudtrail")
  || includes logGroupName (js "/aws/cloudtrail/")
  || Regex.test (//"CloudTrail\/.*"//) logGroupName
  || Regex.test (//"aws-api-logs"//) logGroupName
  || Regex.test (//"trail-logs"//) logGroupName.

Definition isStackRelatedLogGroup (logGroupName stackName : jsstring) : bool :=
  if includes logGroupName stackName then true
  else
    let stackPrefix := toLowerCase stackName in
    let logGroupLower := toLowerCase logGroupName in
    includes logGroupLower stackPrefix
    || includes logGroupLower (replace stackPrefix (js "-") [])
    || includes logGroupLower (replace stackPrefix (js "_") []).

(** [/^source$/.test(s)] for a pattern without flags: the match has to
    start at the first code unit and to end at the last. *)
Definition testWhole (source : jsstring) (s : jsstring) : bool :=
  match Regex.compile source with
  | Some r =>
      match Regex.run false r s []
              (fun rest caps =>
                 match rest with
                 | [] => Some (rest, caps)
                 | _ :: _ => None
                 end) with
      | Some _ => true
      | None => false
      end
  | None => false
  end.

Definition isValidLogGroupName (logGroupName : jsstring) : bool :=
  if includes logGroupName (js "arn:aws:")
     || includes logGroupName (js "https://")
     || includes logGroupName (js "amazonaws.com")
     || negb (testWhole (js "[\.\-_\/#A-Za-z0-9]+") logGroupName)
  then false
  else true.

(** [resources.find(resource => resource.logGroups.includes(logGroupName))
    || null]. *)
Definition findAssociatedResource (logGroupName : jsstring)
  (resources : list CloudFormationResource.t)
  : option CloudFormationResource.t :=
  List.find
    (fun resource =>
       set_has (CloudFormationResource.logGroups resource) logGroupName)
    resources.

End LogGroups.

(** *** The calls to CloudWatch Logs

    The asynchronous methods of the service are written in state-passing
    style: the state is the number of calls of [client.send] made so far,
    and the client is given by what its [n]-th call resolves to
    ([Returned]) or rejects with ([Thrown]).  What is printed on the
    console is left out, as are the members of a command, which only the
    client reads. *)

Module LogService.

(** A log group of a [DescribeLogGroups] response; its name is the only
    member read. *)
Module LogGroup.
Record t := {
  logGroupName : option jsstring
}.
End LogGroup.

Module DescribeLogGroupsOutput.
Record t := {
  logGroups : option (list LogGroup.t);
  nextToken : option jsstring
}.
End DescribeLogGroupsOutput.

Module FilterLogEventsOutput.
Record t := {
  events : option (list FilteredLogEvent.t)
}.
End FilterLogEventsOutput.

(** A [LogAnalysisResult] as [analyzeLogGroups] builds it, holding the
    denials as the parser returns them.  The two dates of [timeRange] are
    given by their time values, [None] for an invalid date. *)
Module Analysis.
Record t := {
  logGroupName : jsstring;
  associatedResource : option CloudFormationResource.t;
  permissionDenials : list Logs.Denial.t;
  totalEvents : Z;
  timeRange : option Z * option Z
}.
End Analysis.

(** The object returned by [discoverAllLogGroups]. *)
Module Discovered.
Record t := {
  all : list jsstring;
  cloudTrail : list jsstring;
  stackRelated : list jsstring
}.
End Discovered.

Section Client.

(** The [n]-th call of [client.send], for each of the two commands. *)
Variable describeLogGroups : nat -> outcome DescribeLogGroupsOutput.t.
Variable filterLogEvents : nat -> outcome FilterLogEventsOutput.t.

(** [new RegExp(pattern.replace(/\*/g, '.*'), 'i').test(principal)]: the
    test of a role pattern, which throws a [SyntaxError] when the pattern
    does not make a regular expression. *)
Variable roleTest : jsstring -> Json.value -> outcome bool.

(** The loop over the log groups of one page of [discoverAllLogGroups]. *)
Definition addLogGroups (stackName : option jsstring)
  (logGroups : list LogGroup.t) (found : Discovered.t) : Discovered.t :=
  fold_left
    (fun found logGroup =>
       match LogGroup.logGroupName logGroup with
       | Some (c :: rest) =>
           let logGroupName := c :: rest in
           {| Discovered.all := Discovered.all found ++ [logGroupName];
              Discovered.cloudTrail :=
                if LogGroups.isCloudTrailLogGroup logGroupName
                then Discovered.cloudTrail found ++ [logGroupName]
                else Discovered.cloudTrail found;
              Discovered.stackRelated :=
                match stackName with
                | Some (d :: name) =>
                    if LogGroups.isStackRelatedLogGroup logGroupName (d :: name)
                    then Discovered.stackRelated found ++ [logGroupName]
                    else Discovered.stackRelated found
                | _ => Discovered.stackRelated found
                end |}
       | _ => found
       end)
    logGroups found.

(** The [do ... while (nextToken)] loop; [fuel] bounds the number of
    pages, and [None] stands for a loop that has not ended within it. *)
Fixpoint discoverPages (fuel n : nat) (stackName : option jsstring)
  (found : Discovered.t) : option (outcome Discovered.t * nat) :=
  match fuel with
  | O => None
  | S fuel' =>
      match describeLogGroups n with
      | Thrown error => Some (Thrown error, S n)
      | Returned result =>
          let found' :=
            match DescribeLogGroupsOutput.logGroups result with
            | Some logGroups => addLogGroups stackName logGroups found
            | None => found
            end in
          match DescribeLogGroupsOutput.nextToken result with
          | Some (_ :: _) => discoverPages fuel' (S n) stackName found'
          | _ => Some (Returned found', S n)
          end
      end
  end.

Definition discoverAllLogGroups (fuel n : nat) (stackName : option jsstring)
  : option (Discovered.t * nat) :=
  match discoverPages fuel n stackName
          {| Discovered.all := []; Discovered.cloudTrail := [];
             Discovered.stackRelated := [] |} with
  | Some (Returned found, n') => Some (found, n')
  | Some (Thrown _, n') =>
      (* catch *)
      Some ({| Discovered.all := []; Discovered.cloudTrail := [];
               Discovered.stackRelated := [] |}, n')
  | None => None
  end.

Definition discoverCloudTrailLogGroups (fuel n : nat)
  : option (list jsstring * nat) :=
  match discoverAllLogGroups fuel n None with
  | Some (discovered, n') => Some (Discovered.cloudTrail discovered, n')
  | None => None
  end.


(** The loop over the events of a response.  The parser may throw; the
    loop then ends, and the handler of [searchPermissionDenials] goes on
    with the denials pushed so far: the flag tells that the [try] block
    has been left. *)
Fixpoint scanEvents (events : list FilteredLogEvent.t)
  (logGroupName : jsstring) (permissionDenials : list Logs.Denial.t)
  : list Logs.Denial.t * bool :=
  match events with
  | [] => (permissionDenials, false)
  | event :: rest =>
      match Logs.parsePermissionDenial event logGroupName with
      | Returned (Some denial) =>
          scanEvents rest logGroupName (permissionDenials ++ [denial])
      | Returned None => scanEvents rest logGroupName permissionDenials
      | Thrown _ => (permissionDenials, true)
      end
  end.

Definition isStateMachineLogGroup (logGroupName : jsstring) : bool :=
  includes (toLowerCase logGroupName) (js "stepfunction")
  || includes (toLowerCase logGroupName) (js "statemachine")
  || includes logGroupName (js "/aws/stepfunctions/").

(** The [try] block of [searchPermissionDenials] with its handler: the
    denials pushed when the block is left, one way or the other. *)
Definition collectDenials (n : nat) (logGroupName : jsstring)
  : list Logs.Denial.t * nat :=
  match filterLogEvents n with
  | Thrown _ => ([], S n)
  | Returned response =>
      let (permissionDenials, thrown) :=
        match FilterLogEventsOutput.events response with
        | Some events => scanEvents events logGroupName []
        | None => ([], false)
        end in
      if thrown then (permissionDenials, S n)
      else if (List.length permissionDenials =? 0)
              && isStateMachineLogGroup logGroupName
      then
        match filterLogEvents (S n) with
        | Thrown _ => (permissionDenials, S (S n))
        | Returned noFilterResponse =>
            match FilterLogEventsOutput.events noFilterResponse with
            | Some events =>
                (fst (scanEvents events logGroupName permissionDenials),
                 S (S n))
            | None => (permissionDenials, S (S n))
            end
        end
      else (permissionDenials, S n)
  end.

(** [rolePatterns.some(pattern => ...)]. *)
Fixpoint someRole (rolePatterns : list jsstring) (principal : Json.value)
  : outcome bool :=
  match rolePatterns with
  | [] => Returned false
  | pattern :: rest =>
      match roleTest pattern principal with
      | Returned true => Returned true
      | Returned false => someRole rest principal
      | Thrown error => Thrown error
      end
  end.

(** [permissionDenials.filter(denial => rolePatterns.some(...))]. *)
Fixpoint filterByRoles (rolePatterns : list jsstring)
  (permissionDenials : list Logs.Denial.t) : outcome (list Logs.Denial.t) :=
  match permissionDenials with
  | [] => Returned []
  | denial :: rest =>
      match someRole rolePatterns (Logs.Denial.principal denial) with
      | Thrown error => Thrown error
      | Returned keep =>
          match filterByRoles rolePatterns rest with
          | Thrown error => Thrown error
          | Returned kept =>
              Returned (if keep then denial :: kept else kept)
          end
      end
  end.

Definition searchPermissionDenials (n : nat) (logGroupName : jsstring)
  (rolePatterns : option (list jsstring))
  : outcome (list Logs.Denial.t) * nat :=
  let (permissionDenials, n') := collectDenials n logGroupName in
  match rolePatterns with
  | Some (pattern :: rest) =>
      (filterByRoles (pattern :: rest) permissionDenials, n')
  | _ => (Returned permissionDenials, n')
  end.




End Client.

End LogService.

(** ** Notions used to state the properties *)

Module Spec.

(** A denial together with the log analysis result it is listed in. *)
Abbreviation event := (LogAnalysisResult.t * PermissionDenial.t)%type.

(** The denials of a batch in the order in which the two loops of
    [analyzeLogs] visit them. *)
Definition events (logAnalysisResults : list LogAnalysisResult.t)
  : list event :=
  flat_map
    (fun result =>
       List.map (pair result) (LogAnalysisResult.permissionDenials result))
    logAnalysisResults.

(** The events of a batch that normalise to the key [k]. *)
Definition eventsOf (k : jsstring)
  (logAnalysisResults : list LogAnalysisResult.t) : list event :=
  filter (fun e => str_eqb (Analyzer.key (snd e)) k)
    (events logAnalysisResults).

(** The reasoning entry written for an event: [prefix], the log group
    name, a colon and the error code. *)
Definition note (prefix : jsstring) (e : event) : jsstring :=
  prefix ++ LogAnalysisResult.logGroupName (fst e)
  ++ js ": " ++ PermissionDenial.errorCode (snd e).

(** The number of rows of a map stored under the key [k]. *)
Definition rows {V} (k : jsstring) (m : StrMap.t V) : nat :=
  List.length (filter (fun kv => str_eqb (fst kv) k) m).

(** The severity computed when the event is the first of its key. *)
Definition severityAt (e : event) : Severity :=
  Analyzer.calculateSeverity
    (Analyzer.normalizeAction (PermissionDenial.action (snd e)))
    (PermissionDenial.errorCode (snd e))
    (List.length (LogAnalysisResult.permissionDenials (fst e))).

(** The logical id that an event adds to [associatedResources]. *)
Definition resourceIds (e : event) : list jsstring :=
  match LogAnalysisResult.associatedResource (fst e) with
  | Some r => [CloudFormationResource.logicalId r]
  | None => []
  end.

(** What the aggregation has stored for a key after a sequence of events:
    nothing when no event had the key, else a single row; its action,
    resource and severity are those of the first event of the key, its
    frequency counts the events, and its reasoning and associated
    resources list what each event adds, in order. *)
Definition stored (k : jsstring) (evs : list event)
  (m : StrMap.t Analyzer.Candidate.t) : Prop :=
  match filter (fun e => str_eqb (Analyzer.key (snd e)) k) evs with
  | [] => StrMap.get m k = None
  | first :: rest =>
      exists c,
        StrMap.get m k = Some c
        /\ rows k m = 1
        /\ Analyzer.Candidate.frequency c = Z.of_nat (List.length (first :: rest))
        /\ Analyzer.Candidate.reasoning c
           = note (js "Permission denied in ") first
             :: List.map (note (js "Additional denial in ")) rest
        /\ Analyzer.Candidate.severity c = severityAt first
        /\ Analyzer.Candidate.action c
           = Analyzer.normalizeAction (PermissionDenial.action (snd first))
        /\ Analyzer.Candidate.resource c
           = Analyzer.normalizeResource (PermissionDenial.resource (snd first))
        /\ Analyzer.Candidate.associatedResources c
           = flat_map resourceIds (first :: rest)
  end.

(** The test of the first statement of the loop of [generateIAMPolicy],
    negated: the permission is not skipped. *)
Definition kept {C} (p : SuggestedPermission.t C) : bool :=
  negb ((SuggestedPermission.frequency p =? 0)%Z
        && match SuggestedPermission.severity p with
           | Low => true
           | _ => false
           end).

(** A group of the statement map lists the action and the resource of
    [p]. *)
Definition grouped {C} (m : StrMap.t (Analyzer.StatementGroup.t C))
  (p : SuggestedPermission.t C) : Prop :=
  exists g, In g (StrMap.values m)
            /\ In (SuggestedPermission.action p) (Analyzer.StatementGroup.actions g)
            /\ In (SuggestedPermission.resource p) (Analyzer.StatementGroup.resources g).

(** Every entry of every group of the statement map comes from a kept
    permission of [l]. *)
Definition sourced {C} (l : list (SuggestedPermission.t C))
  (m : StrMap.t (Analyzer.StatementGroup.t C)) : Prop :=
  forall g, In g (StrMap.values m) ->
    (forall a, In a (Analyzer.StatementGroup.actions g) ->
               exists p, In p l /\ kept p = true
                         /\ SuggestedPermission.action p = a)
    /\ (forall r, In r (Analyzer.StatementGroup.resources g) ->
                  exists p, In p l /\ kept p = true
                            /\ SuggestedPermission.resource p = r).

End Spec.

(** ** Further notions used to state properties *)

Module Props.

(** The regular expression of a plain text, as [Regex.compile] builds
    it. *)
Fixpoint literalRegex (units : jsstring) : Regex.regex :=
  match units with
  | [] => Regex.Empty
  | [c] => Regex.Unit c
  | c :: rest => Regex.Seq (Regex.Unit c) (literalRegex rest)
  end.

(** A plain text followed by [r]. *)
Fixpoint seqUnits (units : jsstring) (r : Regex.regex) : Regex.regex :=
  match units with
  | [] => r
  | c :: rest => Regex.Seq (Regex.Unit c) (seqUnits rest r)
  end.

(** [s] starts with [p]; with [ignoreCase], up to the case of ASCII
    letters. *)
Fixpoint startsWithUnits (ignoreCase : bool) (s p : jsstring) {struct p}
  : bool :=
  match p with
  | [] => true
  | c :: p' =>
      match s with
      | [] => false
      | d :: s' =>
          Regex.unitMatches ignoreCase c d && startsWithUnits ignoreCase s' p'
      end
  end.

(** The continuation at the end of a pattern. *)
Definition accept : Regex.continuation := fun rest caps => Some (rest, caps).

(** [f] holds of [s] or of one of its proper suffixes. *)
Fixpoint anywhere (f : jsstring -> bool) (s : jsstring) : bool :=
  f s ||
  match s with
  | [] => false
  | _ :: s' => anywhere f s'
  end.

(** [s] contains [p]; with [ignoreCase], up to the case of ASCII
    letters. *)
Definition mentions (ignoreCase : bool) (s p : jsstring) : bool :=
  anywhere (fun t => startsWithUnits ignoreCase t p) s.

(** [s] is what is left of [message] at some position. *)
Definition restOf (message s : jsstring) : Prop :=
  exists before, message = before ++ s.

(** Every capture is a piece of [message]. *)
Definition cutFrom (message : jsstring) (caps : Regex.captures) : Prop :=
  forall index text, In (index, text) caps -> includes message text = true.

(** The response ends the paging of [discoverAllLogGroups]: the call
    rejects, or there is no further token. *)
Definition lastPage (response : outcome LogService.DescribeLogGroupsOutput.t)
  : bool :=
  match response with
  | Returned output =>
      match LogService.DescribeLogGroupsOutput.nextToken output with
      | Some (_ :: _) => false
      | _ => true
      end
  | Thrown _ => true
  end.

(** The names that a response to [DescribeLogGroups] lists, those that
    are not empty; none when the call rejects. *)
Definition pageNames (response : outcome LogService.DescribeLogGroupsOutput.t)
  : list jsstring :=
  match response with
  | Returned output =>
      match LogService.DescribeLogGroupsOutput.logGroups output with
      | Some logGroups =>
          flat_map
            (fun logGroup =>
               match LogService.LogGroup.logGroupName logGroup with
               | Some (c :: rest) => [c :: rest]
               | _ => []
               end)
            logGroups
      | None => []
      end
  | Thrown _ => []
  end.

(** The names listed by [count] calls from the [n]-th on, in order. *)
Definition listed
  (describeLogGroups : nat -> outcome LogService.DescribeLogGroupsOutput.t)
  (n count : nat) : list jsstring :=
  flat_map (fun i => pageNames (describeLogGroups i)) (seq n count).

(** What [discoverAllLogGroups] keeps of the names found: the CloudTrail
    log groups among them and, for a stack name that is given, those
    related to the stack; no name is empty. *)
Definition sorted_out (stackName : option jsstring)
  (found : LogService.Discovered.t) : Prop :=
  LogService.Discovered.cloudTrail found
  = filter LogGroups.isCloudTrailLogGroup (LogService.Discovered.all found)
  /\ LogService.Discovered.stackRelated found
     = match stackName with
       | Some (c :: name) =>
           filter
             (fun logGroupName =>
                LogGroups.isStackRelatedLogGroup logGroupName (c :: name))
             (LogService.Discovered.all found)
       | _ => []
       end
  /\ forall logGroupName,
      In logGroupName (LogService.Discovered.all found) -> logGroupName <> [].

(** The events of a response to [FilterLogEvents]; none when the call
    rejects. *)
Definition responseEvents
  (response : outcome LogService.FilterLogEventsOutput.t)
  : list FilteredLogEvent.t :=
  match response with
  | Returned output =>
      match LogService.FilterLogEventsOutput.events output with
      | Some events => events
      | None => []
      end
  | Thrown _ => []
  end.

(** The events fetched by the calls from the [n]-th up to the [n']-th,
    the latter left out. *)
Definition fetched
  (filterLogEvents : nat -> outcome LogService.FilterLogEventsOutput.t)
  (n n' : nat) : list FilteredLogEvent.t :=
  flat_map (fun i => responseEvents (filterLogEvents i)) (seq n (n' - n)).

(** The events before the first one on which the parser throws. *)
Fixpoint readable (logGroupName : jsstring) (events : list FilteredLogEvent.t)
  : list FilteredLogEvent.t :=
  match events with
  | [] => []
  | event :: rest =>
      match Logs.parsePermissionDenial event logGroupName with
      | Thrown _ => []
      | Returned _ => event :: readable logGroupName rest
      end
  end.

(** The denials that the parser returns for a list of events. *)
Definition denialsOf (logGroupName : jsstring)
  (events : list FilteredLogEvent.t) : list Logs.Denial.t :=
  flat_map
    (fun event =>
       match Logs.parsePermissionDenial event logGroupName with
       | Returned (Some denial) => [denial]
       | _ => []
       end)
    events.

(** The phrases that make a message a denial. *)
Definition denialPhrases : list jsstring :=
  [js "AccessDenied"; js "UnauthorizedOperation"; js "Forbidden";
   js "not authorized"; js "permission denied"; js "access denied";
   js "InvalidUserID.NotFound"; js "InvalidAction"; js "CredentialsNotFound";
   js "InvalidAccessKeyId"; js "SignatureDoesNotMatch";
   js "TokenRefreshRequired"; js "States.TaskFailed";
   js "States.ExecutionFailed"; js "lambda:InvokeFunction"].

(** A code unit allowed in a log group name: [.], [-], [_], [/], [#], a
    letter of A-Z or a-z, or a digit. *)
Definition logGroupUnit (c : N) : bool :=
  ((c =? 46) || (c =? 45) || (c =? 95) || (c =? 47) || (c =? 35)
   || ((65 <=? c) && (c <=? 90)) || ((97 <=? c) && (c <=? 122))
   || ((48 <=? c) && (c <=? 57)))%N.

(** The resource lists the log group. *)
Definition lists (resource : CloudFormationResource.t) (logGroupName : jsstring)
  : bool :=
  set_has (CloudFormationResource.logGroups resource) logGroupName.

(** The sum of the frequencies of a list of rows or suggestions. *)
Definition total (frequencies : list Z) : Z := fold_right Z.add 0%Z frequencies.

(** [a] may stand before [b] in the output of [analyzeLogs]: its severity
    ranks higher, or the same with a frequency at least as high. *)
Definition ranksBefore {C} (a b : SuggestedPermission.t C) : Prop :=
  (Analyzer.severityOrder (SuggestedPermission.severity b)
   < Analyzer.severityOrder (SuggestedPermission.severity a))%Z
  \/ (SuggestedPermission.severity a = SuggestedPermission.severity b
      /\ (SuggestedPermission.frequency b <= SuggestedPermission.frequency a)%Z).

(** The key under which [generateIAMPolicy] groups a permission. *)
Definition statementKey {C} `{JsObject C} (p : SuggestedPermission.t C)
  : jsstring :=
  SuggestedPermission.resource p ++ js ":"
  ++ Analyzer.conditionKey (SuggestedPermission.condition p).

(** The key under which [groupPermissionsByService] files a permission. *)
Definition service {C} (p : SuggestedPermission.t C) : jsstring :=
  match splitHead (SuggestedPermission.action p) 58 with
  | [] => js "unknown"
  | head => head
  end.

(** The members of [l] filed under the key [k], in the order of [l]. *)
Definition filed {A} (key : A -> jsstring) (k : jsstring) (l : list A)
  : list A :=
  filter (fun x => str_eqb (key x) k) l.

(** The distinct keys of [l], in order of first occurrence. *)
Definition keysOf {A} (key : A -> jsstring) (l : list A) : list jsstring :=
  unique (List.map key l).

(** The map with one row per key of [l], in order of first occurrence,
    each row built from the members filed under its key. *)
Definition groupBy {A V} (key : A -> jsstring) (row : list A -> V)
  (l : list A) : StrMap.t V :=
  List.map (fun k => (k, row (filed key k l))) (keysOf key l).

(** One round of a loop that files [x] under its key: the row of the key
    is updated, or started. *)
Definition fileUnder {A V} (key : A -> jsstring) (init : A -> V)
  (upd : V -> A -> V) (m : StrMap.t V) (x : A) : StrMap.t V :=
  StrMap.set m (key x)
    match StrMap.get m (key x) with
    | Some g => upd g x
    | None => init x
    end.

(** The key under which [analyzeLogs] stores an event. *)
Definition eventKey (e : Spec.event) : jsstring := Analyzer.key (snd e).

(** The row of [permissionMap] for the events of one key: action,
    resource and severity come from the first event, the frequency counts
    the events, and every event adds its note and its resource id. *)
Definition candidateOf (evs : list Spec.event) : Analyzer.Candidate.t :=
  {| Analyzer.Candidate.action :=
       match evs with
       | first :: _ =>
           Analyzer.normalizeAction (PermissionDenial.action (snd first))
       | [] => []
       end;
     Analyzer.Candidate.frequency := Z.of_nat (List.length evs);
     Analyzer.Candidate.resource :=
       match evs with
       | first :: _ =>
           Analyzer.normalizeResource (PermissionDenial.resource (snd first))
       | [] => []
       end;
     Analyzer.Candidate.reasoning :=
       match evs with
       | first :: rest =>
           Spec.note (js "Permission denied in ") first
           :: List.map (Spec.note (js "Additional denial in ")) rest
       | [] => []
       end;
     Analyzer.Candidate.severity :=
       match evs with
       | first :: _ => Spec.severityAt first
       | [] => Low
       end;
     Analyzer.Candidate.associatedResources :=
       flat_map Spec.resourceIds evs |}.

(** The row of [statementMap] for the permissions of one key: their
    distinct actions and resources, and the condition of the first. *)
Definition statementGroupOf {C} (members : list (SuggestedPermission.t C))
  : Analyzer.StatementGroup.t C :=
  {| Analyzer.StatementGroup.actions :=
       unique (List.map SuggestedPermission.action members);
     Analyzer.StatementGroup.resources :=
       unique (List.map SuggestedPermission.resource members);
     Analyzer.StatementGroup.condition :=
       match members with
       | first :: _ => SuggestedPermission.condition first
       | [] => None
       end |}.

(** The statement written for the permissions of one key: their distinct
    actions and resources, sorted, under the condition of the first when
    it has a key. *)
Definition statementOf {C} `{JsObject C}
  (members : list (SuggestedPermission.t C)) : Analyzer.Statement.t C :=
  {| Analyzer.Statement.Effect := js "Allow";
     Analyzer.Statement.Action :=
       sort (unique (List.map SuggestedPermission.action members));
     Analyzer.Statement.Resource :=
       sort (unique (List.map SuggestedPermission.resource members));
     Analyzer.Statement.Condition :=
       match members with
       | first :: _ =>
           match SuggestedPermission.condition first with
           | Some c => if 0 <? Object_keys_length c then Some c else None
           | None => None
           end
       | [] => None
       end |}.

(** The key under which [groupStatementsByResource] files a
    permission. *)
Definition pattern {C} (p : SuggestedPermission.t C) : jsstring :=
  Analyzer.getResourcePattern (SuggestedPermission.resource p).

(** The row of [groupStatementsByResource] for the permissions of one
    pattern: their distinct actions, resources and condition objects. *)
Definition resourceGroupOf {C} `{JsObject C}
  (members : list (SuggestedPermission.t C)) : Analyzer.ResourceGroup.t C :=
  {| Analyzer.ResourceGroup.actions :=
       unique (List.map SuggestedPermission.action members);
     Analyzer.ResourceGroup.resources :=
       unique (List.map SuggestedPermission.resource members);
     Analyzer.ResourceGroup.conditions :=
       fold_left
         (fun conditions p =>
            match SuggestedPermission.condition p with
            | Some c => Analyzer.add_object conditions c
            | None => conditions
            end)
         members [] |}.

(** Every code unit is below 256, where [toLowerCase] is written out. *)
Definition latin1 (s : jsstring) : bool := forallb (fun c => (c <? 256)%N) s.

(** Every action of the batch is made of code units below 256: the
    domain on which [normalizeAction], the keys of the aggregation and
    [calculateSeverity] are those of the code. *)
Definition latin1Actions (logAnalysisResults : list LogAnalysisResult.t)
  : bool :=
  forallb
    (fun result =>
       forallb (fun denial => latin1 (PermissionDenial.action denial))
         (LogAnalysisResult.permissionDenials result))
    logAnalysisResults.

(** A name between apostrophes, as the generated code writes it. *)
Definition inQuotes (name : jsstring) : jsstring := js "'" ++ name ++ js "'".

End Props.

(** ** Sample data, after the test suite *)

Definition sample_denial : PermissionDenial.t :=
  {| PermissionDenial.timestamp := js "2024-01-01T00:00:00Z";
     PermissionDenial.logGroup := js "/aws/lambda/test-function";
     PermissionDenial.logStream := js "test-stream";
     PermissionDenial.message := js "AccessDenied";
     PermissionDenial.action := js "s3:GetObject";
     PermissionDenial.resource := js "arn:aws:s3:::test-bucket/*";
     PermissionDenial.principal := js "arn:aws:iam::123456789012:role/test-role";
     PermissionDenial.errorCode := js "AccessDenied";
     PermissionDenial.sourceIp := None;
     PermissionDenial.userAgent := None |}.

Definition sample_function : CloudFormationResource.t :=
  {| CloudFormationResource.logicalId := js "TestFunction";
     CloudFormationResource.physicalId := js "test-function";
     CloudFormationResource.resourceType := js "AWS::Lambda::Function";
     CloudFormationResource.logGroups := [js "/aws/lambda/test-function"];
     CloudFormationResource.associatedRoles := None;
     CloudFormationResource.associatedPolicies := None |}.

Definition sample_result (denials : list PermissionDenial.t)
  : LogAnalysisResult.t :=
  {| LogAnalysisResult.logGroupName := js "/aws/lambda/test-function";
     LogAnalysisResult.associatedResource := Some sample_function;
     LogAnalysisResult.permissionDenials := denials;
     LogAnalysisResult.totalEvents := Z.of_nat (List.length denials);
     LogAnalysisResult.timeRange := (1704067200000, 1704153600000)%Z |}.


Definition sample_permission (action resource : jsstring) (frequency : Z)
  (severity : Severity) : SuggestedPermission.t Analyzer.Conditions.t :=
  {| SuggestedPermission.action := action;
     SuggestedPermission.resource := resource;
     SuggestedPermission.effect := Allow;
     SuggestedPermission.condition := None;
     SuggestedPermission.reasoning := js "Test permission";
     SuggestedPermission.frequency := frequency;
     SuggestedPermission.severity := severity |}.

(** "should exclude low-frequency, low-severity permissions". *)
Definition sample_permissions
  : list (SuggestedPermission.t Analyzer.Conditions.t) :=
  [sample_permission (js "s3:GetObject") (js "arn:aws:s3:::test-bucket/*") 0 Low;
   sample_permission (js "s3:PutObject") (js "arn:aws:s3:::test-bucket/*") 3 High].

(** "should sort permissions by severity and frequency". *)
Definition sample_batch : list LogAnalysisResult.t :=
  [{| LogAnalysisResult.logGroupName := js "/aws/lambda/test-function";
      LogAnalysisResult.associatedResource := None;
      LogAnalysisResult.permissionDenials :=
        [{| PermissionDenial.timestamp := js "2024-01-01T00:00:00Z";
            PermissionDenial.logGroup := js "/aws/lambda/test-function";
            PermissionDenial.logStream := js "test-stream";
            PermissionDenial.message := js "AccessDenied";
            PermissionDenial.action := js "logs:CreateLogGroup";
            PermissionDenial.resource :=
              js "arn:aws:logs:us-east-1:123456789012:*";
            PermissionDenial.principal :=
              js "arn:aws:iam::123456789012:role/test-role";
            PermissionDenial.errorCode := js "AccessDenied";
            PermissionDenial.sourceIp := None;
            PermissionDenial.userAgent := None |};
         sample_denial];
      LogAnalysisResult.totalEvents := 2;
      LogAnalysisResult.timeRange := (1704067200000, 1704153600000)%Z |}].

(** No service is named after a member of [Object.prototype]. *)
Definition no_inherited (name : jsstring) : option jsstring := None.


(** A literal with every apostrophe turned into a double quote, to
    write JSON text. *)
Definition quoted (s : string) : jsstring :=
  List.map (fun c => if N.eqb c 39 then 34%N else c) (js s).

(** The message of the test "should parse standard AccessDenied
    errors". *)
Definition sample_message : jsstring :=
  js "User: arn:aws:iam::123456789012:role/test-role is not authorized to perform: s3:GetObject on resource: arn:aws:s3:::test-bucket/file.txt".

Definition sample_event (timestamp : Z) (logStreamName message : jsstring)
  : FilteredLogEvent.t :=
  {| FilteredLogEvent.logStreamName := Some logStreamName;
     FilteredLogEvent.timestamp := Some timestamp;
     FilteredLogEvent.message := Some message;
     FilteredLogEvent.ingestionTime := None;
     FilteredLogEvent.eventId := None |}.

(** The four extracted fields, when they are strings. *)
Definition extracted (o : outcome (option Logs.Denial.t))
  : option (Json.value * Json.value * Json.value * Json.value) :=
  match o with
  | Returned (Some d) =>
      Some (Logs.Denial.action d, Logs.Denial.resource d,
            Logs.Denial.principal d, Logs.Denial.errorCode d)
  | _ => None
  end.

(** Four grants on one bucket, out of order and with a repetition, and
    the statement of the policy generated from them. *)
Definition sample_grants : list (SuggestedPermission.t Analyzer.Conditions.t) :=
  [sample_permission (js "s3:PutObject") (js "arn:aws:s3:::test-bucket/*") 3 High;
   sample_permission (js "s3:ListBucket") (js "arn:aws:s3:::test-bucket/*") 2 Medium;
   sample_permission (js "s3:GetObject") (js "arn:aws:s3:::test-bucket/*") 5 High;
   sample_permission (js "s3:PutObject") (js "arn:aws:s3:::test-bucket/*") 1 Low].

Definition sample_statement : Analyzer.Statement.t Analyzer.Conditions.t :=
  {| Analyzer.Statement.Effect := js "Allow";
     Analyzer.Statement.Action :=
       [js "s3:GetObject"; js "s3:ListBucket"; js "s3:PutObject"];
     Analyzer.Statement.Resource := [js "arn:aws:s3:::test-bucket/*"];
     Analyzer.Statement.Condition := None |}.

(** The suggestion that [analyzeLogs] makes for one sample denial of the
    sample function. *)
Definition sample_suggestion : SuggestedPermission.t Analyzer.Conditions.t :=
  {| SuggestedPermission.action := js "s3:getobject";
     SuggestedPermission.resource := js "arn:aws:s3:::test-bucket/*";
     SuggestedPermission.effect := Allow;
     SuggestedPermission.condition := None;
     SuggestedPermission.reasoning :=
       js "Permission denied in /aws/lambda/test-function: AccessDenied. Associated with CloudFormation resources: TestFunction";
     SuggestedPermission.frequency := 1;
     SuggestedPermission.severity := Critical |}.

(** What the parser returns for the sample message at the start of
    2024, in the stream ["test-stream"]. *)
Definition sample_parsed : Logs.Denial.t :=
  {| Logs.Denial.timestamp := js "2024-01-01T00:00:00.000Z";
     Logs.Denial.logGroup := js "/aws/lambda/test-function";
     Logs.Denial.logStream := js "test-stream";
     Logs.Denial.message := sample_message;
     Logs.Denial.action := Json.Str (js "s3:GetObject");
     Logs.Denial.resource := Json.Str (js "arn:aws:s3:::test-bucket/file.txt");
     Logs.Denial.principal :=
       Json.Str (js "arn:aws:iam::123456789012:role/test-role");
     Logs.Denial.errorCode := Json.Str (js "AccessDenied");
     Logs.Denial.sourceIp := None;
     Logs.Denial.userAgent := None |}.

(** A client that answers every query with the sample record, and every
    description with the log group of the sample function. *)
Definition sample_filter (n : nat) : outcome LogService.FilterLogEventsOutput.t :=
  Returned
    {| LogService.FilterLogEventsOutput.events :=
         Some [sample_event 1704067200000 (js "test-stream") sample_message] |}.

Definition sample_describe (n : nat)
  : outcome LogService.DescribeLogGroupsOutput.t :=
  Returned
    {| LogService.DescribeLogGroupsOutput.logGroups :=
         Some [{| LogService.LogGroup.logGroupName :=
                    Some (js "/aws/lambda/test-function") |}];
       LogService.DescribeLogGroupsOutput.nextToken := None |}.


(** A client whose first page of log groups announces a second one, the
    last. *)
Definition sample_pages (n : nat)
  : outcome LogService.DescribeLogGroupsOutput.t :=
  match n with
  | O =>
      Returned
        {| LogService.DescribeLogGroupsOutput.logGroups :=
             Some [{| LogService.LogGroup.logGroupName :=
                        Some (js "/aws/lambda/TestStack-handler") |};
                   {| LogService.LogGroup.logGroupName := None |};
                   {| LogService.LogGroup.logGroupName :=
                        Some (js "aws-cloudtrail-logs-teststack") |}];
           LogService.DescribeLogGroupsOutput.nextToken := Some (js "page-2") |}
  | S _ =>
      Returned
        {| LogService.DescribeLogGroupsOutput.logGroups :=
             Some [{| LogService.LogGroup.logGroupName :=
                        Some (js "/aws/lambda/other") |}];
           LogService.DescribeLogGroupsOutput.nextToken := None |}
  end.

(** Three records with the sample message: the timestamp of the second
    is one millisecond beyond the range of [Date], so that the parser
    throws on it; and a client that answers every query with them. *)
Definition sample_cut_events : list FilteredLogEvent.t :=
  [sample_event 1704067200000 (js "test-stream") sample_message;
   sample_event 8640000000000001 (js "test-stream") sample_message;
   sample_event 1704067200000 (js "later-stream") sample_message].

Definition sample_filter_cut (n : nat)
  : outcome LogService.FilterLogEventsOutput.t :=
  Returned
    {| LogService.FilterLogEventsOutput.events := Some sample_cut_events |}.

(** The role test of the code for a pattern made of letters, digits and
    hyphens and a principal that is a string: the principal contains the
    pattern, up to the case of ASCII letters. *)
Definition sample_roleTest (pattern : jsstring) (principal : Json.value)
  : outcome bool :=
  match principal with
  | Json.Str text => Returned (Props.mentions true text pattern)
  | _ => Returned false
  end.

(** * Properties *)

Example optimize_bucket :
  Analyzer.optimizeResourceArn (js "arn:aws:s3:::test-bucket")
  = js "arn:aws:s3:::test-bucket/*".
Proof. reflexivity. Qed.

Example optimize_logs :
  Analyzer.optimizeResourceArn (js "arn:aws:logs:us-east-1:123456789012:*")
  = js "arn:aws:logs:us-east-1:123456789012:log-group:*".
Proof. reflexivity. Qed.

(** ** Strings *)

Lemma str_eqb_eq (a b : jsstring) : str_eqb a b = true <-> a = b.
Proof.
  revert b; induction a as [|x a IH]; intros [|y b]; simpl;
    try (split; [discriminate | discriminate]); try tauto.
  rewrite andb_true_iff, N.eqb_eq, IH.
  split; [intros [-> ->]; reflexivity | intros E; inversion E; auto].
Qed.

Lemma str_eqb_refl (a : jsstring) : str_eqb a a = true.
Proof. apply str_eqb_eq; reflexivity. Qed.

Lemma str_eqb_neq (a b : jsstring) : str_eqb a b = false <-> a <> b.
Proof.
  rewrite <- str_eqb_eq. destruct (str_eqb a b); split; congruence.
Qed.

Lemma startsWith_spec (s p : jsstring) :
  startsWith s p = true <-> exists t, s = p ++ t.
Proof.
  revert s; induction p as [|c p IH]; intros s; simpl.
  - split; [intros _; exists s; reflexivity | reflexivity].
  - destruct s as [|d s].
    + split; [discriminate | intros [t E]; discriminate].
    + rewrite andb_true_iff, N.eqb_eq, IH. split.
      * intros [-> [t ->]]. exists t; reflexivity.
      * intros [t E]. inversion E; subst. split; [reflexivity | eauto].
Qed.

Lemma includes_spec (s p : jsstring) :
  includes s p = true <-> exists a b, s = a ++ p ++ b.
Proof.
  induction s as [|d s IH].
  - simpl. rewrite orb_false_r, startsWith_spec. split.
    + intros [t E]. exists [], t. exact E.
    + intros [[|x a] [b E]]; [exists b; exact E | discriminate].
  - cbn [includes]. rewrite orb_true_iff, IH, startsWith_spec. split.
    + intros [[t E] | [a [b E]]].
      * exists [], t. exact E.
      * exists (d :: a), b. rewrite E. reflexivity.
    + intros [[|x a] [b E]].
      * left. exists b. exact E.
      * right. inversion E; subst. exists a, b. reflexivity.
Qed.

Lemma includes_unit (s : jsstring) (c : N) : includes s [c] = true <-> In c s.
Proof.
  rewrite includes_spec. split.
  - intros [a [b ->]]. apply in_or_app. right. left. reflexivity.
  - intros H. apply in_split in H. destruct H as [a [b ->]].
    exists a, b. reflexivity.
Qed.

Lemma includes_app_l (s t p : jsstring) :
  includes s p = true -> includes (s ++ t) p = true.
Proof.
  rewrite !includes_spec. intros [a [b ->]]. exists a, (b ++ t).
  rewrite <- !app_assoc. reflexivity.
Qed.

Lemma includes_app_r (s t p : jsstring) :
  includes t p = true -> includes (s ++ t) p = true.
Proof.
  rewrite !includes_spec. intros [a [b ->]]. exists (s ++ a), b.
  rewrite <- !app_assoc. reflexivity.
Qed.

(** An occurrence of [p] in [s ++ [c]] lies in [s] when [c] is not a code
    unit of the (non-empty) pattern. *)
Lemma includes_snoc_inv (s p : jsstring) (c : N) :
  p <> [] -> ~ In c p ->
  includes (s ++ [c]) p = true -> includes s p = true.
Proof.
  intros Hp Hc. rewrite !includes_spec. intros [a [b E]].
  destruct (exists_last Hp) as [p' [x Ep]].
  destruct b as [|y b].
  - rewrite app_nil_r, Ep, app_assoc in E.
    apply app_inj_tail in E. destruct E as [_ ->].
    exfalso. apply Hc. rewrite Ep. apply in_or_app. right. left. reflexivity.
  - assert (Hb : y :: b <> []) by discriminate.
    destruct (exists_last Hb) as [b' [z Eb]]. rewrite Eb in E.
    rewrite !app_assoc in E. apply app_inj_tail in E. destruct E as [E _].
    exists a, b'. rewrite E, <- app_assoc. reflexivity.
Qed.

(** Where the first occurrence of a code unit is replaced. *)
Lemma replace_unit (s r : jsstring) (c : N) :
  In c s ->
  exists a b, s = a ++ c :: b /\ replace s [c] r = a ++ r ++ b.
Proof.
  induction s as [|d s IH]; intros H; [destruct H|].
  cbn [replace startsWith]. destruct (N.eqb d c) eqn:E.
  - apply N.eqb_eq in E. subst d. exists [], s. split; reflexivity.
  - simpl. destruct H as [-> | H]; [rewrite N.eqb_refl in E; discriminate|].
    destruct (IH H) as [a [b [-> Hr]]].
    exists (d :: a), b. split; [reflexivity|]. rewrite Hr. reflexivity.
Qed.

(** An occurrence of [p] in [u ++ c :: v], [c] not in [p], lies in [u] or
    in [v]. *)
Lemma occurrence_split (p u v x y : jsstring) (c : N) :
  ~ In c p -> x ++ p ++ y = u ++ c :: v ->
  (exists y', u = x ++ p ++ y') \/ (exists x', v = x' ++ p ++ y).
Proof.
  intros Hc E. apply app_eq_app in E.
  destruct E as [l [[Ex Ev] | [Eu Ep]]].
  - destruct l as [|d l].
    + destruct p as [|e p].
      * left. exists []. rewrite Ex, !app_nil_r. reflexivity.
      * simpl in Ev. inversion Ev; subst. exfalso. apply Hc. left. reflexivity.
    + simpl in Ev. inversion Ev; subst. right. exists l. reflexivity.
  - apply app_eq_app in Ep. destruct Ep as [m [[Ep Em] | [El Ey]]].
    + destruct m as [|d m].
      * left. exists []. rewrite Eu, Ep, !app_nil_r. reflexivity.
      * simpl in Em. inversion Em; subst. exfalso. apply Hc.
        apply in_or_app. right. left. reflexivity.
    + left. exists m. rewrite Eu, El. reflexivity.
Qed.

(** ** The ARN optimizer *)

Lemma includes_slash_star_inv (s p : jsstring) :
  p <> [] -> ~ In 47%N p -> ~ In 42%N p ->
  includes (s ++ js "/*") p = true -> includes s p = true.
Proof.
  intros Hp H47 H42 H.
  change (js "/*") with ([47%N] ++ [42%N]) in H. rewrite app_assoc in H.
  apply includes_snoc_inv in H; [|assumption|assumption].
  apply includes_snoc_inv in H; assumption.
Qed.

(** Putting [log-group:] in front of a [*] creates no occurrence of the
    S3 prefix: the inserted text has a single colon, at its end. *)
Lemma includes_s3_log_group (a b : jsstring) :
  includes (a ++ js "log-group:*" ++ b) (js "arn:aws:s3:::") = true ->
  includes (a ++ 42%N :: b) (js "arn:aws:s3:::") = true.
Proof.
  rewrite includes_spec. intros [x [y E]].
  change (js "log-group:*" ++ b) with (js "log-group:" ++ 42%N :: b) in E.
  rewrite app_assoc in E. symmetry in E.
  apply occurrence_split in E;
    [|cbv; intuition discriminate].
  destruct E as [[y' E] | [x' E]].
  - apply includes_app_l.
    apply (f_equal (@rev N)) in E. rewrite !rev_app_distr in E.
    remember (rev y') as z eqn:Ez. cbv [js list_ascii_of_string List.map] in E.
    simpl in E.
    do 10 (destruct z as [|? z]; [simpl in E; discriminate E|]).
    simpl in E. apply (f_equal (@skipn N 10)) in E. simpl in E.
    apply includes_spec. exists x, (rev z).
    apply (f_equal (@rev N)) in E. rewrite rev_involutive in E.
    rewrite E, !rev_app_distr, !rev_involutive. simpl.
    reflexivity.
  - apply includes_app_r. apply includes_spec.
    exists (42%N :: x'), y. rewrite E. reflexivity.
Qed.

Lemma optimize_fixed (r : jsstring) :
  str_eqb r (js "Unknown") || str_eqb r (js "*") = false ->
  includes r (js "arn:aws:s3:::") && negb (includes r (js "/*")) = false ->
  includes r (js "*") = false
  \/ includes r (js "arn:aws:logs:") && endsWith r (js "*") = false
  \/ includes r (js "log-group:") = true ->
  Analyzer.optimizeResourceArn r = r.
Proof.
  intros H1 H2 H3. unfold Analyzer.optimizeResourceArn. rewrite H1, H2.
  destruct H3 as [H3 | [H3 | H3]]; rewrite H3; try reflexivity.
  - destruct (includes r (js "*")); reflexivity.
  - destruct (includes r (js "*")); [|reflexivity].
    destruct (includes r (js "arn:aws:logs:") && endsWith r (js "*"));
      reflexivity.
Qed.

Lemma not_sentinel (r p : jsstring) :
  includes r p = true ->
  includes (js "Unknown") p = false -> includes (js "*") p = false ->
  str_eqb r (js "Unknown") || str_eqb r (js "*") = false.
Proof.
  intros Hr HU HS. apply orb_false_iff. split; apply str_eqb_neq; intros ->;
    congruence.
Qed.

(** C1 (counterexample): ["Unknown"] is not returned unchanged by
    [optimizeResourceArn]. *)
Lemma optimize_unknown_changed :
  Analyzer.optimizeResourceArn (js "Unknown") <> js "Unknown".
Proof. discriminate. Qed.

(** C1 (amended): [optimizeResourceArn] returns ["*"] for both sentinels:
    ["*"] is returned unchanged and ["Unknown"] is turned into ["*"]. *)
Theorem optimize_sentinels :
  Analyzer.optimizeResourceArn (js "Unknown") = js "*"
  /\ Analyzer.optimizeResourceArn (js "*") = js "*".
Proof. split; reflexivity. Qed.

(** C9 (counterexample): on an S3 object ARN whose key contains a
    CloudWatch Logs ARN prefix a second pass changes the result of the
    first. *)
Lemma optimize_twice_differs :
  Analyzer.optimizeResourceArn
    (Analyzer.optimizeResourceArn
       (js "arn:aws:s3:::my-bucket/arn:aws:logs:archive"))
  <> Analyzer.optimizeResourceArn
       (js "arn:aws:s3:::my-bucket/arn:aws:logs:archive").
Proof. vm_compute. discriminate. Qed.

(** C9 (amended): [optimizeResourceArn] is idempotent on every resource
    that lacks ["arn:aws:s3:::"], or lacks ["arn:aws:logs:"], or contains
    ["log-group:"]. *)
Theorem optimize_idempotent (r : jsstring) :
  includes r (js "arn:aws:s3:::") = false
  \/ includes r (js "arn:aws:logs:") = false
  \/ includes r (js "log-group:") = true ->
  Analyzer.optimizeResourceArn (Analyzer.optimizeResourceArn r)
  = Analyzer.optimizeResourceArn r.
Proof.
  intros Hsl.
  unfold Analyzer.optimizeResourceArn at 2 3.
  destruct (str_eqb r (js "Unknown") || str_eqb r (js "*")) eqn:H1;
    [reflexivity|].
  destruct (includes r (js "arn:aws:s3:::") && negb (includes r (js "/*")))
    eqn:H2.
  - (* a bucket ARN without object-level suffix *)
    apply andb_true_iff in H2. destruct H2 as [HS HW].
    apply optimize_fixed.
    + apply (not_sentinel _ (js "/*")); [|reflexivity|reflexivity].
      apply includes_app_r. reflexivity.
    + rewrite (includes_app_r r (js "/*") (js "/*") eq_refl).
      apply andb_false_r.
    + destruct Hsl as [Hsl | [HL | HG]]; [congruence| |].
      * right; left.
        destruct (includes (r ++ js "/*") (js "arn:aws:logs:")) eqn:E;
          [|reflexivity].
        apply includes_slash_star_inv in E;
          [congruence | discriminate | cbv; intuition discriminate
          | cbv; intuition discriminate].
      * right; right. apply includes_app_l. exact HG.
  - destruct (includes r (js "*")) eqn:HX;
      [|apply optimize_fixed; auto].
    destruct (includes r (js "arn:aws:logs:") && endsWith r (js "*")) eqn:HLE;
      [|apply optimize_fixed; auto].
    destruct (includes r (js "log-group:")) eqn:HG;
      [apply optimize_fixed; auto|].
    (* the wildcard of a logs ARN is being qualified *)
    apply andb_true_iff in HLE. destruct HLE as [HL _].
    destruct Hsl as [HS | [Hsl | Hsl]]; [|congruence|discriminate].
    apply includes_unit in HX.
    destruct (replace_unit r (js "log-group:*") 42%N HX) as [a [b [Er Erep]]].
    change (js "*") with [42%N]. rewrite Erep.
    apply optimize_fixed.
    + apply (not_sentinel _ (js "log-group:")); [|reflexivity|reflexivity].
      apply includes_app_r, includes_app_l. reflexivity.
    + destruct (includes (a ++ js "log-group:*" ++ b) (js "arn:aws:s3:::")) eqn:E;
        [|reflexivity].
      apply includes_s3_log_group in E. rewrite <- Er in E. congruence.
    + right; right. apply includes_app_r, includes_app_l. reflexivity.
Qed.

Lemma optimize_idempotent_witness :
  (includes (js "arn:aws:s3:::test-bucket") (js "arn:aws:s3:::") = false
   \/ includes (js "arn:aws:s3:::test-bucket") (js "arn:aws:logs:") = false
   \/ includes (js "arn:aws:s3:::test-bucket") (js "log-group:") = true)
  /\ Analyzer.optimizeResourceArn
       (Analyzer.optimizeResourceArn (js "arn:aws:s3:::test-bucket"))
     = Analyzer.optimizeResourceArn (js "arn:aws:s3:::test-bucket").
Proof.
  split.
  - right; left. reflexivity.
  - apply optimize_idempotent. right; left. reflexivity.
Defined.

(** ** Severity *)

Example severity_s3_get :
  Analyzer.calculateSeverity (js "s3:GetObject") (js "AccessDenied") 2 = Critical.
Proof. reflexivity. Qed.

Example severity_unauthorized :
  Analyzer.calculateSeverity (js "ec2:RunInstances") (js "UnauthorizedOperation") 1
  = High.
Proof. reflexivity. Qed.

Example severity_low :
  Analyzer.calculateSeverity (js "sns:Publish") (js "Forbidden") 3 = Low.
Proof. reflexivity. Qed.

(** C5 (counterexample): the error code ["AccessDeniedException"] is not
    ["AccessDenied"], yet a denied [s3:GetObject] carrying it is rated
    [Critical]. *)
Lemma severity_critical_other_code :
  ~ (Analyzer.calculateSeverity
       (js "s3:GetObject") (js "AccessDeniedException") 0 = Critical
     <-> js "AccessDeniedException" = js "AccessDenied"
         /\ (toLowerCase (js "s3:GetObject") = js "lambda:invokefunction"
             \/ startsWith (toLowerCase (js "s3:GetObject")) (js "dynamodb:")
                = true
             \/ toLowerCase (js "s3:GetObject") = js "s3:getobject")).
Proof.
  intros [H _]. destruct (H eq_refl) as [E _]. discriminate E.
Qed.

(** C5 (amended): for an action of code units below 256,
    [calculateSeverity] returns [Critical] exactly when the error code
    contains ["AccessDenied"] and the lower-cased action contains
    ["lambda:invokefunction"], ["dynamodb:"] or ["s3:getobject"]; the
    sibling count plays no part, and in particular
    [lambda:InvokeFunction] with [AccessDenied] is [Critical] for every
    count. *)
Theorem severity_critical_iff :
  (forall (action errorCode : jsstring) (totalDenials : nat),
      Props.latin1 action = true ->
      Analyzer.calculateSeverity action errorCode totalDenials = Critical
      <-> includes errorCode (js "AccessDenied") = true
          /\ (includes (toLowerCase action) (js "lambda:invokefunction") = true
              \/ includes (toLowerCase action) (js "dynamodb:") = true
              \/ includes (toLowerCase action) (js "s3:getobject") = true))
  /\ (forall totalDenials : nat,
         Analyzer.calculateSeverity
           (js "lambda:InvokeFunction") (js "AccessDenied") totalDenials
         = Critical).
Proof.
  split; [|intros n; reflexivity].
  intros action errorCode n _. unfold Analyzer.calculateSeverity.
  destruct (includes errorCode (js "AccessDenied")).
  - destruct (includes (toLowerCase action) (js "lambda:invokefunction"));
      [cbn; intuition|].
    destruct (includes (toLowerCase action) (js "dynamodb:"));
      [cbn; intuition|].
    destruct (includes (toLowerCase action) (js "s3:getobject"));
      [cbn; intuition|].
    cbn [andb orb].
    split; [|intros [_ [H | [H | H]]]; discriminate H].
    destruct (_ || _); [discriminate|]. destruct (_ || _); discriminate.
  - cbn [andb]. split; [|intros [H _]; discriminate H].
    destruct (_ || _); [discriminate|]. destruct (_ || _); discriminate.
Qed.

Lemma severity_critical_iff_witness :
  Props.latin1 (js "DynamoDB:GetItem") = true
  /\ (Analyzer.calculateSeverity (js "DynamoDB:GetItem")
        (js "AccessDeniedException") 0
      = Critical
      <-> includes (js "AccessDeniedException") (js "AccessDenied") = true
          /\ (includes (toLowerCase (js "DynamoDB:GetItem"))
                (js "lambda:invokefunction") = true
              \/ includes (toLowerCase (js "DynamoDB:GetItem"))
                   (js "dynamodb:") = true
              \/ includes (toLowerCase (js "DynamoDB:GetItem"))
                   (js "s3:getobject") = true)).
Proof.
  split; [reflexivity|].
  exact (proj1 severity_critical_iff (js "DynamoDB:GetItem")
           (js "AccessDeniedException") 0 eq_refl).
Defined.

(** ** Maps *)

Section StrMapFacts.
Context {V : Type}.
Implicit Types (m : StrMap.t V) (k : jsstring) (v : V).

Lemma get_set_same m k v : StrMap.get (StrMap.set m k v) k = Some v.
Proof.
  induction m as [|[k' v'] m IH]; simpl.
  - rewrite str_eqb_refl. reflexivity.
  - destruct (str_eqb k' k) eqn:E; simpl; rewrite E; auto.
Qed.

Lemma get_set_other m k k' v :
  k' <> k -> StrMap.get (StrMap.set m k v) k' = StrMap.get m k'.
Proof.
  intros Hne. induction m as [|[k0 v0] m IH]; simpl.
  - apply str_eqb_neq in Hne. destruct (str_eqb k k') eqn:E; [|reflexivity].
    apply str_eqb_eq in E. subst. rewrite str_eqb_refl in Hne. discriminate.
  - destruct (str_eqb k0 k) eqn:E; simpl.
    + apply str_eqb_eq in E. subst k0.
      apply not_eq_sym, str_eqb_neq in Hne. rewrite Hne. reflexivity.
    + rewrite IH. reflexivity.
Qed.

Lemma get_none_rows m k : StrMap.get m k = None -> Spec.rows k m = 0.
Proof.
  unfold Spec.rows. induction m as [|[k' v'] m IH]; simpl; [reflexivity|].
  destruct (str_eqb k' k); [discriminate | exact IH].
Qed.

Lemma rows_set_other m k k' v :
  k' <> k -> Spec.rows k' (StrMap.set m k v) = Spec.rows k' m.
Proof.
  intros Hne. unfold Spec.rows.
  induction m as [|[k0 v0] m IH]; simpl.
  - apply not_eq_sym, str_eqb_neq in Hne. rewrite Hne. reflexivity.
  - destruct (str_eqb k0 k) eqn:E; simpl.
    + destruct (str_eqb k0 k'); reflexivity.
    + destruct (str_eqb k0 k'); simpl; rewrite IH; reflexivity.
Qed.

Lemma rows_set_new m k v :
  StrMap.get m k = None -> Spec.rows k (StrMap.set m k v) = 1.
Proof.
  unfold Spec.rows. induction m as [|[k0 v0] m IH]; simpl.
  - rewrite str_eqb_refl. reflexivity.
  - destruct (str_eqb k0 k) eqn:E; [discriminate|].
    intros Hm. simpl. rewrite E. auto.
Qed.

Lemma rows_set_old m k v :
  Spec.rows k (StrMap.set m k v) = Nat.max 1 (Spec.rows k m).
Proof.
  unfold Spec.rows. induction m as [|[k0 v0] m IH]; simpl.
  - rewrite str_eqb_refl. reflexivity.
  - destruct (str_eqb k0 k) eqn:E; simpl; rewrite E; simpl; [reflexivity|].
    exact IH.
Qed.

Lemma keys_set_present m k v c :
  StrMap.get m k = Some c -> List.map fst (StrMap.set m k v) = List.map fst m.
Proof.
  induction m as [|[k0 v0] m IH]; simpl; [discriminate|].
  destruct (str_eqb k0 k); [reflexivity|].
  intros Hm. simpl. rewrite IH by exact Hm. reflexivity.
Qed.

Lemma values_set_new m k v :
  StrMap.get m k = None ->
  StrMap.values (StrMap.set m k v) = StrMap.values m ++ [v].
Proof.
  unfold StrMap.values. induction m as [|[k0 v0] m IH]; simpl; [reflexivity|].
  destruct (str_eqb k0 k); [discriminate|].
  intros Hm. simpl. rewrite IH by exact Hm. reflexivity.
Qed.

Lemma values_set_in m k v : In v (StrMap.values (StrMap.set m k v)).
Proof.
  unfold StrMap.values. induction m as [|[k0 v0] m IH]; simpl; [auto|].
  destruct (str_eqb k0 k); simpl; auto.
Qed.

Lemma values_set_keep m k v old x :
  StrMap.get m k = Some old -> In x (StrMap.values m) ->
  x = old \/ In x (StrMap.values (StrMap.set m k v)).
Proof.
  unfold StrMap.values. induction m as [|[k0 v0] m IH]; simpl; [tauto|].
  destruct (str_eqb k0 k); simpl.
  - intros E [<- | Hx]; [left; congruence | right; right; exact Hx].
  - intros E [<- | Hx]; [right; left; reflexivity|].
    destruct (IH E Hx); auto.
Qed.

Lemma values_set_inv m k v x :
  In x (StrMap.values (StrMap.set m k v)) -> x = v \/ In x (StrMap.values m).
Proof.
  unfold StrMap.values. induction m as [|[k0 v0] m IH]; simpl.
  - intros [<- | []]. auto.
  - destruct (str_eqb k0 k); simpl.
    + intros [<- | Hx]; auto.
    + intros [<- | Hx]; auto. destruct (IH Hx); auto.
Qed.

Lemma get_some_in m k x : StrMap.get m k = Some x -> In x (StrMap.values m).
Proof.
  unfold StrMap.values. induction m as [|[k0 v0] m IH]; simpl; [discriminate|].
  destruct (str_eqb k0 k); [intros E; left; congruence | auto].
Qed.

End StrMapFacts.

(** ** Aggregation *)

Lemma aggregate_events (results : list LogAnalysisResult.t)
  (m : StrMap.t Analyzer.Candidate.t) :
  fold_left
    (fun permissionMap result =>
       fold_left (Analyzer.processDenial result)
         (LogAnalysisResult.permissionDenials result) permissionMap)
    results m
  = fold_left (fun permissionMap e =>
                 Analyzer.processDenial (fst e) permissionMap (snd e))
      (Spec.events results) m.
Proof.
  revert m. induction results as [|r results IH]; intros m; [reflexivity|].
  cbn [fold_left Spec.events flat_map]. rewrite fold_left_app, IH. f_equal.
  generalize (LogAnalysisResult.permissionDenials r). intros ds. revert m.
  induction ds as [|d ds IHd]; intros m; [reflexivity|]. simpl. apply IHd.
Qed.

Lemma stored_step (evs : list Spec.event) (e : Spec.event)
  (m : StrMap.t Analyzer.Candidate.t) :
  (forall k, Spec.stored k evs m) ->
  forall k, Spec.stored k (evs ++ [e])
              (Analyzer.processDenial (fst e) m (snd e)).
Proof.
  intros Hall k. specialize (Hall k) as Hk. unfold Spec.stored in *.
  rewrite filter_app. cbn [filter].
  destruct e as [r d]. cbn [fst snd].
  unfold Analyzer.processDenial. fold (Analyzer.key d).
  destruct (str_eqb (Analyzer.key d) k) eqn:Ek.
  - apply str_eqb_eq in Ek. subst k. revert Hk.
    destruct (filter _ evs) as [|first rest]; intros Hk.
    + rewrite Hk. cbn [app]. eexists. split; [apply get_set_same|].
      split; [apply rows_set_new; exact Hk|].
      repeat (split; [reflexivity|]).
      cbn [flat_map Analyzer.Candidate.associatedResources].
      unfold Spec.resourceIds. cbn [fst].
      destruct (LogAnalysisResult.associatedResource r); reflexivity.
    + destruct Hk as [c [Hc [Hrows [Hfreq [Hreas [Hsev [Hact [Hres Hids]]]]]]]].
      rewrite Hc.
      cbn [app]. eexists. split; [apply get_set_same|].
      split; [rewrite rows_set_old, Hrows; reflexivity|].
      cbn [Analyzer.Candidate.frequency Analyzer.Candidate.reasoning
           Analyzer.Candidate.severity Analyzer.Candidate.action
           Analyzer.Candidate.resource Analyzer.Candidate.associatedResources].
      split; [|split; [|repeat (split; [assumption|])]].
      * rewrite Hfreq. cbn [List.length]. rewrite length_app. cbn [List.length].
        lia.
      * rewrite Hreas, map_app. reflexivity.
      * change (first :: rest ++ [(r, d)]) with ((first :: rest) ++ [(r, d)]).
        rewrite flat_map_app, <- Hids. cbn [flat_map].
        unfold Spec.resourceIds. cbn [fst]. rewrite app_nil_r.
        destruct (LogAnalysisResult.associatedResource r);
          [reflexivity | rewrite app_nil_r; reflexivity].
  - rewrite app_nil_r.
    assert (Hne : k <> Analyzer.key d)
      by (intros ->; rewrite str_eqb_refl in Ek; discriminate).
    revert Hk.
    destruct (StrMap.get m (Analyzer.key d)) as [c0|];
      (destruct (filter _ evs) as [|first rest]; intros Hk;
       [rewrite get_set_other by exact Hne; exact Hk
       |destruct Hk as [c [Hc [Hrows Hrest]]]; exists c;
        rewrite get_set_other by exact Hne;
        rewrite rows_set_other by exact Hne; auto]).
Qed.

Lemma stored_fold (evs : list Spec.event) :
  forall k,
    Spec.stored k evs
      (fold_left (fun permissionMap e =>
                    Analyzer.processDenial (fst e) permissionMap (snd e))
         evs []).
Proof.
  induction evs as [|e evs IH] using rev_ind; intros k.
  - reflexivity.
  - rewrite fold_left_app. cbn [fold_left]. apply stored_step. exact IH.
Qed.

Example aggregate_three :
  List.map
    (fun kv => (Analyzer.Candidate.frequency (snd kv),
                Analyzer.Candidate.reasoning (snd kv),
                Analyzer.Candidate.severity (snd kv)))
    (Analyzer.aggregate
       [sample_result [sample_denial; sample_denial; sample_denial]])
  = [(3%Z,
      [js "Permission denied in /aws/lambda/test-function: AccessDenied";
       js "Additional denial in /aws/lambda/test-function: AccessDenied";
       js "Additional denial in /aws/lambda/test-function: AccessDenied"],
      Critical)].
Proof. vm_compute. reflexivity. Qed.

Example analyzeLogs_sorted :
  List.map
    (fun p => (SuggestedPermission.action p, SuggestedPermission.severity p,
               SuggestedPermission.frequency p,
               option_map JSON_stringify (SuggestedPermission.condition p)))
    (Analyzer.analyzeLogs (fun _ => js "2024-01-01T00:00:00.000Z") sample_batch)
  = [(js "s3:getobject", Critical, 1%Z, None);
     (js "logs:createloggroup", Low, 1%Z,
      Some (quoted "{'DateGreaterThan':{'aws:CurrentTime':'2024-01-01T00:00:00.000Z'}}"))].
Proof. vm_compute. reflexivity. Qed.



(** C2 (counterexample): the second denial of a log group that belongs to
    the stack resource [TestFunction] merges into the row of the first one
    and changes its [associatedResources], a field other than frequency
    and reasoning. *)
Lemma merge_changes_associated_resources :
  let result := sample_result [sample_denial; sample_denial] in
  let before := Analyzer.processDenial result [] sample_denial in
  let after := Analyzer.processDenial result before sample_denial in
  exists existing merged,
    StrMap.get before (Analyzer.key sample_denial) = Some existing
    /\ StrMap.get after (Analyzer.key sample_denial) = Some merged
    /\ Analyzer.Candidate.associatedResources existing = [js "TestFunction"]
    /\ Analyzer.Candidate.associatedResources merged
       = [js "TestFunction"; js "TestFunction"]
    /\ Analyzer.Candidate.associatedResources merged
       <> Analyzer.Candidate.associatedResources existing.
Proof.
  intros result before after.
  eexists. eexists.
  split; [vm_compute; reflexivity|]. split; [vm_compute; reflexivity|].
  split; [reflexivity|]. split; [reflexivity|]. discriminate.
Qed.

(** C2 (amended): for actions of code units below 256, when a denial
    merges into an existing key, the row keeps
    its severity, action and resource; its frequency grows by one, its
    reasoning gets one entry appended, and its [associatedResources] gets
    the logical id of the associated resource appended when the log
    analysis result has one (and is unchanged otherwise); the rows of the
    other keys and the order of the keys are unchanged.  Hence after a
    whole batch the severity of a row is the one computed for the first
    event of its key. *)
Theorem merge_frame :
  (forall (result : LogAnalysisResult.t) (denial : PermissionDenial.t)
          (permissionMap : StrMap.t Analyzer.Candidate.t)
          (existing : Analyzer.Candidate.t),
      Props.latin1 (PermissionDenial.action denial) = true ->
      StrMap.get permissionMap (Analyzer.key denial) = Some existing ->
      let after := Analyzer.processDenial result permissionMap denial in
      (exists merged,
          StrMap.get after (Analyzer.key denial) = Some merged
          /\ Analyzer.Candidate.severity merged
             = Analyzer.Candidate.severity existing
          /\ Analyzer.Candidate.action merged
             = Analyzer.Candidate.action existing
          /\ Analyzer.Candidate.resource merged
             = Analyzer.Candidate.resource existing
          /\ Analyzer.Candidate.frequency merged
             = (Analyzer.Candidate.frequency existing + 1)%Z
          /\ Analyzer.Candidate.reasoning merged
             = Analyzer.Candidate.reasoning existing
               ++ [Spec.note (js "Additional denial in ") (result, denial)]
          /\ Analyzer.Candidate.associatedResources merged
             = Analyzer.Candidate.associatedResources existing
               ++ Spec.resourceIds (result, denial))
      /\ (forall k, k <> Analyzer.key denial ->
                    StrMap.get after k = StrMap.get permissionMap k)
      /\ List.map fst after = List.map fst permissionMap)
  /\ (forall (results : list LogAnalysisResult.t) (k : jsstring)
             (first : Spec.event) (rest : list Spec.event),
         Props.latin1Actions results = true ->
         Spec.eventsOf k results = first :: rest ->
         exists c,
           StrMap.get (Analyzer.aggregate results) k = Some c
           /\ Analyzer.Candidate.severity c = Spec.severityAt first).
Proof.
  split.
  - intros result denial permissionMap existing _ Hget after. subst after.
    unfold Analyzer.processDenial.
    fold (Analyzer.key denial). rewrite Hget. split; [|split].
    + eexists. split; [apply get_set_same|].
      cbn. repeat split. unfold Spec.resourceIds. cbn [fst].
      destruct (LogAnalysisResult.associatedResource result);
        [reflexivity | rewrite app_nil_r; reflexivity].
    + intros k Hk. apply get_set_other. exact Hk.
    + apply (keys_set_present _ _ _ existing). exact Hget.
  - intros results k first rest _ Hev.
    unfold Analyzer.aggregate. rewrite aggregate_events.
    pose proof (stored_fold (Spec.events results) k) as H.
    unfold Spec.stored in H. unfold Spec.eventsOf in Hev. rewrite Hev in H.
    destruct H as [c [Hc [_ [_ [_ [Hsev _]]]]]]. exists c. auto.
Qed.

Lemma merge_frame_witness :
  let result := sample_result [sample_denial; sample_denial] in
  let before := Analyzer.processDenial result [] sample_denial in
  let after := Analyzer.processDenial result before sample_denial in
  (Props.latin1 (PermissionDenial.action sample_denial) = true
   /\ Props.latin1Actions [result] = true)
  /\ (exists existing,
      StrMap.get before (Analyzer.key sample_denial) = Some existing
      /\ exists merged,
          StrMap.get after (Analyzer.key sample_denial) = Some merged
          /\ Analyzer.Candidate.severity merged
             = Analyzer.Candidate.severity existing
          /\ Analyzer.Candidate.action merged
             = Analyzer.Candidate.action existing
          /\ Analyzer.Candidate.resource merged
             = Analyzer.Candidate.resource existing
          /\ Analyzer.Candidate.frequency merged
             = (Analyzer.Candidate.frequency existing + 1)%Z
          /\ Analyzer.Candidate.reasoning merged
             = Analyzer.Candidate.reasoning existing
               ++ [Spec.note (js "Additional denial in ") (result, sample_denial)]
          /\ Analyzer.Candidate.associatedResources merged
             = Analyzer.Candidate.associatedResources existing
               ++ [js "TestFunction"])
  /\ (Spec.eventsOf (Analyzer.key sample_denial) [result]
      = [(result, sample_denial); (result, sample_denial)]
      /\ exists c,
          StrMap.get (Analyzer.aggregate [result]) (Analyzer.key sample_denial)
          = Some c
          /\ Analyzer.Candidate.severity c = Critical).
Proof.
  intros result before after. split; [split; reflexivity|]. split.
  - eexists. split; [vm_compute; reflexivity|].
    exact (proj1 (proj1 merge_frame result sample_denial before _ eq_refl
                    eq_refl)).
  - split; [reflexivity|].
    exact (proj2 merge_frame [result] (Analyzer.key sample_denial)
             (result, sample_denial) [(result, sample_denial)] eq_refl
             eq_refl).
Defined.

(** ** Sets and sorting *)

Lemma set_add_in (s : list jsstring) (x y : jsstring) :
  In y (set_add s x) <-> In y s \/ y = x.
Proof.
  unfold set_add, set_has. destruct (existsb (str_eqb x) s) eqn:E.
  - apply existsb_exists in E. destruct E as [z [Hz Ez]].
    apply str_eqb_eq in Ez. subst z. split; [auto | intros [H | ->]; auto].
  - rewrite in_app_iff. simpl. intuition.
Qed.

Lemma insert_sorted_in (x y : jsstring) (l : list jsstring) :
  In y (insert_sorted x l) <-> y = x \/ In y l.
Proof.
  induction l as [|z l IH]; simpl; [intuition|].
  destruct (str_ltb z x); simpl; [rewrite IH|]; intuition.
Qed.

Lemma sort_in (l : list jsstring) (y : jsstring) : In y (sort l) <-> In y l.
Proof.
  unfold sort. induction l as [|x l IH]; simpl; [tauto|].
  rewrite insert_sorted_in, IH. intuition.
Qed.

(** ** Policy synthesis *)

Section PolicyFacts.
Context {C : Type} `{JsObject C}.
Implicit Types (p : SuggestedPermission.t C)
  (m : StrMap.t (Analyzer.StatementGroup.t C)).

Lemma addPermission_dropped m p :
  Spec.kept p = false -> Analyzer.addPermission m p = m.
Proof.
  unfold Spec.kept, Analyzer.addPermission. intros E.
  apply negb_false_iff in E. rewrite E. reflexivity.
Qed.

Lemma addPermission_grouped m p :
  Spec.kept p = true -> Spec.grouped (Analyzer.addPermission m p) p.
Proof.
  unfold Spec.kept, Analyzer.addPermission. intros E.
  apply negb_true_iff in E. rewrite E.
  destruct (StrMap.get m _) as [g|]; eexists; (split; [apply values_set_in|]);
    cbn [Analyzer.StatementGroup.actions Analyzer.StatementGroup.resources].
  - split; apply set_add_in; right; reflexivity.
  - split; left; reflexivity.
Qed.

Lemma addPermission_keeps m p q :
  Spec.grouped m p -> Spec.grouped (Analyzer.addPermission m q) p.
Proof.
  intros [g [Hg [Ha Hr]]]. unfold Analyzer.addPermission.
  destruct (_ && _); [exists g; auto|].
  destruct (StrMap.get m _) as [old|] eqn:E.
  - destruct (values_set_keep _ _
                {| Analyzer.StatementGroup.actions :=
                     set_add (Analyzer.StatementGroup.actions old) (SuggestedPermission.action q);
                   Analyzer.StatementGroup.resources :=
                     set_add (Analyzer.StatementGroup.resources old)
                       (SuggestedPermission.resource q);
                   Analyzer.StatementGroup.condition := Analyzer.StatementGroup.condition old |}
                _ _ E Hg) as [-> | Hin].
    + eexists. split; [apply values_set_in|].
      cbn [Analyzer.StatementGroup.actions Analyzer.StatementGroup.resources].
      split; apply set_add_in; left; assumption.
    + exists g. auto.
  - exists g. rewrite values_set_new by exact E.
    split; [apply in_or_app; left; exact Hg | auto].
Qed.

Lemma fold_addPermission_keeps (l : list (SuggestedPermission.t C)) m p :
  Spec.grouped m p -> Spec.grouped (fold_left Analyzer.addPermission l m) p.
Proof.
  revert m. induction l as [|q l IH]; intros m Hm; [exact Hm|].
  simpl. apply IH, addPermission_keeps, Hm.
Qed.

Lemma fold_addPermission_grouped (l : list (SuggestedPermission.t C)) m p :
  In p l -> Spec.kept p = true ->
  Spec.grouped (fold_left Analyzer.addPermission l m) p.
Proof.
  revert m. induction l as [|q l IH]; intros m Hin Hk; [destruct Hin|].
  destruct Hin as [-> | Hin]; simpl.
  - apply fold_addPermission_keeps, addPermission_grouped, Hk.
  - apply IH; assumption.
Qed.

Lemma fold_addPermission_filter (l : list (SuggestedPermission.t C)) m :
  fold_left Analyzer.addPermission l m
  = fold_left Analyzer.addPermission (filter Spec.kept l) m.
Proof.
  revert m. induction l as [|q l IH]; intros m; [reflexivity|].
  simpl. destruct (Spec.kept q) eqn:E; simpl.
  - apply IH.
  - rewrite addPermission_dropped by exact E. apply IH.
Qed.

Lemma addPermission_sourced (l : list (SuggestedPermission.t C)) m q :
  In q l -> Spec.sourced l m -> Spec.sourced l (Analyzer.addPermission m q).
Proof.
  intros Hq Hm. unfold Analyzer.addPermission.
  destruct (_ && _) eqn:Ek; [exact Hm|].
  assert (Hkept : Spec.kept q = true)
    by (unfold Spec.kept; rewrite Ek; reflexivity).
  destruct (StrMap.get m _) as [old|] eqn:E; intros g Hg;
    apply values_set_inv in Hg; destruct Hg as [-> | Hg]; auto;
    cbn [Analyzer.StatementGroup.actions Analyzer.StatementGroup.resources].
  - apply get_some_in in E. destruct (Hm old E) as [Ha Hr].
    split; intros x Hx; apply set_add_in in Hx;
      (destruct Hx as [Hx | ->]; [auto | exists q; auto]).
  - split; intros x [<- | []]; exists q; auto.
Qed.

Lemma fold_addPermission_sourced (l l' : list (SuggestedPermission.t C)) m :
  incl l' l -> Spec.sourced l m ->
  Spec.sourced l (fold_left Analyzer.addPermission l' m).
Proof.
  revert m. induction l' as [|q l' IH]; intros m Hincl Hm; [exact Hm|].
  simpl. apply IH.
  - intros x Hx. apply Hincl. right. exact Hx.
  - apply addPermission_sourced; [apply Hincl; left; reflexivity | exact Hm].
Qed.

End PolicyFacts.

Example policy_groups_by_resource :
  List.map
    (fun st => (Analyzer.Statement.Action st, Analyzer.Statement.Resource st))
    (Analyzer.Policy.Statement
       (Analyzer.generateIAMPolicy
          [sample_permission (js "s3:PutObject") (js "arn:aws:s3:::test-bucket/*") 3 Medium;
           sample_permission (js "s3:GetObject") (js "arn:aws:s3:::test-bucket/*") 5 High]))
  = [([js "s3:GetObject"; js "s3:PutObject"], [js "arn:aws:s3:::test-bucket/*"])].
Proof. vm_compute. reflexivity. Qed.

Example policy_excludes_unobserved_low :
  List.map
    (fun st => (Analyzer.Statement.Action st, Analyzer.Statement.Resource st))
    (Analyzer.Policy.Statement (Analyzer.generateIAMPolicy sample_permissions))
  = [([js "s3:PutObject"], [js "arn:aws:s3:::test-bucket/*"])].
Proof. vm_compute. reflexivity. Qed.

Lemma kept_iff {C} (p : SuggestedPermission.t C) :
  Spec.kept p = false
  <-> SuggestedPermission.frequency p = 0%Z
      /\ SuggestedPermission.severity p = Low.
Proof.
  unfold Spec.kept. rewrite negb_false_iff, andb_true_iff, Z.eqb_eq.
  destruct (SuggestedPermission.severity p); intuition discriminate.
Qed.

(** C4: [generateIAMPolicy] skips exactly the permissions with frequency 0
    and severity [Low]: the policy is the one synthesised from the other
    permissions alone, and each of these others has its action and its
    resource in one statement of the policy. *)
Theorem policy_drops_exactly {C : Type} `{JsObject C}
  (permissions : list (SuggestedPermission.t C)) :
  (forall p : SuggestedPermission.t C,
      Spec.kept p = false
      <-> SuggestedPermission.frequency p = 0%Z
          /\ SuggestedPermission.severity p = Low)
  /\ Analyzer.generateIAMPolicy permissions
     = Analyzer.generateIAMPolicy (filter Spec.kept permissions)
  /\ forall p,
      In p permissions ->
      ~ (SuggestedPermission.frequency p = 0%Z
         /\ SuggestedPermission.severity p = Low) ->
      exists st,
        In st (Analyzer.Policy.Statement (Analyzer.generateIAMPolicy permissions))
        /\ In (SuggestedPermission.action p) (Analyzer.Statement.Action st)
        /\ In (SuggestedPermission.resource p) (Analyzer.Statement.Resource st).
Proof.
  split; [intros p; apply kept_iff|]. split.
  - unfold Analyzer.generateIAMPolicy.
    rewrite <- fold_addPermission_filter. reflexivity.
  - intros p Hin Hnot.
    assert (Hk : Spec.kept p = true).
    { destruct (Spec.kept p) eqn:E; [reflexivity|].
      apply kept_iff in E. contradiction. }
    destruct (fold_addPermission_grouped permissions [] p Hin Hk)
      as [g [Hg [Ha Hr]]].
    exists (Analyzer.toStatement g). split.
    + cbn. apply in_map. exact Hg.
    + cbn. rewrite !sort_in. auto.
Qed.

Lemma policy_drops_exactly_witness :
  let p :=
    sample_permission (js "s3:PutObject") (js "arn:aws:s3:::test-bucket/*") 3 High in
  (In p sample_permissions
   /\ ~ (SuggestedPermission.frequency p = 0%Z
         /\ SuggestedPermission.severity p = Low))
  /\ exists st,
      In st (Analyzer.Policy.Statement
               (Analyzer.generateIAMPolicy sample_permissions))
      /\ In (SuggestedPermission.action p) (Analyzer.Statement.Action st)
      /\ In (SuggestedPermission.resource p) (Analyzer.Statement.Resource st).
Proof.
  intros p.
  assert (Hin : In p sample_permissions) by (right; left; reflexivity).
  assert (Hnot : ~ (SuggestedPermission.frequency p = 0%Z
                    /\ SuggestedPermission.severity p = Low))
    by (intros [E _]; discriminate E).
  split; [split; assumption|].
  exact (proj2 (proj2 (policy_drops_exactly sample_permissions)) p Hin Hnot).
Defined.

(** C8: every action of every statement of the policy is the action of a
    permission of the input list, and every resource of every statement
    is the resource of a permission of the input list. *)
Theorem policy_no_invented_grants {C : Type} `{JsObject C}
  (permissions : list (SuggestedPermission.t C)) (st : Analyzer.Statement.t C) :
  In st (Analyzer.Policy.Statement (Analyzer.generateIAMPolicy permissions)) ->
  (forall a, In a (Analyzer.Statement.Action st) ->
             exists p, In p permissions /\ SuggestedPermission.action p = a)
  /\ (forall r, In r (Analyzer.Statement.Resource st) ->
                exists p, In p permissions /\ SuggestedPermission.resource p = r).
Proof.
  cbn. intros Hst. apply in_map_iff in Hst. destruct Hst as [g [<- Hg]].
  assert (Hs : Spec.sourced permissions
                 (fold_left Analyzer.addPermission permissions [])).
  { apply fold_addPermission_sourced; [apply incl_refl|]. intros g' []. }
  destruct (Hs g Hg) as [Ha Hr]. cbn. split.
  - intros a Hin. rewrite sort_in in Hin.
    destruct (Ha a Hin) as [p [Hp [_ E]]]. exists p. auto.
  - intros r Hin. rewrite sort_in in Hin.
    destruct (Hr r Hin) as [p [Hp [_ E]]]. exists p. auto.
Qed.

Lemma policy_no_invented_grants_witness :
  let st :=
    {| Analyzer.Statement.Effect := js "Allow";
       Analyzer.Statement.Action := [js "s3:PutObject"];
       Analyzer.Statement.Resource := [js "arn:aws:s3:::test-bucket/*"];
       Analyzer.Statement.Condition := @None Analyzer.Conditions.t |} in
  In st (Analyzer.Policy.Statement (Analyzer.generateIAMPolicy sample_permissions))
  /\ (forall a, In a (Analyzer.Statement.Action st) ->
                exists p, In p sample_permissions
                          /\ SuggestedPermission.action p = a)
  /\ (forall r, In r (Analyzer.Statement.Resource st) ->
                exists p, In p sample_permissions
                          /\ SuggestedPermission.resource p = r).
Proof.
  intros st.
  assert (Hin : In st (Analyzer.Policy.Statement
                         (Analyzer.generateIAMPolicy sample_permissions)))
    by (left; reflexivity).
  split; [exact Hin|].
  exact (policy_no_invented_grants sample_permissions st Hin).
Defined.

(** ** CDK code *)

Example cdk_code_roles :
  let code :=
    Analyzer.generateCDKCode no_inherited
      [sample_permission (js "s3:GetObject") (js "arn:aws:s3:::test-bucket/*") 5 High;
       sample_permission (js "dynamodb:GetItem")
         (js "arn:aws:dynamodb:us-east-1:123456789012:table/test-table") 3 Medium]
      (js "test-stack") in
  includes code (js "const teststackS3Role = new iam.Role") = true
  /\ includes code (js "const teststackDynamodbRole = new iam.Role") = true
  /\ includes code (js "addToPolicy(new iam.PolicyStatement") = true
  /\ includes code (js "actions: ['s3:GetObject']") = true
  /\ includes code (js "actions: ['dynamodb:GetItem']") = true
  /\ includes code
       (js "assumedBy: new iam.ServicePrincipal('dynamodb.amazonaws.com')")
     = true.
Proof. vm_compute. repeat split. Qed.

Example cdk_code_filters_low :
  let code :=
    Analyzer.generateCDKCode no_inherited sample_permissions (js "test-stack") in
  includes code (js "'s3:PutObject'") = true
  /\ includes code (js "'s3:GetObject'") = false.
Proof. vm_compute. split; reflexivity. Qed.

Example cdk_code_optimizes :
  includes
    (Analyzer.generateCDKCode no_inherited
       [sample_permission (js "logs:CreateLogGroup")
          (js "arn:aws:logs:us-east-1:123456789012:*") 5 High]
       (js "test-stack"))
    (js "resources: ['arn:aws:logs:us-east-1:123456789012:log-group:*'],")
  = true.
Proof. vm_compute. reflexivity. Qed.

Lemma filter_twice {A} (f : A -> bool) (l : list A) :
  filter f (filter f l) = filter f l.
Proof.
  induction l as [|x l IH]; [reflexivity|]. simpl.
  destruct (f x) eqn:E; simpl; [rewrite E, IH|]; auto.
Qed.

(** C10: [generateCDKCode] works on the permissions with a positive
    frequency or severity [Critical] or [High] only, a filter other than
    that of [generateIAMPolicy]: for a single permission with frequency 0
    and severity [Medium] the policy has a statement with its action,
    while the CDK code is the header followed by the remark that there is
    nothing to generate, without any policy statement. *)
Theorem cdk_filter_differs {C : Type} `{JsObject C}
  (inherited : jsstring -> option jsstring) :
  (forall p : SuggestedPermission.t C,
      Analyzer.relevant p = true
      <-> (0 < SuggestedPermission.frequency p)%Z
          \/ SuggestedPermission.severity p = Critical
          \/ SuggestedPermission.severity p = High)
  /\ (forall (permissions : list (SuggestedPermission.t C)) stackName,
         Analyzer.generateCDKCode inherited permissions stackName
         = Analyzer.generateCDKCode inherited
             (filter Analyzer.relevant permissions) stackName)
  /\ forall (action resource reasoning stackName : jsstring)
            (condition : option C),
      let p :=
        {| SuggestedPermission.action := action;
           SuggestedPermission.resource := resource;
           SuggestedPermission.effect := Allow;
           SuggestedPermission.condition := condition;
           SuggestedPermission.reasoning := reasoning;
           SuggestedPermission.frequency := 0;
           SuggestedPermission.severity := Medium |} in
      (exists st,
          In st (Analyzer.Policy.Statement (Analyzer.generateIAMPolicy [p]))
          /\ Analyzer.Statement.Action st = [action]
          /\ Analyzer.Statement.Resource st = [resource])
      /\ Analyzer.generateCDKCode inherited [p] stackName
         = join [10%N]
             (Analyzer.header
              ++ [js "// No permissions to generate - no issues found!"])
      /\ includes (Analyzer.generateCDKCode inherited [p] stackName)
           (js "PolicyStatement") = false.
Proof.
  split; [|split].
  - intros p. unfold Analyzer.relevant.
    rewrite !orb_true_iff, Z.ltb_lt.
    destruct (SuggestedPermission.severity p); intuition discriminate.
  - intros permissions stackName. unfold Analyzer.generateCDKCode.
    rewrite filter_twice. reflexivity.
  - intros action resource reasoning stackName condition p.
    split; [|split].
    + eexists. split; [left; reflexivity|]. split; reflexivity.
    + reflexivity.
    + reflexivity.
Qed.


(** ** The denial parser *)

Example patterns_compile :
  forallb
    (fun p => match Regex.compile (Regex.source p) with
              | Some _ => true
              | None => false
              end)
    (Logs.denialPatterns ++ Logs.actionPatterns ++ Logs.resourcePatterns
     ++ Logs.principalPatterns ++ Logs.errorPatterns)
  = true.
Proof. vm_compute. reflexivity. Qed.

Example parse_forbidden :
  extracted
    (Logs.parsePermissionDenial
       (sample_event 1704067200000 (js "test-stream")
          (js "Forbidden: Access denied to dynamodb:Query on table users"))
       (js "/aws/lambda/test-function"))
  = Some (Json.Str (js "dynamodb:Query"), Json.Str (js "table users"),
          Json.Str (js "Unknown"), Json.Str (js "Forbidden")).
Proof. vm_compute. reflexivity. Qed.

Example parse_unauthorized :
  extracted
    (Logs.parsePermissionDenial
       (sample_event 1704067200000 (js "test-stream")
          (js "UnauthorizedOperation: You are not authorized to perform this operation."))
       (js "/aws/lambda/test-function"))
  = Some (Json.Str (js "this"), Json.Str (js "Unknown"),
          Json.Str (js "Unknown"), Json.Str (js "UnauthorizedOperation")).
Proof. vm_compute. reflexivity. Qed.

Example parse_json_message :
  extracted
    (Logs.parsePermissionDenial
       (sample_event 1704067200000 (js "test-stream")
          (quoted "{'level':'ERROR','message':'AccessDenied: User is not authorized to perform s3:PutObject','timestamp':'2024-01-01T00:00:00Z'}"))
       (js "/aws/lambda/test-function"))
  = Some (Json.Str (js "s3:PutObject"), Json.Str (js "Unknown"),
          Json.Str (js "Unknown"), Json.Str (js "AccessDenied")).
Proof. vm_compute. reflexivity. Qed.

Example parse_cloudtrail_record :
  extracted
    (Logs.parsePermissionDenial
       (sample_event 1704067200000 (js "test-stream")
          (quoted "{'eventName':'GetObject','errorCode':'AccessDenied','resources':[{'ARN':'arn:aws:s3:::b/k'}],'userIdentity':{'arn':'arn:aws:iam::1:user/u'}}"))
       (js "CloudTrail/logs"))
  = Some (Json.Str (js "GetObject"), Json.Str (js "arn:aws:s3:::b/k"),
          Json.Str (js "arn:aws:iam::1:user/u"), Json.Str (js "AccessDenied")).
Proof. vm_compute. reflexivity. Qed.

Example parse_random_message :
  Logs.parsePermissionDenial
    (sample_event 1704067200000 (js "test-stream")
       (js "Some random log message without permission denial"))
    (js "/aws/lambda/test-function")
  = Returned None.
Proof. vm_compute. reflexivity. Qed.

Example extract_principals :
  Logs.extractPrincipalFromText
    (js "Principal arn:aws:iam::123456789012:user/test-user access denied")
  = js "arn:aws:iam::123456789012:user/test-user"
  /\ Logs.extractPrincipalFromText (js "AccessDenied for role/lambda-execution-role")
     = js "role/lambda-execution-role".
Proof. vm_compute. split; reflexivity. Qed.

Example extract_actions :
  Logs.extractActionFromText (js "perform dynamodb:PutItem on table")
  = js "dynamodb:PutItem"
  /\ Logs.extractActionFromText (js "action lambda:InvokeFunction denied")
     = js "lambda:InvokeFunction".
Proof. vm_compute. split; reflexivity. Qed.

Example extract_resources :
  Logs.extractResourceFromText (js "on table test-users") = js "table test-users"
  /\ Logs.extractResourceFromText
       (js "resource arn:aws:lambda:us-east-1:123456789012:function:test")
     = js "arn:aws:lambda:us-east-1:123456789012:function:test".
Proof. vm_compute. split; reflexivity. Qed.

Lemma toISOString_in_range (t : Z) :
  (Z.abs t <= 8640000000000000)%Z -> exists iso, Date.toISOString t = Some iso.
Proof.
  intros Ht. unfold Date.toISOString.
  apply Z.leb_le in Ht. rewrite Ht.
  destruct (Date.civil (t / Date.msPerDay)) as [[y m] d]. eexists. reflexivity.
Qed.

Lemma parseAsText_in_range (t : Z) (logStream message logGroupName : jsstring) :
  (Z.abs t <= 8640000000000000)%Z ->
  exists d, Logs.parseAsText t logStream message logGroupName = Returned (Some d).
Proof.
  intros Ht. unfold Logs.parseAsText.
  destruct (toISOString_in_range t Ht) as [iso ->]. eexists. reflexivity.
Qed.

Lemma parseAsText_present (t : Z) (logStream message logGroupName : jsstring) :
  Logs.parseAsText t logStream message logGroupName <> Returned None.
Proof.
  unfold Logs.parseAsText. destruct (Date.toISOString t); discriminate.
Qed.

(** C6 (counterexample): a record stamped with the epoch (timestamp 0)
    is answered with absent although its message carries a denial
    signature. *)
Lemma parse_absent_despite_signature :
  Logs.hasPermissionDenialPattern sample_message = true
  /\ Logs.parsePermissionDenial
       (sample_event 0 (js "test-stream") sample_message)
       (js "/aws/lambda/test-function")
     = Returned None.
Proof. vm_compute. split; reflexivity. Qed.

(** For a time value beyond the range of [Date] the parser throws. *)
Example parse_throws_out_of_range :
  Logs.parsePermissionDenial
    (sample_event 8640000000000001 (js "test-stream") sample_message)
    (js "/aws/lambda/test-function")
  = Thrown (js "RangeError").
Proof. vm_compute. reflexivity. Qed.

(** C6 (amended): the parser returns absent exactly when the record lacks
    a non-empty message, a non-zero timestamp or a non-empty stream name,
    or when its message matches none of the denial-signature patterns (so
    in particular for every message matching none of them); and for a
    record whose timestamp is within the range of [Date] it does not
    throw. *)
Theorem parse_absent_iff (event : FilteredLogEvent.t) (logGroupName : jsstring) :
  (Logs.parsePermissionDenial event logGroupName = Returned None
   <-> Logs.noString (FilteredLogEvent.message event) = true
       \/ Logs.noNumber (FilteredLogEvent.timestamp event) = true
       \/ Logs.noString (FilteredLogEvent.logStreamName event) = true
       \/ Logs.hasPermissionDenialPattern
            (Logs.theString (FilteredLogEvent.message event)) = false)
  /\ ((forall t, FilteredLogEvent.timestamp event = Some t ->
                 (Z.abs t <= 8640000000000000)%Z) ->
      exists result,
        Logs.parsePermissionDenial event logGroupName = Returned result).
Proof.
  unfold Logs.parsePermissionDenial.
  destruct (Logs.noString (FilteredLogEvent.message event)) eqn:Hm;
    [cbn [orb]; split; [tauto | intros _; eexists; reflexivity]|].
  destruct (Logs.noNumber (FilteredLogEvent.timestamp event)) eqn:Ht;
    [cbn [orb]; split; [tauto | intros _; eexists; reflexivity]|].
  destruct (Logs.noString (FilteredLogEvent.logStreamName event)) eqn:Hs;
    [cbn [orb]; split; [tauto | intros _; eexists; reflexivity]|].
  cbn [orb].
  destruct (Logs.hasPermissionDenialPattern
              (Logs.theString (FilteredLogEvent.message event))) eqn:Hp;
    [|cbn [negb]; split; [tauto | intros _; eexists; reflexivity]].
  cbn [negb].
  set (t := Logs.theNumber (FilteredLogEvent.timestamp event)).
  split.
  - split; [|intros [H | [H | [H | H]]]; discriminate H].
    intros H. exfalso. revert H.
    destruct (Json.parse _) as [parsed|]; [|apply parseAsText_present].
    destruct (Date.toISOString t); [|apply parseAsText_present].
    destruct parsed; try discriminate. apply parseAsText_present.
  - intros Hrange.
    assert (Hin : (Z.abs t <= 8640000000000000)%Z).
    { subst t. destruct (FilteredLogEvent.timestamp event) as [t0|];
        [apply Hrange; reflexivity | discriminate Ht]. }
    destruct (Json.parse _) as [parsed|].
    + destruct (toISOString_in_range t Hin) as [iso ->].
      destruct parsed; try (eexists; reflexivity).
      destruct (parseAsText_in_range t
                  match FilteredLogEvent.logStreamName event with
                  | Some (c :: text) => c :: text
                  | _ => js "unknown"
                  end
                  (Logs.theString (FilteredLogEvent.message event))
                  logGroupName Hin) as [d Hd].
      eexists. exact Hd.
    + destruct (parseAsText_in_range t
                  match FilteredLogEvent.logStreamName event with
                  | Some (c :: text) => c :: text
                  | _ => js "unknown"
                  end
                  (Logs.theString (FilteredLogEvent.message event))
                  logGroupName Hin) as [d Hd].
      eexists. exact Hd.
Qed.

Lemma parse_absent_iff_witness :
  let event := sample_event 1704067200000 (js "test-stream") sample_message in
  (forall t, FilteredLogEvent.timestamp event = Some t ->
             (Z.abs t <= 8640000000000000)%Z)
  /\ exists result,
      Logs.parsePermissionDenial event (js "/aws/lambda/test-function")
      = Returned result.
Proof.
  intros event.
  assert (Hrange : forall t, FilteredLogEvent.timestamp event = Some t ->
                             (Z.abs t <= 8640000000000000)%Z).
  { intros t E. injection E as <-. vm_compute. discriminate. }
  split; [exact Hrange|].
  exact (proj2 (parse_absent_iff event (js "/aws/lambda/test-function")) Hrange).
Defined.

Lemma sample_message_fields :
  Logs.hasPermissionDenialPattern sample_message = true
  /\ Json.parse sample_message = None
  /\ Logs.extractActionFromText sample_message = js "s3:GetObject"
  /\ Logs.extractResourceFromText sample_message
     = js "arn:aws:s3:::test-bucket/file.txt"
  /\ Logs.extractPrincipalFromText sample_message
     = js "arn:aws:iam::123456789012:role/test-role"
  /\ Logs.extractErrorCodeFromText sample_message = js "AccessDenied".
Proof. vm_compute. repeat split. Qed.

(** C7: for a record with a timestamp (not zero, within the range of
    [Date]) and a non-empty stream name, parsing the sample message
    returns a denial with action ["s3:GetObject"], resource
    ["arn:aws:s3:::test-bucket/file.txt"], principal
    ["arn:aws:iam::123456789012:role/test-role"] and error code
    ["AccessDenied"]. *)
Theorem parse_sample_message
  (event : FilteredLogEvent.t) (logGroupName logStreamName : jsstring) (t : Z) :
  FilteredLogEvent.message event = Some sample_message ->
  FilteredLogEvent.timestamp event = Some t ->
  t <> 0%Z -> (Z.abs t <= 8640000000000000)%Z ->
  FilteredLogEvent.logStreamName event = Some logStreamName ->
  logStreamName <> [] ->
  exists iso,
    Date.toISOString t = Some iso
    /\ Logs.parsePermissionDenial event logGroupName
       = Returned
           (Some
              {| Logs.Denial.timestamp := iso;
                 Logs.Denial.logGroup := logGroupName;
                 Logs.Denial.logStream := logStreamName;
                 Logs.Denial.message := sample_message;
                 Logs.Denial.action := Json.Str (js "s3:GetObject");
                 Logs.Denial.resource :=
                   Json.Str (js "arn:aws:s3:::test-bucket/file.txt");
                 Logs.Denial.principal :=
                   Json.Str (js "arn:aws:iam::123456789012:role/test-role");
                 Logs.Denial.errorCode := Json.Str (js "AccessDenied");
                 Logs.Denial.sourceIp := None;
                 Logs.Denial.userAgent := None |}).
Proof.
  intros Hm Ht Hnz Hrange Hs Hne.
  destruct (toISOString_in_range t Hrange) as [iso Hiso].
  exists iso. split; [exact Hiso|].
  destruct sample_message_fields as [Hp [Hj [Ha [Hr [Hpr He]]]]].
  unfold Logs.parsePermissionDenial. rewrite Hm, Ht, Hs.
  destruct logStreamName as [|c text]; [contradiction|].
  cbn [Logs.noString Logs.noNumber Logs.theString Logs.theNumber].
  change (Logs.noString (Some sample_message)) with false.
  apply Z.eqb_neq in Hnz. rewrite Hnz. cbn [orb].
  rewrite Hp. cbn [negb]. rewrite Hj.
  unfold Logs.parseAsText. rewrite Hiso, Ha, Hr, Hpr, He. reflexivity.
Qed.

Lemma parse_sample_message_witness :
  let event := sample_event 1704067200000 (js "test-stream") sample_message in
  Logs.parsePermissionDenial event (js "/aws/lambda/test-function")
  = Returned
      (Some
         {| Logs.Denial.timestamp := js "2024-01-01T00:00:00.000Z";
            Logs.Denial.logGroup := js "/aws/lambda/test-function";
            Logs.Denial.logStream := js "test-stream";
            Logs.Denial.message := sample_message;
            Logs.Denial.action := Json.Str (js "s3:GetObject");
            Logs.Denial.resource :=
              Json.Str (js "arn:aws:s3:::test-bucket/file.txt");
            Logs.Denial.principal :=
              Json.Str (js "arn:aws:iam::123456789012:role/test-role");
            Logs.Denial.errorCode := Json.Str (js "AccessDenied");
            Logs.Denial.sourceIp := None;
            Logs.Denial.userAgent := None |}).
Proof.
  intros event.
  destruct (parse_sample_message event (js "/aws/lambda/test-function")
              (js "test-stream") 1704067200000
              eq_refl eq_refl ltac:(discriminate)
              ltac:(vm_compute; discriminate) eq_refl ltac:(discriminate))
    as [iso [Hiso Hparse]].
  rewrite Hparse. vm_compute in Hiso. injection Hiso as <-. reflexivity.
Defined.

(** ** Matching plain texts *)

Lemma anywhere_exists (f : jsstring -> bool) (s : jsstring) :
  Props.anywhere f s = true <-> exists a t, s = a ++ t /\ f t = true.
Proof.
  induction s as [|d s IH].
  - simpl. rewrite orb_false_r. split.
    + intros H. exists [], []. auto.
    + intros [a [t [E H]]]. symmetry in E. apply app_eq_nil in E.
      destruct E as [_ ->]. exact H.
  - cbn [Props.anywhere]. rewrite orb_true_iff, IH. split.
    + intros [H | [a [t [-> H]]]].
      * exists [], (d :: s). auto.
      * exists (d :: a), t. auto.
    + intros [[|x a] [t [E H]]].
      * left. simpl in E. subst t. exact H.
      * right. inversion E; subst. exists a, t. auto.
Qed.

Lemma anywhere_ext (f g : jsstring -> bool) (s : jsstring) :
  (forall t, f t = g t) -> Props.anywhere f s = Props.anywhere g s.
Proof.
  intros E. induction s as [|d s IH]; simpl; rewrite E; [reflexivity|].
  rewrite IH. reflexivity.
Qed.

Lemma search_anywhere (i : bool) (r : Regex.regex) (s : jsstring) :
  match Regex.search i r s with Some _ => true | None => false end
  = Props.anywhere
      (fun t => match Regex.run i r t [] Props.accept with
                | Some _ => true
                | None => false
                end) s.
Proof.
  induction s as [|d s IH]; cbn [Regex.search Props.anywhere]; fold Props.accept.
  - destruct (Regex.run i r [] [] Props.accept) as [[rest caps]|]; reflexivity.
  - destruct (Regex.run i r (d :: s) [] Props.accept) as [[rest caps]|];
      [reflexivity|]. exact IH.
Qed.

Lemma run_literal (i : bool) (units s : jsstring) (caps : Regex.captures)
  (k : Regex.continuation) :
  Regex.run i (Props.literalRegex units) s caps k
  = if Props.startsWithUnits i s units
    then k (skipn (List.length units) s) caps else None.
Proof.
  revert s. induction units as [|c units IH]; intros s; [reflexivity|].
  destruct units as [|c' units].
  - cbn. destruct s as [|d s]; [reflexivity|].
    rewrite andb_true_r. destruct (Regex.unitMatches i c d); reflexivity.
  - change (Props.literalRegex (c :: c' :: units))
      with (Regex.Seq (Regex.Unit c) (Props.literalRegex (c' :: units))).
    cbn [Regex.run]. destruct s as [|d s]; [reflexivity|].
    cbn [Props.startsWithUnits].
    destruct (Regex.unitMatches i c d); [|reflexivity].
    rewrite IH. reflexivity.
Qed.

Lemma run_seqUnits (i : bool) (units : jsstring) (r : Regex.regex)
  (s : jsstring) (caps : Regex.captures) (k : Regex.continuation) :
  Regex.run i (Props.seqUnits units r) s caps k
  = if Props.startsWithUnits i s units
    then Regex.run i r (skipn (List.length units) s) caps k else None.
Proof.
  revert s. induction units as [|c units IH]; intros s; [reflexivity|].
  cbn [Props.seqUnits Regex.run]. destruct s as [|d s]; [reflexivity|].
  cbn [Props.startsWithUnits].
  destruct (Regex.unitMatches i c d); [|reflexivity].
  rewrite IH. reflexivity.
Qed.

(** A pattern that is a plain text matches where the text occurs. *)
Lemma test_literal (source units : jsstring) (i : bool) (s : jsstring) :
  Regex.compile source = Some (Props.literalRegex units) ->
  Regex.test {| Regex.source := source; Regex.ignoreCase := i |} s
  = Props.mentions i s units.
Proof.
  intros Hc. unfold Regex.test, Regex.exec. cbn [Regex.source Regex.ignoreCase].
  rewrite Hc, search_anywhere. unfold Props.mentions.
  apply anywhere_ext. intros t. rewrite run_literal.
  destruct (Props.startsWithUnits i t units); reflexivity.
Qed.

Lemma startsWithUnits_app (i : bool) (s x y : jsstring) :
  Props.startsWithUnits i s (x ++ y)
  = Props.startsWithUnits i s x
    && Props.startsWithUnits i (skipn (List.length x) s) y.
Proof.
  revert s. induction x as [|c x IH]; intros s; [reflexivity|].
  cbn [app Props.startsWithUnits List.length skipn].
  destruct s as [|d s]; [reflexivity|].
  rewrite IH, andb_assoc. reflexivity.
Qed.

Lemma skipn_suffix {A} (n : nat) (l : list A) : exists a, l = a ++ skipn n l.
Proof. exists (firstn n l). symmetry. apply firstn_skipn. Qed.

(** A text is found wherever a longer text around it is. *)
Lemma mentions_inner (i : bool) (s a p b : jsstring) :
  Props.mentions i s (a ++ p ++ b) = true -> Props.mentions i s p = true.
Proof.
  unfold Props.mentions. rewrite !anywhere_exists.
  intros [u [t [-> H]]].
  rewrite !startsWithUnits_app in H.
  apply andb_true_iff in H. destruct H as [_ H].
  apply andb_true_iff in H. destruct H as [H _].
  destruct (skipn_suffix (List.length a) t) as [v Ev].
  exists (u ++ v), (skipn (List.length a) t). split; [|exact H].
  rewrite <- app_assoc, <- Ev. reflexivity.
Qed.

Lemma mentions_exact (s p : jsstring) : Props.mentions false s p = includes s p.
Proof.
  assert (E : forall t, Props.startsWithUnits false t p = startsWith t p).
  { intros t. revert t. induction p as [|c p IH]; intros t; [reflexivity|].
    destruct t as [|d t]; [reflexivity|]. cbn [Props.startsWithUnits startsWith].
    rewrite IH. unfold Regex.unitMatches. cbn [andb]. rewrite orb_false_r.
    rewrite N.eqb_sym. reflexivity. }
  unfold Props.mentions. induction s as [|d s IH]; cbn [Props.anywhere includes];
    rewrite E; [reflexivity|]. rewrite IH. reflexivity.
Qed.

Lemma includes_inner (s a p b : jsstring) :
  includes s (a ++ p ++ b) = true -> includes s p = true.
Proof. rewrite <- !mentions_exact. apply mentions_inner. Qed.

(** What a greedy repetition hands to its continuation is a suffix of
    its input, when this holds of one round. *)
Lemma repeatMatcher_suffix
  (step : jsstring -> Regex.captures -> Regex.continuation
          -> option (jsstring * Regex.captures))
  (fuel : nat) (s : jsstring) (caps : Regex.captures)
  (k : Regex.continuation) (res : jsstring * Regex.captures) :
  (forall s caps k res,
      step s caps k = Some res ->
      exists a t caps', s = a ++ t /\ k t caps' = Some res) ->
  Regex.repeatMatcher step fuel s caps k = Some res ->
  exists a t caps', s = a ++ t /\ k t caps' = Some res.
Proof.
  intros Hstep. revert s caps. induction fuel as [|fuel IH]; intros s caps H.
  - exists [], s, caps. auto.
  - cbn [Regex.repeatMatcher] in H.
    match type of H with
    | match ?X with _ => _ end = _ => destruct X as [res'|] eqn:E
    end.
    + injection H as <-. apply Hstep in E.
      destruct E as [a [t [caps' [-> E]]]].
      destruct (List.length t <? List.length (a ++ t)); [|discriminate].
      apply IH in E. destruct E as [a' [t' [caps'' [-> E]]]].
      exists (a ++ a'), t', caps''. rewrite <- app_assoc. auto.
    + exists [], s, caps. auto.
Qed.

Lemma run_any_suffix (i : bool) (s : jsstring) (caps : Regex.captures)
  (k : Regex.continuation) (res : jsstring * Regex.captures) :
  Regex.run i Regex.Any s caps k = Some res ->
  exists a t caps', s = a ++ t /\ k t caps' = Some res.
Proof.
  cbn. destruct s as [|d s]; [discriminate|].
  destruct (isLineTerminator d); [discriminate|].
  intros H. exists [d], s, caps. auto.
Qed.

(** A pattern [text .* text] matches only where its second text
    occurs. *)
Lemma test_gap (source before after : jsstring) (i : bool) (s : jsstring) :
  Regex.compile source
  = Some (Props.seqUnits before
            (Regex.Seq (Regex.Star Regex.Any) (Props.literalRegex after))) ->
  Regex.test {| Regex.source := source; Regex.ignoreCase := i |} s = true ->
  Props.mentions i s after = true.
Proof.
  intros Hc. unfold Regex.test, Regex.exec. cbn [Regex.source Regex.ignoreCase].
  rewrite Hc, search_anywhere. unfold Props.mentions.
  rewrite !anywhere_exists. intros [u [t [-> H]]].
  rewrite run_seqUnits in H.
  destruct (Props.startsWithUnits i t before); [|discriminate].
  cbn [Regex.run] in H.
  match type of H with
  | match ?X with _ => _ end = _ => destruct X as [res|] eqn:E
  end; [|discriminate].
  apply repeatMatcher_suffix in E; [|exact (run_any_suffix i)].
  destruct E as [a [t' [caps' [Et E]]]].
  rewrite run_literal in E.
  destruct (Props.startsWithUnits i t' after) eqn:Hs; [|discriminate].
  destruct (skipn_suffix (List.length before) t) as [v Ev].
  exists (u ++ v ++ a), t'. split; [|exact Hs].
  rewrite <- !app_assoc, <- Et, <- Ev. reflexivity.
Qed.

(** ** Denial signatures *)

Lemma not_authorized_inner (message a b : jsstring) :
  Props.mentions true message (js "not authorized") = false ->
  Props.mentions true message (a ++ js "not authorized" ++ b) = false.
Proof.
  intros H.
  destruct (Props.mentions true message (a ++ js "not authorized" ++ b)) eqn:E;
    [|reflexivity].
  apply mentions_inner in E. congruence.
Qed.

Lemma not_authorized_gap (message source before a b : jsstring) :
  Regex.compile source
  = Some (Props.seqUnits before
            (Regex.Seq (Regex.Star Regex.Any)
               (Props.literalRegex (a ++ js "not authorized" ++ b)))) ->
  Props.mentions true message (js "not authorized") = false ->
  Regex.test {| Regex.source := source; Regex.ignoreCase := true |} message
  = false.
Proof.
  intros Hc H.
  destruct (Regex.test {| Regex.source := source; Regex.ignoreCase := true |}
              message) eqn:E; [|reflexivity].
  apply (test_gap _ _ _ _ _ Hc) in E. apply mentions_inner in E. congruence.
Qed.

(** X1: a message carries a denial signature exactly when it contains,
    up to the case of ASCII letters, one of fifteen phrases; the other
    eight patterns of [hasPermissionDenialPattern] (the phrases around
    "is not authorized to perform") match nothing that "not authorized"
    does not match. *)
Theorem denial_signature_phrases (message : jsstring) :
  Logs.hasPermissionDenialPattern message
  = existsb (Props.mentions true message) Props.denialPhrases.
Proof.
  unfold Logs.hasPermissionDenialPattern, Logs.denialPatterns,
    Props.denialPhrases.
  cbn [existsb].
  rewrite (test_literal (js "AccessDenied") (js "AccessDenied"))
    by (vm_compute; reflexivity).
  rewrite (test_literal (js "UnauthorizedOperation") (js "UnauthorizedOperation"))
    by (vm_compute; reflexivity).
  rewrite (test_literal (js "Forbidden") (js "Forbidden"))
    by (vm_compute; reflexivity).
  rewrite (test_literal (js "not authorized") (js "not authorized"))
    by (vm_compute; reflexivity).
  rewrite (test_literal (js "permission denied") (js "permission denied"))
    by (vm_compute; reflexivity).
  rewrite (test_literal (js "access denied") (js "access denied"))
    by (vm_compute; reflexivity).
  rewrite (test_literal (js "InvalidUserID\.NotFound") (js "InvalidUserID.NotFound"))
    by (vm_compute; reflexivity).
  rewrite (test_literal (js "InvalidAction") (js "InvalidAction"))
    by (vm_compute; reflexivity).
  rewrite (test_literal (js "CredentialsNotFound") (js "CredentialsNotFound"))
    by (vm_compute; reflexivity).
  rewrite (test_literal (js "InvalidAccessKeyId") (js "InvalidAccessKeyId"))
    by (vm_compute; reflexivity).
  rewrite (test_literal (js "SignatureDoesNotMatch") (js "SignatureDoesNotMatch"))
    by (vm_compute; reflexivity).
  rewrite (test_literal (js "TokenRefreshRequired") (js "TokenRefreshRequired"))
    by (vm_compute; reflexivity).
  rewrite (test_literal (js "User is not authorized to perform")
             (js "User is not authorized to perform"))
    by (vm_compute; reflexivity).
  rewrite (test_literal (js "is not authorized to perform")
             (js "is not authorized to perform"))
    by (vm_compute; reflexivity).
  rewrite (test_literal (js "States\.TaskFailed") (js "States.TaskFailed"))
    by (vm_compute; reflexivity).
  rewrite (test_literal (js "States\.ExecutionFailed") (js "States.ExecutionFailed"))
    by (vm_compute; reflexivity).
  rewrite (test_literal (js "lambda:InvokeFunction") (js "lambda:InvokeFunction"))
    by (vm_compute; reflexivity).
  destruct (Props.mentions true message (js "not authorized")) eqn:Hna.
  - rewrite !orb_true_r. reflexivity.
  - change (js "User is not authorized to perform")
      with (js "User is " ++ js "not authorized" ++ js " to perform").
    change (js "is not authorized to perform")
      with (js "is " ++ js "not authorized" ++ js " to perform").
    rewrite (not_authorized_inner message (js "User is ") (js " to perform") Hna).
    rewrite (not_authorized_inner message (js "is ") (js " to perform") Hna).
    rewrite (not_authorized_gap message
               (js "User: .* is not authorized to perform: lambda:InvokeFunction")
               (js "User: ") (js " is ") (js " to perform: lambda:InvokeFunction"))
      by (vm_compute; reflexivity || exact Hna).
    rewrite (not_authorized_gap message
               (js "User: .* is not authorized to perform: sns:Publish")
               (js "User: ") (js " is ") (js " to perform: sns:Publish"))
      by (vm_compute; reflexivity || exact Hna).
    rewrite (not_authorized_gap message
               (js "User: .* is not authorized to perform: sqs:SendMessage")
               (js "User: ") (js " is ") (js " to perform: sqs:SendMessage"))
      by (vm_compute; reflexivity || exact Hna).
    rewrite (not_authorized_gap message
               (js "User: .* is not authorized to perform: dynamodb:")
               (js "User: ") (js " is ") (js " to perform: dynamodb:"))
      by (vm_compute; reflexivity || exact Hna).
    rewrite (not_authorized_gap message
               (js "User: .* is not authorized to perform: s3:")
               (js "User: ") (js " is ") (js " to perform: s3:"))
      by (vm_compute; reflexivity || exact Hna).
    rewrite (not_authorized_gap message
               (js "User: .* is not authorized to perform: kms:")
               (js "User: ") (js " is ") (js " to perform: kms:"))
      by (vm_compute; reflexivity || exact Hna).
    rewrite !orb_false_r. reflexivity.
Qed.

(** ** Log groups *)

Lemma repeatMatcher_accept
  (step : jsstring -> Regex.captures -> Regex.continuation
          -> option (jsstring * Regex.captures))
  (fuel : nat) (s : jsstring) (caps : Regex.captures) :
  Regex.repeatMatcher step fuel s caps Props.accept <> None.
Proof.
  destruct fuel as [|fuel]; cbn [Regex.repeatMatcher]; [discriminate|].
  destruct (step s caps _); discriminate.
Qed.

(** A pattern [text.*] matches where the text occurs. *)
Lemma test_open_end (source before : jsstring) (i : bool) (s : jsstring) :
  Regex.compile source
  = Some (Props.seqUnits before (Regex.Star Regex.Any)) ->
  Regex.test {| Regex.source := source; Regex.ignoreCase := i |} s
  = Props.mentions i s before.
Proof.
  intros Hc. unfold Regex.test, Regex.exec. cbn [Regex.source Regex.ignoreCase].
  rewrite Hc, search_anywhere. unfold Props.mentions.
  apply anywhere_ext. intros t. rewrite run_seqUnits.
  destruct (Props.startsWithUnits i t before); [|reflexivity].
  cbn [Regex.run].
  destruct (Regex.repeatMatcher _ _ _ _ _) eqn:E; [reflexivity|].
  apply repeatMatcher_accept in E. destruct E.
Qed.

Lemma includes_inner_false (s a p b : jsstring) :
  includes s p = false -> includes s (a ++ p ++ b) = false.
Proof.
  intros H. destruct (includes s (a ++ p ++ b)) eqn:E; [|reflexivity].
  apply includes_inner in E. congruence.
Qed.

(** X4: a log group counts as a CloudTrail log group exactly when its
    name contains ["CloudTrail"], ["cloudtrail"], ["aws-api-logs"] or
    ["trail-logs"] (in this very case); the three other tests of
    [isCloudTrailLogGroup] add nothing. *)
Theorem cloudtrail_names (logGroupName : jsstring) :
  LogGroups.isCloudTrailLogGroup logGroupName
  = includes logGroupName (js "CloudTrail")
    || includes logGroupName (js "cloudtrail")
    || includes logGroupName (js "aws-api-logs")
    || includes logGroupName (js "trail-logs").
Proof.
  unfold LogGroups.isCloudTrailLogGroup.
  rewrite (test_open_end (js "CloudTrail\/.*") (js "CloudTrail/"))
    by (vm_compute; reflexivity).
  rewrite (test_literal (js "aws-api-logs") (js "aws-api-logs"))
    by (vm_compute; reflexivity).
  rewrite (test_literal (js "trail-logs") (js "trail-logs"))
    by (vm_compute; reflexivity).
  rewrite !mentions_exact.
  destruct (includes logGroupName (js "CloudTrail")) eqn:Ha; [reflexivity|].
  destruct (includes logGroupName (js "cloudtrail")) eqn:Hb; [reflexivity|].
  change (js "aws-cloudtrail") with (js "aws-" ++ js "cloudtrail" ++ []).
  change (js "/aws/cloudtrail/") with (js "/aws/" ++ js "cloudtrail" ++ js "/").
  change (js "CloudTrail/") with ([] ++ js "CloudTrail" ++ js "/").
  rewrite !includes_inner_false by assumption. reflexivity.
Qed.

Lemma repeat_class_whole (items : list Regex.classItem) (fuel : nat)
  (s : jsstring) (caps : Regex.captures) :
  List.length s <= fuel ->
  Regex.repeatMatcher (Regex.run false (Regex.Class false items)) fuel s caps
    (fun rest caps' =>
       match rest with
       | [] => Some (rest, caps')
       | _ :: _ => None
       end)
  = if forallb (Regex.classMatches false items) s then Some ([], caps)
    else None.
Proof.
  revert s. induction fuel as [|fuel IH]; intros [|d s] Hlen;
    cbn [List.length] in Hlen; try lia; try reflexivity.
  cbn [Regex.repeatMatcher Regex.run forallb xorb].
  destruct (Regex.classMatches false items d); cbn [andb]; [|reflexivity].
  cbn [List.length].
  replace (List.length s <? S (List.length s)) with true
    by (symmetry; apply Nat.ltb_lt; lia).
  rewrite IH by lia.
  destruct (forallb _ s); reflexivity.
Qed.

Lemma log_group_class (d : N) :
  Regex.classMatches false
    [Regex.CUnit 46; Regex.CUnit 45; Regex.CUnit 95; Regex.CUnit 47;
     Regex.CUnit 35; Regex.CRange 65 90; Regex.CRange 97 122;
     Regex.CRange 48 57] d
  = Props.logGroupUnit d.
Proof.
  unfold Regex.classMatches, Props.logGroupUnit.
  cbn [existsb Regex.itemHas andb].
  rewrite !orb_false_r, !orb_assoc.
  rewrite (N.eqb_sym 46), (N.eqb_sym 45), (N.eqb_sym 95), (N.eqb_sym 47),
    (N.eqb_sym 35).
  reflexivity.
Qed.

Lemma forallb_pointwise (A : Type) (f g : A -> bool) (l : list A) :
  (forall a, f a = g a) -> forallb f l = forallb g l.
Proof.
  intros H. induction l as [|a l IH]; [reflexivity|].
  cbn [forallb]. rewrite H, IH. reflexivity.
Qed.

Lemma testWhole_log_group (s : jsstring) :
  LogGroups.testWhole (js "[\.\-_\/#A-Za-z0-9]+") s
  = negb (List.length s =? 0) && forallb Props.logGroupUnit s.
Proof.
  unfold LogGroups.testWhole.
  replace (Regex.compile (js "[\.\-_\/#A-Za-z0-9]+"))
    with (Some (Regex.Plus (Regex.Class false
            [Regex.CUnit 46; Regex.CUnit 45; Regex.CUnit 95; Regex.CUnit 47;
             Regex.CUnit 35; Regex.CRange 65 90; Regex.CRange 97 122;
             Regex.CRange 48 57])))
    by (vm_compute; reflexivity).
  destruct s as [|d s]; [reflexivity|].
  cbn [Regex.run xorb List.length Nat.eqb negb andb forallb].
  rewrite log_group_class.
  destruct (Props.logGroupUnit d); [|reflexivity].
  pose proof (repeat_class_whole
                [Regex.CUnit 46; Regex.CUnit 45; Regex.CUnit 95;
                 Regex.CUnit 47; Regex.CUnit 35; Regex.CRange 65 90;
                 Regex.CRange 97 122; Regex.CRange 48 57]
                (S (List.length s)) s [] (Nat.le_succ_diag_r _)) as H.
  cbn [Regex.run xorb] in H. rewrite H.
  rewrite (forallb_pointwise _ _ _ s log_group_class).
  cbn [andb]. destruct (forallb Props.logGroupUnit s); reflexivity.
Qed.

Lemma includes_unit_in (s p : jsstring) (c : N) :
  includes s p = true -> In c p -> In c s.
Proof.
  intros H Hin. apply includes_spec in H. destruct H as (a & b & ->).
  apply in_or_app. right. apply in_or_app. left. exact Hin.
Qed.

Lemma log_group_units_exclude (s p : jsstring) (c : N) :
  forallb Props.logGroupUnit s = true -> In c p ->
  Props.logGroupUnit c = false -> includes s p = false.
Proof.
  intros Hall Hin Hc. destruct (includes s p) eqn:E; [|reflexivity].
  apply (includes_unit_in _ _ c) in E; [|exact Hin].
  rewrite forallb_forall in Hall. apply Hall in E. congruence.
Qed.

(** X5: a log group name is valid exactly when it is not empty, is made
    of the code units [.], [-], [_], [/], [#], A-Z, a-z and 0-9 only, and
    does not contain ["amazonaws.com"]; the tests for ["arn:aws:"] and
    ["https://"] never decide, a colon being no allowed code unit. *)
Theorem valid_log_group_names (logGroupName : jsstring) :
  LogGroups.isValidLogGroupName logGroupName
  = negb (List.length logGroupName =? 0)
    && forallb Props.logGroupUnit logGroupName
    && negb (includes logGroupName (js "amazonaws.com")).
Proof.
  unfold LogGroups.isValidLogGroupName. rewrite testWhole_log_group.
  destruct (negb (List.length logGroupName =? 0)); cbn [andb negb].
  2: { rewrite !orb_true_r. reflexivity. }
  destruct (forallb Props.logGroupUnit logGroupName) eqn:Hall; cbn [andb negb].
  2: { rewrite !orb_true_r. reflexivity. }
  rewrite (log_group_units_exclude _ (js "arn:aws:") 58 Hall)
    by (vm_compute; tauto || reflexivity).
  rewrite (log_group_units_exclude _ (js "https://") 58 Hall)
    by (vm_compute; tauto || reflexivity).
  rewrite orb_false_r. cbn [orb].
  destruct (includes logGroupName (js "amazonaws.com")); reflexivity.
Qed.

Lemma includes_toLowerCase (s p : jsstring) :
  includes s p = true -> includes (toLowerCase s) (toLowerCase p) = true.
Proof.
  intros H. apply includes_spec in H. destruct H as (a & b & ->).
  unfold toLowerCase. rewrite !map_app. apply includes_spec.
  eexists; eexists; reflexivity.
Qed.

(** X6: for names of code units below 256, a log group is related to a
    stack exactly when its lower-case name contains the lower-case stack
    name, or that name without its first hyphen, or without its first
    underscore; the first test of [isStackRelatedLogGroup], with the case
    as it is, adds nothing. *)
Theorem stack_related_lower_case (logGroupName stackName : jsstring) :
  Props.latin1 logGroupName = true ->
  Props.latin1 stackName = true ->
  LogGroups.isStackRelatedLogGroup logGroupName stackName
  = includes (toLowerCase logGroupName) (toLowerCase stackName)
    || includes (toLowerCase logGroupName)
         (replace (toLowerCase stackName) (js "-") [])
    || includes (toLowerCase logGroupName)
         (replace (toLowerCase stackName) (js "_") []).
Proof.
  intros _ _. unfold LogGroups.isStackRelatedLogGroup.
  destruct (includes logGroupName stackName) eqn:E; [|reflexivity].
  rewrite (includes_toLowerCase _ _ E). reflexivity.
Qed.

Lemma stack_related_lower_case_witness :
  Props.latin1 (js "/aws/lambda/MyStack-Handler") = true
  /\ Props.latin1 (js "My-Stack") = true
  /\ LogGroups.isStackRelatedLogGroup (js "/aws/lambda/MyStack-Handler")
       (js "My-Stack")
     = includes (toLowerCase (js "/aws/lambda/MyStack-Handler"))
      (toLowerCase (js "My-Stack"))
    || includes (toLowerCase (js "/aws/lambda/MyStack-Handler"))
         (replace (toLowerCase (js "My-Stack")) (js "-") [])
    || includes (toLowerCase (js "/aws/lambda/MyStack-Handler"))
         (replace (toLowerCase (js "My-Stack")) (js "_") []).
Proof.
  split; [reflexivity|]. split; [reflexivity|].
  apply (stack_related_lower_case (js "/aws/lambda/MyStack-Handler")
           (js "My-Stack")); reflexivity.
Defined.

Lemma set_has_in (s : list jsstring) (x : jsstring) :
  set_has s x = true <-> In x s.
Proof.
  unfold set_has. rewrite existsb_exists. split.
  - intros (y & Hy & E). apply str_eqb_eq in E. subst. exact Hy.
  - intros H. exists x. split; [exact H | apply str_eqb_refl].
Qed.

Lemma set_has_not_in (s : list jsstring) (x : jsstring) :
  set_has s x = false <-> ~ In x s.
Proof.
  rewrite <- set_has_in. destruct (set_has s x); split; congruence.
Qed.

(** X7: [findAssociatedResource] returns the first resource whose log
    groups hold the name (no resource before it holds it), and [null]
    only when no resource holds it. *)
Theorem associated_resource_first (logGroupName : jsstring)
  (resources : list CloudFormationResource.t) :
  match LogGroups.findAssociatedResource logGroupName resources with
  | Some resource =>
      exists before after,
        resources = before ++ resource :: after
        /\ In logGroupName (CloudFormationResource.logGroups resource)
        /\ forall other, In other before ->
             ~ In logGroupName (CloudFormationResource.logGroups other)
  | None =>
      forall other, In other resources ->
        ~ In logGroupName (CloudFormationResource.logGroups other)
  end.
Proof.
  unfold LogGroups.findAssociatedResource.
  induction resources as [|r resources IH]; cbn [find].
  - intros other [].
  - destruct (set_has (CloudFormationResource.logGroups r) logGroupName) eqn:E.
    + exists [], resources. split; [reflexivity|]. split.
      * apply set_has_in. exact E.
      * intros other [].
    + apply set_has_not_in in E.
      destruct (find _ resources) as [found|].
      * destruct IH as (before & after & -> & Hin & Hnone).
        exists (r :: before), after. split; [reflexivity|].
        split; [exact Hin|].
        intros other [<-|Hother]; [exact E | apply Hnone; exact Hother].
      * intros other [<-|Hother]; [exact E | apply IH; exact Hother].
Qed.

(** ** What the parser returns *)

(** The two shapes of a returned denial. *)
Lemma parse_returned (event : FilteredLogEvent.t) (logGroupName : jsstring)
  (denial : Logs.Denial.t) :
  Logs.parsePermissionDenial event logGroupName = Returned (Some denial) ->
  exists message t logStream iso,
    FilteredLogEvent.message event = Some message
    /\ message <> []
    /\ FilteredLogEvent.timestamp event = Some t
    /\ t <> 0%Z
    /\ FilteredLogEvent.logStreamName event = Some logStream
    /\ logStream <> []
    /\ Logs.hasPermissionDenialPattern message = true
    /\ Date.toISOString t = Some iso
    /\ Logs.Denial.timestamp denial = iso
    /\ Logs.Denial.logGroup denial = logGroupName
    /\ Logs.Denial.logStream denial = logStream
    /\ Logs.Denial.message denial = message
    /\ ((Logs.Denial.action denial
         = Json.Str (Logs.extractActionFromText message)
         /\ Logs.Denial.resource denial
            = Json.Str (Logs.extractResourceFromText message)
         /\ Logs.Denial.principal denial
            = Json.Str (Logs.extractPrincipalFromText message)
         /\ Logs.Denial.errorCode denial
            = Json.Str (Logs.extractErrorCodeFromText message)
         /\ Logs.Denial.sourceIp denial = None
         /\ Logs.Denial.userAgent denial = None)
        \/ exists parsedMessage,
             Json.parse message = Some parsedMessage
             /\ Logs.Denial.action denial
                = Logs.extractAction parsedMessage message
             /\ Logs.Denial.resource denial
                = Logs.extractResource parsedMessage message
             /\ Logs.Denial.principal denial
                = Logs.extractPrincipal parsedMessage message
             /\ Logs.Denial.errorCode denial
                = Logs.extractErrorCode parsedMessage message
             /\ Logs.Denial.sourceIp denial
                = Json.orElse
                    (Json.orElse
                       (Json.get parsedMessage (js "sourceIPAddress"))
                       (Json.get parsedMessage (js "sourceIp")))
                    None
             /\ Logs.Denial.userAgent denial
                = Json.orElse (Json.get parsedMessage (js "userAgent")) None).
Proof.
  unfold Logs.parsePermissionDenial.
  destruct event as [stream ts msg ingestion id]. cbn [FilteredLogEvent.message
    FilteredLogEvent.timestamp FilteredLogEvent.logStreamName].
  destruct msg as [[|c message]|]; cbn [Logs.noString orb]; try discriminate.
  destruct ts as [t|]; cbn [Logs.noNumber orb]; try discriminate.
  destruct (t =? 0)%Z eqn:Et; cbn [orb]; try discriminate.
  destruct stream as [[|c' logStream]|]; cbn [orb]; try discriminate.
  cbn [Logs.theString Logs.theNumber].
  destruct (Logs.hasPermissionDenialPattern (c :: message)) eqn:Hp;
    cbn [negb]; try discriminate.
  apply Z.eqb_neq in Et.
  assert (Htext :
    Logs.parseAsText t (c' :: logStream) (c :: message) logGroupName
    = Returned (Some denial) ->
    exists iso,
      Date.toISOString t = Some iso
      /\ Logs.Denial.timestamp denial = iso
      /\ Logs.Denial.logGroup denial = logGroupName
      /\ Logs.Denial.logStream denial = c' :: logStream
      /\ Logs.Denial.message denial = c :: message
      /\ Logs.Denial.action denial
         = Json.Str (Logs.extractActionFromText (c :: message))
      /\ Logs.Denial.resource denial
         = Json.Str (Logs.extractResourceFromText (c :: message))
      /\ Logs.Denial.principal denial
         = Json.Str (Logs.extractPrincipalFromText (c :: message))
      /\ Logs.Denial.errorCode denial
         = Json.Str (Logs.extractErrorCodeFromText (c :: message))
      /\ Logs.Denial.sourceIp denial = None
      /\ Logs.Denial.userAgent denial = None).
  { unfold Logs.parseAsText. destruct (Date.toISOString t) as [iso|];
      [|discriminate].
    intros E. injection E as <-. exists iso. repeat split. }
  assert (Hfinish :
    Logs.parseAsText t (c' :: logStream) (c :: message) logGroupName
    = Returned (Some denial) ->
    exists message0 t0 logStream0 iso,
      Some (c :: message) = Some message0 /\ message0 <> []
      /\ Some t = Some t0 /\ t0 <> 0%Z
      /\ Some (c' :: logStream) = Some logStream0 /\ logStream0 <> []
      /\ Logs.hasPermissionDenialPattern message0 = true
      /\ Date.toISOString t0 = Some iso
      /\ Logs.Denial.timestamp denial = iso
      /\ Logs.Denial.logGroup denial = logGroupName
      /\ Logs.Denial.logStream denial = logStream0
      /\ Logs.Denial.message denial = message0
      /\ ((Logs.Denial.action denial
           = Json.Str (Logs.extractActionFromText message0)
           /\ Logs.Denial.resource denial
              = Json.Str (Logs.extractResourceFromText message0)
           /\ Logs.Denial.principal denial
              = Json.Str (Logs.extractPrincipalFromText message0)
           /\ Logs.Denial.errorCode denial
              = Json.Str (Logs.extractErrorCodeFromText message0)
           /\ Logs.Denial.sourceIp denial = None
           /\ Logs.Denial.userAgent denial = None)
          \/ exists parsedMessage,
               Json.parse message0 = Some parsedMessage
               /\ Logs.Denial.action denial
                  = Logs.extractAction parsedMessage message0
               /\ Logs.Denial.resource denial
                  = Logs.extractResource parsedMessage message0
               /\ Logs.Denial.principal denial
                  = Logs.extractPrincipal parsedMessage message0
               /\ Logs.Denial.errorCode denial
                  = Logs.extractErrorCode parsedMessage message0
               /\ Logs.Denial.sourceIp denial
                  = Json.orElse
                      (Json.orElse
                         (Json.get parsedMessage (js "sourceIPAddress"))
                         (Json.get parsedMessage (js "sourceIp")))
                      None
               /\ Logs.Denial.userAgent denial
                  = Json.orElse (Json.get parsedMessage (js "userAgent"))
                      None)).
  { intros E. apply Htext in E.
    destruct E as (iso & Hiso & H1 & H2 & H3 & H4 & Hrest).
    exists (c :: message), t, (c' :: logStream), iso.
    repeat (split; [first [reflexivity | assumption | discriminate]|]).
    left. exact Hrest. }
  destruct (Json.parse (c :: message)) as [parsedMessage|] eqn:Hj;
    [|exact Hfinish].
  destruct (Date.toISOString t) as [iso|] eqn:Hiso; [|exact Hfinish].
  destruct parsedMessage; try exact Hfinish;
    (intros E; injection E as <-;
     exists (c :: message), t, (c' :: logStream), iso;
     repeat (split; [first [reflexivity | assumption | discriminate]|]);
     right; eexists; split; [exact Hj | repeat split]).
Qed.

(** X2: a returned denial repeats the record: its message and stream
    name are the record's (the fallback ['unknown'] is never used), its
    log group is the one passed in, its timestamp is the ISO form of the
    record's, and its message carries a denial signature. *)
Theorem parse_echoes_event (event : FilteredLogEvent.t)
  (logGroupName : jsstring) (denial : Logs.Denial.t) :
  Logs.parsePermissionDenial event logGroupName = Returned (Some denial) ->
  FilteredLogEvent.message event = Some (Logs.Denial.message denial)
  /\ FilteredLogEvent.logStreamName event = Some (Logs.Denial.logStream denial)
  /\ Logs.Denial.logGroup denial = logGroupName
  /\ (exists t, FilteredLogEvent.timestamp event = Some t
                /\ Date.toISOString t = Some (Logs.Denial.timestamp denial))
  /\ Logs.hasPermissionDenialPattern (Logs.Denial.message denial) = true.
Proof.
  intros H. apply parse_returned in H.
  destruct H as (message & t & logStream & iso & Hm & _ & Ht & _ & Hs & _
                 & Hp & Hiso & -> & -> & -> & -> & _).
  repeat split; try assumption.
  exists t. split; assumption.
Qed.

Lemma parse_echoes_event_witness :
  let event := sample_event 1704067200000 (js "test-stream") sample_message in
  Logs.parsePermissionDenial event (js "/aws/lambda/test-function")
  = Returned (Some sample_parsed)
  /\ FilteredLogEvent.message event
     = Some (Logs.Denial.message sample_parsed)
  /\ FilteredLogEvent.logStreamName event
     = Some (Logs.Denial.logStream sample_parsed)
  /\ Logs.Denial.logGroup sample_parsed = js "/aws/lambda/test-function"
  /\ (exists t, FilteredLogEvent.timestamp event = Some t
                /\ Date.toISOString t
                   = Some (Logs.Denial.timestamp sample_parsed))
  /\ Logs.hasPermissionDenialPattern (Logs.Denial.message sample_parsed)
     = true.
Proof.
  intros event.
  assert (H : Logs.parsePermissionDenial event (js "/aws/lambda/test-function")
              = Returned (Some sample_parsed)) by (vm_compute; reflexivity).
  split; [exact H|].
  exact (parse_echoes_event event (js "/aws/lambda/test-function")
           sample_parsed H).
Defined.

Lemma capture1_filled (pattern : Regex.literal) (message text : jsstring) :
  Logs.capture1 pattern message = Some text -> text <> [].
Proof.
  unfold Logs.capture1. destruct (Regex.exec pattern message) as [m|];
    [|discriminate].
  destruct (Regex.group (Regex.groups m) 1) as [[|c rest]|]; try discriminate.
  intros E. injection E as <-. discriminate.
Qed.

Lemma firstCapture_filled (patterns : list Regex.literal)
  (message text : jsstring) :
  Logs.firstCapture patterns message = Some text -> text <> [].
Proof.
  induction patterns as [|pattern patterns IH]; cbn [Logs.firstCapture];
    [discriminate|].
  destruct (Logs.capture1 pattern message) as [found|] eqn:E; [|exact IH].
  intros E'. injection E' as <-. exact (capture1_filled _ _ _ E).
Qed.

Lemma firstResource_filled (patterns : list Regex.literal)
  (message text : jsstring) :
  Logs.firstResource patterns message = Some text -> text <> [].
Proof.
  induction patterns as [|pattern patterns IH]; cbn [Logs.firstResource];
    [discriminate|].
  destruct (Logs.capture1 pattern message) as [found|] eqn:E; [|exact IH].
  destruct (_ && _); intros E'; injection E' as <-;
    [discriminate | exact (capture1_filled _ _ _ E)].
Qed.

Lemma firstError_filled (patterns : list Regex.literal)
  (message text : jsstring) :
  Logs.firstError patterns message = Some text -> text <> [].
Proof.
  induction patterns as [|pattern patterns IH]; cbn [Logs.firstError];
    [discriminate|].
  destruct (Regex.exec pattern message) as [m|]; [|exact IH].
  destruct (Regex.group (Regex.groups m) 1) as [[|c rest]|];
    try (intros E; injection E as <-; discriminate);
    destruct (Regex.whole m); intros E; injection E as <-; discriminate.
Qed.

Lemma extractActionFromText_filled (message : jsstring) :
  Logs.extractActionFromText message <> [].
Proof.
  unfold Logs.extractActionFromText.
  destruct (Logs.firstCapture _ message) eqn:E; [|discriminate].
  exact (firstCapture_filled _ _ _ E).
Qed.

Lemma extractResourceFromText_filled (message : jsstring) :
  Logs.extractResourceFromText message <> [].
Proof.
  unfold Logs.extractResourceFromText.
  destruct (Logs.firstResource _ message) eqn:E; [|discriminate].
  exact (firstResource_filled _ _ _ E).
Qed.

Lemma extractPrincipalFromText_filled (message : jsstring) :
  Logs.extractPrincipalFromText message <> [].
Proof.
  unfold Logs.extractPrincipalFromText.
  destruct (Logs.firstCapture _ message) eqn:E; [|discriminate].
  exact (firstCapture_filled _ _ _ E).
Qed.

Lemma extractErrorCodeFromText_filled (message : jsstring) :
  Logs.extractErrorCodeFromText message <> [].
Proof.
  unfold Logs.extractErrorCodeFromText.
  destruct (Logs.firstError _ message) eqn:E.
  - exact (firstError_filled _ _ _ E).
  - destruct (_ || _); discriminate.
Qed.

Lemma toISOString_filled (t : Z) (iso : jsstring) :
  Date.toISOString t = Some iso -> iso <> [].
Proof.
  unfold Date.toISOString.
  destruct (Z.abs t <=? 8640000000000000)%Z; [|discriminate].
  destruct (Date.civil _) as [[y m] d].
  intros E. injection E as <-. intros E.
  apply (f_equal (@List.length N)) in E.
  rewrite !length_app in E. cbn [List.length js List.map
    list_ascii_of_string] in E. lia.
Qed.

Lemma truthy_filled (text : jsstring) :
  text <> [] -> Json.truthy (Json.Str text) = true.
Proof. destruct text; [contradiction | reflexivity]. Qed.

Lemma orText_truthy (a : option Json.value) (text : jsstring) :
  Json.truthy (Logs.orText a text) = true.
Proof.
  unfold Logs.orText, Json.orElse.
  destruct a as [v|].
  - destruct (Json.truthy v) eqn:Ev; [rewrite Ev; exact Ev|].
    destruct text; reflexivity.
  - destruct text; reflexivity.
Qed.

Lemma orElse_undefined_truthy (a : option Json.value) (v : Json.value) :
  Json.orElse a None = Some v -> Json.truthy v = true.
Proof.
  unfold Json.orElse. destruct a as [w|]; [|discriminate].
  destruct (Json.truthy w) eqn:E; [|discriminate].
  intros E'. injection E' as <-. exact E.
Qed.

(** X3: no field of a returned denial is blank: action, resource,
    principal and error code are truthy values (on the plain-text path,
    non-empty strings), and a source address or user agent that is
    present is truthy. *)
Theorem parse_fields_filled (event : FilteredLogEvent.t)
  (logGroupName : jsstring) (denial : Logs.Denial.t) :
  Logs.parsePermissionDenial event logGroupName = Returned (Some denial) ->
  Json.truthy (Logs.Denial.action denial) = true
  /\ Json.truthy (Logs.Denial.resource denial) = true
  /\ Json.truthy (Logs.Denial.principal denial) = true
  /\ Json.truthy (Logs.Denial.errorCode denial) = true
  /\ (forall v, Logs.Denial.sourceIp denial = Some v -> Json.truthy v = true)
  /\ (forall v, Logs.Denial.userAgent denial = Some v -> Json.truthy v = true)
  /\ Logs.Denial.timestamp denial <> []
  /\ Logs.Denial.logStream denial <> []
  /\ Logs.Denial.message denial <> [].
Proof.
  intros H. apply parse_returned in H.
  destruct H as (message & t & logStream & iso & _ & Hm & _ & _ & _ & Hs
                 & _ & Hiso & Ht & _ & Hls & Hmsg & Hfields).
  assert (Hrest : Logs.Denial.timestamp denial <> []
                  /\ Logs.Denial.logStream denial <> []
                  /\ Logs.Denial.message denial <> []).
  { rewrite Ht, Hls, Hmsg. repeat split; try assumption.
    intros ->. exact (toISOString_filled _ _ Hiso eq_refl). }
  destruct Hfields as [(-> & -> & -> & -> & -> & ->)
                      |(parsed & _ & -> & -> & -> & -> & -> & ->)].
  - repeat split; try discriminate; try apply Hrest.
    + apply truthy_filled, extractActionFromText_filled.
    + apply truthy_filled, extractResourceFromText_filled.
    + apply truthy_filled, extractPrincipalFromText_filled.
    + apply truthy_filled, extractErrorCodeFromText_filled.
  - repeat split; try apply orText_truthy; try apply Hrest;
      apply orElse_undefined_truthy.
Qed.

Lemma parse_fields_filled_witness :
  Logs.parsePermissionDenial
    (sample_event 1704067200000 (js "test-stream") sample_message)
    (js "/aws/lambda/test-function")
  = Returned (Some sample_parsed)
  /\ Json.truthy (Logs.Denial.action sample_parsed) = true
  /\ Json.truthy (Logs.Denial.resource sample_parsed) = true
  /\ Json.truthy (Logs.Denial.principal sample_parsed) = true
  /\ Json.truthy (Logs.Denial.errorCode sample_parsed) = true
  /\ (forall v, Logs.Denial.sourceIp sample_parsed = Some v ->
                Json.truthy v = true)
  /\ (forall v, Logs.Denial.userAgent sample_parsed = Some v ->
                Json.truthy v = true)
  /\ Logs.Denial.timestamp sample_parsed <> []
  /\ Logs.Denial.logStream sample_parsed <> []
  /\ Logs.Denial.message sample_parsed <> [].
Proof.
  assert (H : Logs.parsePermissionDenial
                (sample_event 1704067200000 (js "test-stream") sample_message)
                (js "/aws/lambda/test-function")
              = Returned (Some sample_parsed)) by (vm_compute; reflexivity).
  split; [exact H|].
  exact (parse_fields_filled _ _ _ H).
Defined.

(** ** Normalising and ranking *)

Lemma startsWith_app (p s : jsstring) : startsWith (p ++ s) p = true.
Proof.
  induction p as [|c p IH]; [reflexivity|].
  cbn [app startsWith]. rewrite N.eqb_refl. exact IH.
Qed.

(** X8: [normalizeResource] is idempotent, and a normalised resource
    either starts with ["arn:aws:"] or has no slash. *)
Theorem normalizeResource_idempotent (resource : jsstring) :
  Analyzer.normalizeResource (Analyzer.normalizeResource resource)
  = Analyzer.normalizeResource resource
  /\ (startsWith (Analyzer.normalizeResource resource) (js "arn:aws:") = true
      \/ includes (Analyzer.normalizeResource resource) (js "/") = false).
Proof.
  unfold Analyzer.normalizeResource.
  destruct (startsWith resource (js "arn:aws:")) eqn:Ha.
  - rewrite Ha. split; [reflexivity | left; reflexivity].
  - destruct (includes resource (js "/")) eqn:Hs.
    + change (js "arn:aws:*:*:*:" ++ resource)
        with (js "arn:aws:" ++ (js "*:*:*:" ++ resource)).
      rewrite startsWith_app. split; [reflexivity | left; reflexivity].
    + rewrite Ha, Hs. split; [reflexivity | right; reflexivity].
Qed.

(** X9: with the action and the error code fixed, the severity never
    falls when the number of denials of the log group grows. *)
Theorem severity_monotone (action errorCode : jsstring) (n m : nat) :
  n <= m ->
  (Analyzer.severityOrder (Analyzer.calculateSeverity action errorCode n)
   <= Analyzer.severityOrder (Analyzer.calculateSeverity action errorCode m))%Z.
Proof.
  intros Hle. unfold Analyzer.calculateSeverity. cbv zeta.
  destruct (includes errorCode (js "AccessDenied")
            && (includes (toLowerCase action) (js "lambda:invokefunction")
                || includes (toLowerCase action) (js "dynamodb:")
                || includes (toLowerCase action) (js "s3:getobject")));
    [reflexivity|].
  destruct (10 <? n) eqn:Hn10; destruct (10 <? m) eqn:Hm10;
    destruct (3 <? n) eqn:Hn3; destruct (3 <? m) eqn:Hm3;
    rewrite ?Nat.ltb_lt, ?Nat.ltb_ge in *; try lia;
    destruct (includes errorCode (js "UnauthorizedOperation"));
    destruct (includes (toLowerCase action) (js "read"));
    destruct (includes (toLowerCase action) (js "get"));
    cbn; lia.
Qed.

Lemma severity_monotone_witness :
  3 <= 11
  /\ (Analyzer.severityOrder
        (Analyzer.calculateSeverity (js "sqs:SendMessage") (js "Forbidden") 3)
      <= Analyzer.severityOrder
           (Analyzer.calculateSeverity (js "sqs:SendMessage") (js "Forbidden")
              11))%Z.
Proof.
  split; [lia|].
  apply (severity_monotone (js "sqs:SendMessage") (js "Forbidden") 3 11). lia.
Defined.

(** ** Counting and ordering the suggestions *)

Section ValuesFacts.
Context {V : Type}.
Implicit Types (m : StrMap.t V) (k : jsstring) (v : V).

Lemma values_set_old m k v old :
  StrMap.get m k = Some old ->
  exists before after,
    StrMap.values m = before ++ old :: after
    /\ StrMap.values (StrMap.set m k v) = before ++ v :: after.
Proof.
  unfold StrMap.values. induction m as [|[k0 v0] m IH]; simpl; [discriminate|].
  destruct (str_eqb k0 k).
  - intros E. injection E as <-. exists [], (List.map snd m). split; reflexivity.
  - intros E. destruct (IH E) as (before & after & E1 & E2).
    exists (v0 :: before), after. simpl. rewrite E1, E2. split; reflexivity.
Qed.

End ValuesFacts.

Lemma total_app (a b : list Z) :
  Props.total (a ++ b) = (Props.total a + Props.total b)%Z.
Proof.
  unfold Props.total. induction a as [|x a IH]; simpl; [reflexivity|].
  rewrite IH. lia.
Qed.

Lemma processDenial_total (result : LogAnalysisResult.t)
  (m : StrMap.t Analyzer.Candidate.t) (denial : PermissionDenial.t) :
  Props.total
    (List.map Analyzer.Candidate.frequency
       (StrMap.values (Analyzer.processDenial result m denial)))
  = (Props.total (List.map Analyzer.Candidate.frequency (StrMap.values m)) + 1)%Z.
Proof.
  unfold Analyzer.processDenial. cbv zeta.
  destruct (StrMap.get m _) as [existing|] eqn:E.
  - destruct (values_set_old _ _
                {| Analyzer.Candidate.action := Analyzer.Candidate.action existing;
                   Analyzer.Candidate.frequency :=
                     (Analyzer.Candidate.frequency existing + 1)%Z;
                   Analyzer.Candidate.resource :=
                     Analyzer.Candidate.resource existing;
                   Analyzer.Candidate.reasoning :=
                     Analyzer.Candidate.reasoning existing
                     ++ [js "Additional denial in "
                         ++ LogAnalysisResult.logGroupName result
                         ++ js ": " ++ PermissionDenial.errorCode denial];
                   Analyzer.Candidate.severity :=
                     Analyzer.Candidate.severity existing;
                   Analyzer.Candidate.associatedResources :=
                     match LogAnalysisResult.associatedResource result with
                     | Some r =>
                         Analyzer.Candidate.associatedResources existing
                         ++ [CloudFormationResource.logicalId r]
                     | None => Analyzer.Candidate.associatedResources existing
                     end |} _ E) as (before & after & E1 & E2).
    rewrite E1, E2, !map_app, !total_app. cbn [List.map Props.total fold_right
      Analyzer.Candidate.frequency]. unfold Props.total. lia.
  - rewrite values_set_new by exact E.
    rewrite map_app, total_app. reflexivity.
Qed.

Lemma processDenial_positive (result : LogAnalysisResult.t)
  (m : StrMap.t Analyzer.Candidate.t) (denial : PermissionDenial.t) :
  (forall c, In c (StrMap.values m) -> (1 <= Analyzer.Candidate.frequency c)%Z) ->
  forall c, In c (StrMap.values (Analyzer.processDenial result m denial)) ->
            (1 <= Analyzer.Candidate.frequency c)%Z.
Proof.
  intros Hm c. unfold Analyzer.processDenial. cbv zeta.
  destruct (StrMap.get m _) as [existing|] eqn:E; intros Hc;
    apply values_set_inv in Hc; destruct Hc as [-> | Hc]; auto;
    cbn [Analyzer.Candidate.frequency]; [|lia].
  apply get_some_in in E. apply Hm in E. lia.
Qed.

Lemma fold_processDenial_counts (evs : list Spec.event)
  (m : StrMap.t Analyzer.Candidate.t) :
  let m' := fold_left (fun permissionMap e =>
                         Analyzer.processDenial (fst e) permissionMap (snd e))
              evs m in
  Props.total (List.map Analyzer.Candidate.frequency (StrMap.values m'))
  = (Props.total (List.map Analyzer.Candidate.frequency (StrMap.values m))
     + Z.of_nat (List.length evs))%Z
  /\ ((forall c, In c (StrMap.values m) ->
                 (1 <= Analyzer.Candidate.frequency c)%Z) ->
      forall c, In c (StrMap.values m') ->
                (1 <= Analyzer.Candidate.frequency c)%Z).
Proof.
  revert m. induction evs as [|e evs IH]; intros m; cbn [fold_left].
  - split; [cbn [List.length]; lia | auto].
  - destruct (IH (Analyzer.processDenial (fst e) m (snd e))) as [Ht Hp].
    cbv zeta in Ht, Hp |- *. split.
    + rewrite Ht, processDenial_total. cbn [List.length]. lia.
    + intros Hm. apply Hp. apply processDenial_positive. exact Hm.
Qed.

Lemma suggest_frequencies (clock : nat -> jsstring) (n : nat)
  (rows : list Analyzer.Candidate.t) :
  List.map SuggestedPermission.frequency (Analyzer.suggest clock n rows)
  = List.map Analyzer.Candidate.frequency rows.
Proof.
  revert n. induction rows as [|data rows IH]; intros n; [reflexivity|].
  cbn [Analyzer.suggest]. cbv zeta.
  destruct (Analyzer.generateConditions n _ _ _); cbn [List.map
    SuggestedPermission.frequency]; rewrite IH; reflexivity.
Qed.

Lemma insertBy_in {A} (cmp : A -> A -> Z) (x y : A) (l : list A) :
  In y (Analyzer.insertBy cmp x l) <-> y = x \/ In y l.
Proof.
  induction l as [|z l IH]; cbn [Analyzer.insertBy In]; [intuition|].
  destruct (cmp x z <=? 0)%Z; cbn [In]; [|rewrite IH]; intuition.
Qed.

Lemma sortBy_in {A} (cmp : A -> A -> Z) (y : A) (l : list A) :
  In y (Analyzer.sortBy cmp l) <-> In y l.
Proof.
  unfold Analyzer.sortBy. induction l as [|x l IH]; cbn [fold_right In];
    [tauto|].
  rewrite insertBy_in, IH. intuition.
Qed.

Lemma insertBy_total {A} (cmp : A -> A -> Z) (f : A -> Z) (x : A) (l : list A) :
  Props.total (List.map f (Analyzer.insertBy cmp x l))
  = (f x + Props.total (List.map f l))%Z.
Proof.
  unfold Props.total.
  induction l as [|z l IH]; cbn [Analyzer.insertBy]; [reflexivity|].
  destruct (cmp x z <=? 0)%Z; cbn [List.map fold_right]; [reflexivity|].
  cbn [List.map fold_right] in IH. rewrite IH. lia.
Qed.

Lemma sortBy_total {A} (cmp : A -> A -> Z) (f : A -> Z) (l : list A) :
  Props.total (List.map f (Analyzer.sortBy cmp l)) = Props.total (List.map f l).
Proof.
  unfold Analyzer.sortBy. induction l as [|x l IH]; [reflexivity|].
  cbn [fold_right]. rewrite insertBy_total. fold (Analyzer.sortBy cmp l) in *.
  unfold Analyzer.sortBy in *. rewrite IH. reflexivity.
Qed.

Lemma analyzeLogs_positive (clock : nat -> jsstring)
  (logAnalysisResults : list LogAnalysisResult.t)
  (p : SuggestedPermission.t Analyzer.Conditions.t) :
  In p (Analyzer.analyzeLogs clock logAnalysisResults) ->
  (1 <= SuggestedPermission.frequency p)%Z.
Proof.
  unfold Analyzer.analyzeLogs. cbv zeta. rewrite sortBy_in. intros Hin.
  apply (in_map SuggestedPermission.frequency) in Hin.
  rewrite suggest_frequencies in Hin. apply in_map_iff in Hin.
  destruct Hin as (c & <- & Hc).
  unfold Analyzer.aggregate in Hc. rewrite aggregate_events in Hc.
  revert c Hc. apply (fold_processDenial_counts _ []).
  intros c [].
Qed.

(** X10: the frequencies of the suggestions of [analyzeLogs] add up to
    the number of denials of the batch, and each is at least one: every
    denial is counted once, in one suggestion. *)
Theorem analyzeLogs_counts_denials (clock : nat -> jsstring)
  (logAnalysisResults : list LogAnalysisResult.t) :
  Props.total
    (List.map SuggestedPermission.frequency
       (Analyzer.analyzeLogs clock logAnalysisResults))
  = Z.of_nat (List.length (Spec.events logAnalysisResults))
  /\ forall p, In p (Analyzer.analyzeLogs clock logAnalysisResults) ->
               (1 <= SuggestedPermission.frequency p)%Z.
Proof.
  split; [|apply analyzeLogs_positive].
  unfold Analyzer.analyzeLogs. cbv zeta.
  rewrite sortBy_total, suggest_frequencies.
  unfold Analyzer.aggregate. rewrite aggregate_events.
  rewrite (proj1 (fold_processDenial_counts _ [])). reflexivity.
Qed.

Lemma severityOrder_injective (a b : Severity) :
  Analyzer.severityOrder a = Analyzer.severityOrder b -> a = b.
Proof. destruct a, b; cbn; intros E; try reflexivity; discriminate. Qed.

Section Ranking.
Context {C : Type}.
Implicit Types a b c : SuggestedPermission.t C.

Lemma compare_ranks a b :
  (Analyzer.compareSuggestions a b <= 0)%Z -> Props.ranksBefore a b.
Proof.
  unfold Analyzer.compareSuggestions, Props.ranksBefore. cbv zeta.
  destruct (_ =? 0)%Z eqn:E; cbn [negb]; intros Hle.
  - right. apply Z.eqb_eq in E. split; [|lia].
    apply severityOrder_injective. lia.
  - left. apply Z.eqb_neq in E. lia.
Qed.

Lemma compare_ranks_reverse a b :
  (0 < Analyzer.compareSuggestions a b)%Z -> Props.ranksBefore b a.
Proof.
  unfold Analyzer.compareSuggestions, Props.ranksBefore. cbv zeta.
  destruct (_ =? 0)%Z eqn:E; cbn [negb]; intros Hlt.
  - right. apply Z.eqb_eq in E. split; [|lia].
    apply severityOrder_injective. lia.
  - left. lia.
Qed.

Lemma ranksBefore_transitive a b c :
  Props.ranksBefore a b -> Props.ranksBefore b c -> Props.ranksBefore a c.
Proof.
  unfold Props.ranksBefore.
  intros [Hab | [Eab Hab]] [Hbc | [Ebc Hbc]].
  - left. lia.
  - left. rewrite <- Ebc. exact Hab.
  - left. rewrite Eab. exact Hbc.
  - right. split; [congruence | lia].
Qed.

Lemma insertBy_ranked a (l : list (SuggestedPermission.t C)) :
  StronglySorted Props.ranksBefore l ->
  StronglySorted Props.ranksBefore
    (Analyzer.insertBy Analyzer.compareSuggestions a l).
Proof.
  induction 1 as [|b l Hl IH Hb]; cbn [Analyzer.insertBy].
  - constructor; constructor.
  - destruct (Analyzer.compareSuggestions a b <=? 0)%Z eqn:E.
    + apply Z.leb_le, compare_ranks in E.
      constructor; [constructor; assumption|].
      constructor; [exact E|].
      rewrite Forall_forall in Hb |- *. intros c Hc.
      exact (ranksBefore_transitive _ _ _ E (Hb c Hc)).
    + apply Z.leb_gt, compare_ranks_reverse in E.
      constructor; [exact IH|].
      rewrite Forall_forall in Hb |- *. intros c Hc.
      apply insertBy_in in Hc. destruct Hc as [-> | Hc]; [exact E | auto].
Qed.

End Ranking.

(** X11: the suggestions of [analyzeLogs] come out ranked: each one
    stands before all the later ones, which have a lower severity, or the
    same severity and a frequency that is no higher. *)
Theorem analyzeLogs_ranked (clock : nat -> jsstring)
  (logAnalysisResults : list LogAnalysisResult.t) :
  StronglySorted Props.ranksBefore
    (Analyzer.analyzeLogs clock logAnalysisResults).
Proof.
  unfold Analyzer.analyzeLogs. cbv zeta.
  generalize (Analyzer.suggest clock 0
                (StrMap.values (Analyzer.aggregate logAnalysisResults))).
  intros suggestions. unfold Analyzer.sortBy.
  induction suggestions as [|a suggestions IH]; cbn [fold_right].
  - constructor.
  - apply insertBy_ranked. exact IH.
Qed.

(** X12: the filter of [generateIAMPolicy] never drops a suggestion of
    [analyzeLogs]: in the policy generated from the suggestions of a
    batch, every suggestion has its action and its resource in one
    statement. *)
Theorem analyzed_suggestions_granted (clock : nat -> jsstring)
  (logAnalysisResults : list LogAnalysisResult.t)
  (p : SuggestedPermission.t Analyzer.Conditions.t) :
  In p (Analyzer.analyzeLogs clock logAnalysisResults) ->
  Spec.kept p = true
  /\ exists st,
      In st (Analyzer.Policy.Statement
               (Analyzer.generateIAMPolicy
                  (Analyzer.analyzeLogs clock logAnalysisResults)))
      /\ In (SuggestedPermission.action p) (Analyzer.Statement.Action st)
      /\ In (SuggestedPermission.resource p) (Analyzer.Statement.Resource st).
Proof.
  intros Hin.
  assert (Hk : Spec.kept p = true).
  { apply analyzeLogs_positive in Hin. unfold Spec.kept.
    replace (SuggestedPermission.frequency p =? 0)%Z with false
      by (symmetry; apply Z.eqb_neq; lia).
    reflexivity. }
  split; [exact Hk|].
  destruct (fold_addPermission_grouped _ [] p Hin Hk) as [g [Hg [Ha Hr]]].
  exists (Analyzer.toStatement g). split.
  - cbn. apply in_map. exact Hg.
  - cbn. rewrite !sort_in. auto.
Qed.

Lemma analyzed_suggestions_granted_witness :
  let suggestions :=
    Analyzer.analyzeLogs (fun _ => js "2024-01-01T00:00:00.000Z")
      [sample_result [sample_denial]] in
  In sample_suggestion suggestions
  /\ Spec.kept sample_suggestion = true
  /\ exists st,
      In st (Analyzer.Policy.Statement (Analyzer.generateIAMPolicy suggestions))
      /\ In (SuggestedPermission.action sample_suggestion)
           (Analyzer.Statement.Action st)
      /\ In (SuggestedPermission.resource sample_suggestion)
           (Analyzer.Statement.Resource st).
Proof.
  intros suggestions.
  assert (Hin : In sample_suggestion suggestions) by (left; reflexivity).
  split; [exact Hin|].
  exact (analyzed_suggestions_granted _ _ sample_suggestion Hin).
Defined.

(** ** Loops that group by a key *)

Lemma str_eqb_sym (a b : jsstring) : str_eqb a b = str_eqb b a.
Proof.
  destruct (str_eqb a b) eqn:E.
  - apply str_eqb_eq in E. subst. symmetry. apply str_eqb_refl.
  - symmetry. apply str_eqb_neq. apply str_eqb_neq in E. congruence.
Qed.

Lemma unique_snoc (l : list jsstring) (x : jsstring) :
  unique (l ++ [x]) = set_add (unique l) x.
Proof. unfold unique. rewrite fold_left_app. reflexivity. Qed.

Lemma set_add_NoDup (s : list jsstring) (x : jsstring) :
  NoDup s -> NoDup (set_add s x).
Proof.
  intros Hs. unfold set_add. destruct (set_has s x) eqn:E; [exact Hs|].
  apply set_has_not_in in E. apply NoDup_app; [exact Hs | |].
  - constructor; [intros [] | constructor].
  - intros a Ha [<- | []]. contradiction.
Qed.

Lemma unique_NoDup (l : list jsstring) : NoDup (unique l).
Proof.
  induction l as [|x l IH] using rev_ind; [constructor|].
  rewrite unique_snoc. apply set_add_NoDup, IH.
Qed.

Lemma unique_in (l : list jsstring) (x : jsstring) :
  In x (unique l) <-> In x l.
Proof.
  induction l as [|y l IH] using rev_ind; [reflexivity|].
  rewrite unique_snoc, set_add_in, IH, in_app_iff. cbn [In]. intuition.
Qed.

Lemma fold_left_ext_in {A B} (f g : A -> B -> A) (l : list B) (a : A) :
  (forall m x, In x l -> f m x = g m x) ->
  fold_left f l a = fold_left g l a.
Proof.
  revert a. induction l as [|x l IH]; intros a Hfg; [reflexivity|].
  cbn [fold_left]. rewrite Hfg by (left; reflexivity).
  apply IH. intros m y Hy. apply Hfg. right. exact Hy.
Qed.

Section KeyedRows.
Context {V : Type}.
Implicit Types (f g : jsstring -> V) (ks : list jsstring) (k : jsstring).

Lemma get_keyed f ks k :
  StrMap.get (List.map (fun k' => (k', f k')) ks) k
  = if set_has ks k then Some (f k) else None.
Proof.
  unfold set_has. induction ks as [|k0 ks IH]; [reflexivity|].
  cbn [List.map StrMap.get existsb]. rewrite (str_eqb_sym k k0).
  destruct (str_eqb k0 k) eqn:E; cbn [orb]; [|exact IH].
  apply str_eqb_eq in E. subst. reflexivity.
Qed.

Lemma set_keyed f g ks k (v : V) :
  NoDup ks -> g k = v -> (forall k', k' <> k -> g k' = f k') ->
  StrMap.set (List.map (fun k' => (k', f k')) ks) k v
  = List.map (fun k' => (k', g k')) (set_add ks k).
Proof.
  intros Hnd Hv Hother. unfold set_add, set_has.
  induction ks as [|k0 ks IH].
  - cbn. rewrite Hv. reflexivity.
  - apply NoDup_cons_iff in Hnd. destruct Hnd as [Hk0 Hnd].
    cbn [List.map StrMap.set existsb]. rewrite (str_eqb_sym k k0).
    destruct (str_eqb k0 k) eqn:E; cbn [orb].
    + apply str_eqb_eq in E. subst k0. cbn [List.map]. rewrite Hv. f_equal.
      apply map_ext_in. intros k' Hk'. rewrite Hother; [reflexivity|].
      intros ->. contradiction.
    + apply str_eqb_neq in E. specialize (IH Hnd).
      rewrite IH. rewrite <- (Hother k0 E).
      destruct (existsb (str_eqb k) ks); reflexivity.
Qed.

End KeyedRows.

Section GroupFold.
Context {A V : Type} (key : A -> jsstring) (init : A -> V)
  (upd : V -> A -> V) (row : list A -> V).
Hypothesis row_first : forall x, row [x] = init x.
Hypothesis row_next :
  forall xs x, xs <> [] -> row (xs ++ [x]) = upd (row xs) x.

Lemma filed_snoc (k : jsstring) (l : list A) (x : A) :
  Props.filed key k (l ++ [x])
  = Props.filed key k l ++ (if str_eqb (key x) k then [x] else []).
Proof. unfold Props.filed. rewrite filter_app. reflexivity. Qed.

Lemma filed_in (k : jsstring) (l : list A) (x : A) :
  In x (Props.filed key k l) <-> In x l /\ key x = k.
Proof. unfold Props.filed. rewrite filter_In, str_eqb_eq. reflexivity. Qed.

Lemma keysOf_in (k : jsstring) (l : list A) :
  In k (Props.keysOf key l) <-> exists x, In x l /\ key x = k.
Proof.
  unfold Props.keysOf. rewrite unique_in, in_map_iff.
  split; intros (x & H1 & H2); exists x; auto.
Qed.

(** A loop that files each element under its key builds the map with one
    row per key, in order of first occurrence. *)
Lemma group_fold (l : list A) :
  fold_left (Props.fileUnder key init upd) l [] = Props.groupBy key row l.
Proof.
  induction l as [|x l IH] using rev_ind; [reflexivity|].
  rewrite fold_left_app. cbn [fold_left]. rewrite IH.
  unfold Props.fileUnder, Props.groupBy.
  unfold Props.keysOf at 3. rewrite map_app. cbn [List.map].
  rewrite unique_snoc. fold (Props.keysOf key l).
  apply set_keyed.
  - apply unique_NoDup.
  - rewrite filed_snoc, str_eqb_refl, get_keyed.
    destruct (set_has (Props.keysOf key l) (key x)) eqn:E.
    + apply set_has_in, keysOf_in in E. destruct E as (y & Hy & Ey).
      apply row_next. intros Hnil.
      assert (Hin : In y (Props.filed key (key x) l))
        by (apply filed_in; auto).
      rewrite Hnil in Hin. destruct Hin.
    + apply set_has_not_in in E.
      replace (Props.filed key (key x) l) with (@nil A); [apply row_first|].
      symmetry. destruct (Props.filed key (key x) l) as [|y rest] eqn:Ef;
        [reflexivity|].
      exfalso. apply E. apply keysOf_in. exists y.
      apply (filed_in (key x) l y). rewrite Ef. left. reflexivity.
  - intros k' Hk'. rewrite filed_snoc.
    replace (str_eqb (key x) k') with false
      by (symmetry; apply str_eqb_neq; congruence).
    rewrite app_nil_r. reflexivity.
Qed.

End GroupFold.

(** ** The statements of a policy *)

Section PolicyShape.
Context {C : Type} `{JsObject C}.
Implicit Types (p : SuggestedPermission.t C)
  (m : StrMap.t (Analyzer.StatementGroup.t C)).

Lemma addPermission_files m p :
  Spec.kept p = true ->
  Analyzer.addPermission m p
  = Props.fileUnder Props.statementKey
      (fun q =>
         {| Analyzer.StatementGroup.actions := [SuggestedPermission.action q];
            Analyzer.StatementGroup.resources :=
              [SuggestedPermission.resource q];
            Analyzer.StatementGroup.condition :=
              SuggestedPermission.condition q |})
      (fun statement q =>
         {| Analyzer.StatementGroup.actions :=
              set_add (Analyzer.StatementGroup.actions statement)
                (SuggestedPermission.action q);
            Analyzer.StatementGroup.resources :=
              set_add (Analyzer.StatementGroup.resources statement)
                (SuggestedPermission.resource q);
            Analyzer.StatementGroup.condition :=
              Analyzer.StatementGroup.condition statement |})
      m p.
Proof.
  unfold Spec.kept, Analyzer.addPermission, Props.fileUnder,
    Props.statementKey.
  intros E. apply negb_true_iff in E. rewrite E. cbv zeta.
  destruct (StrMap.get m _); reflexivity.
Qed.

Lemma statementMap_grouped (permissions : list (SuggestedPermission.t C)) :
  fold_left Analyzer.addPermission permissions []
  = Props.groupBy Props.statementKey Props.statementGroupOf
      (filter Spec.kept permissions).
Proof.
  rewrite fold_addPermission_filter.
  rewrite (fold_left_ext_in _ _ _ _
             (fun m p Hp => addPermission_files m p
                              (proj2 (proj1 (filter_In _ _ _) Hp)))).
  apply group_fold.
  - reflexivity.
  - intros xs x Hxs. unfold Props.statementGroupOf.
    rewrite !map_app. cbn [List.map]. rewrite !unique_snoc.
    destruct xs; [contradiction | reflexivity].
Qed.

Lemma str_ltb_irreflexive (a : jsstring) : str_ltb a a = false.
Proof.
  induction a as [|x a IH]; [reflexivity|].
  cbn [str_ltb]. rewrite N.ltb_irrefl. exact IH.
Qed.

Lemma str_ltb_transitive (a b c : jsstring) :
  str_ltb a b = true -> str_ltb b c = true -> str_ltb a c = true.
Proof.
  revert b c. induction a as [|x a IH]; intros [|y b] [|z c]; cbn [str_ltb];
    try discriminate; try reflexivity.
  destruct (x <? y)%N eqn:Exy.
  - intros _. destruct (y <? z)%N eqn:Eyz.
    + intros _. apply N.ltb_lt in Exy, Eyz.
      replace (x <? z)%N with true by (symmetry; apply N.ltb_lt; lia).
      reflexivity.
    + destruct (z <? y)%N eqn:Ezy; [discriminate|].
      apply N.ltb_ge in Eyz, Ezy. assert (y = z) by lia. subst z.
      rewrite Exy. reflexivity.
  - destruct (y <? x)%N eqn:Eyx; [discriminate|].
    apply N.ltb_ge in Exy, Eyx. assert (x = y) by lia. subst y.
    intros Hab. destruct (x <? z)%N; [reflexivity|].
    destruct (z <? x)%N; [discriminate|]. apply IH. exact Hab.
Qed.

Lemma str_ltb_connected (a b : jsstring) :
  a <> b -> str_ltb a b = false -> str_ltb b a = true.
Proof.
  revert b. induction a as [|x a IH]; intros [|y b]; cbn [str_ltb];
    try congruence; try reflexivity.
  intros Hne. destruct (x <? y)%N eqn:Exy; [discriminate|].
  destruct (y <? x)%N eqn:Eyx; [reflexivity|].
  apply N.ltb_ge in Exy, Eyx. assert (x = y) by lia. subst y.
  apply IH. congruence.
Qed.

Lemma insert_sorted_ascending (x : jsstring) (l : list jsstring) :
  ~ In x l ->
  StronglySorted (fun a b => str_ltb a b = true) l ->
  StronglySorted (fun a b => str_ltb a b = true) (insert_sorted x l).
Proof.
  intros Hx Hl. induction Hl as [|y l Hl IH Hy]; cbn [insert_sorted].
  - constructor; constructor.
  - destruct (str_ltb y x) eqn:E.
    + constructor; [apply IH; intros Hin; apply Hx; right; exact Hin|].
      rewrite Forall_forall in Hy |- *. intros z Hz.
      apply insert_sorted_in in Hz. destruct Hz as [-> | Hz]; auto.
    + assert (Hxy : str_ltb x y = true).
      { apply str_ltb_connected; [|exact E].
        intros ->. apply Hx. left. reflexivity. }
      constructor; [constructor; assumption|].
      constructor; [exact Hxy|].
      rewrite Forall_forall in Hy |- *. intros z Hz.
      exact (str_ltb_transitive _ _ _ Hxy (Hy z Hz)).
Qed.

Lemma sort_ascending (l : list jsstring) :
  NoDup l -> StronglySorted (fun a b => str_ltb a b = true) (sort l).
Proof.
  unfold sort. induction 1 as [|x l Hx Hl IH]; cbn [fold_right].
  - constructor.
  - apply insert_sorted_ascending; [|exact IH].
    fold (sort l). rewrite sort_in. exact Hx.
Qed.

End PolicyShape.

(** X13: the policy has one statement for each distinct key (resource,
    colon, stringified condition) of the permissions that are not
    dropped, in order of first occurrence; the statement lists the
    distinct actions and the distinct resources of the permissions of
    its key, sorted, under the condition of the first of them when that
    condition has a key. *)
Theorem policy_statements {C : Type} `{JsObject C}
  (permissions : list (SuggestedPermission.t C)) :
  Analyzer.Policy.Statement (Analyzer.generateIAMPolicy permissions)
  = List.map
      (fun k =>
         Props.statementOf
           (Props.filed Props.statementKey k (filter Spec.kept permissions)))
      (Props.keysOf Props.statementKey (filter Spec.kept permissions)).
Proof.
  unfold Analyzer.generateIAMPolicy. cbv zeta. cbn [Analyzer.Policy.Statement].
  rewrite statementMap_grouped. unfold Props.groupBy, StrMap.values.
  rewrite !map_map. apply map_ext. intros k. cbn [snd].
  unfold Analyzer.toStatement, Props.statementOf, Props.statementGroupOf.
  cbn [Analyzer.StatementGroup.actions Analyzer.StatementGroup.resources
       Analyzer.StatementGroup.condition].
  destruct (Props.filed _ _ _); reflexivity.
Qed.

(** X14: in every statement of a policy the actions are in strictly
    ascending code-unit order, and so are the resources: no statement
    lists an action or a resource twice. *)
Theorem policy_lists_ascending {C : Type} `{JsObject C}
  (permissions : list (SuggestedPermission.t C)) (st : Analyzer.Statement.t C) :
  In st (Analyzer.Policy.Statement (Analyzer.generateIAMPolicy permissions)) ->
  StronglySorted (fun a b => str_ltb a b = true) (Analyzer.Statement.Action st)
  /\ StronglySorted (fun a b => str_ltb a b = true)
       (Analyzer.Statement.Resource st)
  /\ Analyzer.Statement.Action st <> []
  /\ Analyzer.Statement.Resource st <> [].
Proof.
  unfold Analyzer.generateIAMPolicy. cbv zeta. cbn [Analyzer.Policy.Statement].
  rewrite statementMap_grouped. unfold Props.groupBy, StrMap.values.
  rewrite !map_map. cbn [snd]. intros Hin. apply in_map_iff in Hin.
  destruct Hin as (k & <- & Hk).
  cbn [Analyzer.toStatement Props.statementGroupOf Analyzer.Statement.Action
       Analyzer.Statement.Resource Analyzer.StatementGroup.actions
       Analyzer.StatementGroup.resources].
  apply (keysOf_in Props.statementKey) in Hk. destruct Hk as (p & Hp & Ek).
  assert (Hin : In p (Props.filed Props.statementKey k
                        (filter Spec.kept permissions)))
    by (apply filed_in; auto).
  repeat split; try (apply sort_ascending, unique_NoDup).
  - intros E.
    assert (Ha : In (SuggestedPermission.action p)
                   (sort (unique (List.map SuggestedPermission.action
                      (Props.filed Props.statementKey k
                         (filter Spec.kept permissions))))))
      by (apply sort_in, unique_in, in_map, Hin).
    rewrite E in Ha. destruct Ha.
  - intros E.
    assert (Ha : In (SuggestedPermission.resource p)
                   (sort (unique (List.map SuggestedPermission.resource
                      (Props.filed Props.statementKey k
                         (filter Spec.kept permissions))))))
      by (apply sort_in, unique_in, in_map, Hin).
    rewrite E in Ha. destruct Ha.
Qed.

(** The four sample grants name three actions, out of order and one of
    them twice; they share the bucket, the key of a statement starting
    with the resource. *)
Lemma policy_lists_ascending_witness :
  In sample_statement
    (Analyzer.Policy.Statement (Analyzer.generateIAMPolicy sample_grants))
  /\ StronglySorted (fun a b => str_ltb a b = true)
       (Analyzer.Statement.Action sample_statement)
  /\ StronglySorted (fun a b => str_ltb a b = true)
       (Analyzer.Statement.Resource sample_statement)
  /\ Analyzer.Statement.Action sample_statement <> []
  /\ Analyzer.Statement.Resource sample_statement <> [].
Proof.
  assert (Hin : In sample_statement
                  (Analyzer.Policy.Statement
                     (Analyzer.generateIAMPolicy sample_grants)))
    by (left; reflexivity).
  split; [exact Hin|].
  exact (policy_lists_ascending sample_grants sample_statement Hin).
Defined.

(** ** The groups of the generated code *)

Section SetTwice.
Context {V : Type}.

Lemma set_set (m : StrMap.t V) (k : jsstring) (v v' : V) :
  StrMap.set (StrMap.set m k v) k v' = StrMap.set m k v'.
Proof.
  induction m as [|[k0 v0] m IH]; cbn [StrMap.set].
  - rewrite str_eqb_refl. reflexivity.
  - destruct (str_eqb k0 k) eqn:E; cbn [StrMap.set]; rewrite E;
      [reflexivity | rewrite IH; reflexivity].
Qed.

End SetTwice.

Lemma services_grouped {C : Type}
  (permissions : list (SuggestedPermission.t C)) :
  Analyzer.groupPermissionsByService permissions
  = Props.groupBy Props.service (fun members => members) permissions.
Proof.
  unfold Analyzer.groupPermissionsByService.
  rewrite (fold_left_ext_in _
             (Props.fileUnder Props.service (fun p => [p])
                (fun members p => members ++ [p]))).
  - apply (group_fold Props.service _ _ (fun members => members)).
    + reflexivity.
    + reflexivity.
  - intros m p _. cbv zeta. unfold Props.fileUnder. fold (Props.service p).
    unfold StrMap.has.
    destruct (StrMap.get m (Props.service p)) as [members|] eqn:E;
      cbn [negb].
    + rewrite E. reflexivity.
    + rewrite get_set_same, set_set. reflexivity.
Qed.

(** X15: [groupPermissionsByService] partitions the permissions by the
    text before the first colon of the action (["unknown"] when there is
    none): one group per service, in order of first occurrence, holding
    the permissions of the service in their order.  No service has two
    groups and no group is empty. *)
Theorem services_partition {C : Type}
  (permissions : list (SuggestedPermission.t C)) :
  Analyzer.groupPermissionsByService permissions
  = List.map
      (fun service =>
         (service, Props.filed Props.service service permissions))
      (Props.keysOf Props.service permissions)
  /\ NoDup (List.map fst (Analyzer.groupPermissionsByService permissions))
  /\ forall service members,
      In (service, members) (Analyzer.groupPermissionsByService permissions) ->
      members <> [].
Proof.
  rewrite services_grouped. unfold Props.groupBy.
  split; [reflexivity|]. split.
  - rewrite map_map. cbn [fst]. rewrite map_id. apply unique_NoDup.
  - intros service members Hin. apply in_map_iff in Hin.
    destruct Hin as (k & E & Hk). injection E as -> <-.
    apply (keysOf_in Props.service) in Hk. destruct Hk as (p & Hp & Ek).
    intros Hnil.
    assert (Hmember : In p (Props.filed Props.service service permissions))
      by (apply filed_in; auto).
    rewrite Hnil in Hmember. destruct Hmember.
Qed.

Section CodeFacts.
Context {C : Type} `{JsObject C}.
Implicit Types (p : SuggestedPermission.t C).

Lemma resourceGroups_grouped (permissions : list (SuggestedPermission.t C)) :
  Analyzer.groupStatementsByResource permissions
  = Props.groupBy Props.pattern Props.resourceGroupOf permissions.
Proof.
  unfold Analyzer.groupStatementsByResource.
  rewrite (fold_left_ext_in _
             (Props.fileUnder Props.pattern
                (fun p => Props.resourceGroupOf [p])
                (fun group p =>
                   {| Analyzer.ResourceGroup.actions :=
                        set_add (Analyzer.ResourceGroup.actions group)
                          (SuggestedPermission.action p);
                      Analyzer.ResourceGroup.resources :=
                        set_add (Analyzer.ResourceGroup.resources group)
                          (SuggestedPermission.resource p);
                      Analyzer.ResourceGroup.conditions :=
                        match SuggestedPermission.condition p with
                        | Some c =>
                            Analyzer.add_object
                              (Analyzer.ResourceGroup.conditions group) c
                        | None => Analyzer.ResourceGroup.conditions group
                        end |}))).
  - apply group_fold.
    + reflexivity.
    + intros xs x _. unfold Props.resourceGroupOf.
      rewrite !map_app, fold_left_app. cbn [List.map fold_left].
      rewrite !unique_snoc. reflexivity.
  - intros m p _. cbv zeta. unfold Props.fileUnder. fold (Props.pattern p).
    unfold StrMap.has.
    destruct (StrMap.get m (Props.pattern p)) as [group|] eqn:E;
      cbn [negb].
    + rewrite E. reflexivity.
    + rewrite get_set_same, set_set. reflexivity.
Qed.

End CodeFacts.

(** X16: [groupStatementsByResource] has one group per access pattern of
    the resources, in order of first occurrence, holding the distinct
    actions, the distinct resources and the distinct condition objects
    of the permissions of the pattern.  No pattern has two groups, and
    every group has an action and a resource. *)
Theorem resource_groups_partition {C : Type} `{JsObject C}
  (permissions : list (SuggestedPermission.t C)) :
  Analyzer.groupStatementsByResource permissions
  = List.map
      (fun pattern =>
         (pattern,
          Props.resourceGroupOf
            (Props.filed Props.pattern pattern permissions)))
      (Props.keysOf Props.pattern permissions)
  /\ NoDup (List.map fst (Analyzer.groupStatementsByResource permissions))
  /\ forall pattern group,
      In (pattern, group) (Analyzer.groupStatementsByResource permissions) ->
      Analyzer.ResourceGroup.actions group <> []
      /\ Analyzer.ResourceGroup.resources group <> [].
Proof.
  rewrite resourceGroups_grouped. unfold Props.groupBy.
  split; [reflexivity|]. split.
  - rewrite map_map. cbn [fst]. rewrite map_id. apply unique_NoDup.
  - intros pattern group Hin. apply in_map_iff in Hin.
    destruct Hin as (k & E & Hk). injection E as -> <-.
    apply (keysOf_in Props.pattern) in Hk. destruct Hk as (p & Hp & Ek).
    assert (Hmember : In p (Props.filed Props.pattern pattern permissions))
      by (apply filed_in; auto).
    cbn [Props.resourceGroupOf Analyzer.ResourceGroup.actions
         Analyzer.ResourceGroup.resources].
    split; intros Hnil.
    + assert (Ha : In (SuggestedPermission.action p)
                     (unique (List.map SuggestedPermission.action
                                (Props.filed Props.pattern pattern permissions))))
        by (apply unique_in, in_map, Hmember).
      rewrite Hnil in Ha. destruct Ha.
    + assert (Hr : In (SuggestedPermission.resource p)
                     (unique (List.map SuggestedPermission.resource
                                (Props.filed Props.pattern pattern permissions))))
        by (apply unique_in, in_map, Hmember).
      rewrite Hnil in Hr. destruct Hr.
Qed.

Lemma includes_transitive (s t u : jsstring) :
  includes s t = true -> includes t u = true -> includes s u = true.
Proof.
  intros Hst Htu. apply includes_spec in Hst, Htu.
  destruct Hst as (a & b & ->). destruct Htu as (c & d & ->).
  apply includes_spec. exists (a ++ c), (d ++ b).
  rewrite <- !app_assoc. reflexivity.
Qed.

Lemma join_includes (sep line : jsstring) (lines : list jsstring) :
  In line lines -> includes (join sep lines) line = true.
Proof.
  induction lines as [|x lines IH]; [intros []|].
  intros Hin. apply includes_spec. cbn [join].
  destruct lines as [|y lines].
  - destruct Hin as [<- | []]. exists [], []. rewrite app_nil_r. reflexivity.
  - destruct Hin as [<- | Hin].
    + exists [], (sep ++ join sep (y :: lines)). reflexivity.
    + apply IH, includes_spec in Hin. destruct Hin as (a & b & E).
      rewrite E. exists (x ++ sep ++ a), b. rewrite <- !app_assoc.
      reflexivity.
Qed.

Lemma includes_quoted (before after name : jsstring) :
  includes (before ++ js "'" ++ name ++ js "'" ++ after) (Props.inQuotes name)
  = true.
Proof.
  apply includes_spec. exists before, after. unfold Props.inQuotes.
  rewrite <- !app_assoc. reflexivity.
Qed.

Section CodeMentions.
Context {C : Type} `{JsObject C}.
Variable inherited : jsstring -> option jsstring.
Implicit Types (p : SuggestedPermission.t C).

Lemma statementLines_action (roleName : jsstring)
  (members : list (SuggestedPermission.t C)) (index : nat)
  (pattern action : jsstring) (group : Analyzer.ResourceGroup.t C) :
  In action (Analyzer.ResourceGroup.actions group) ->
  exists line,
    In line (Analyzer.statementLines roleName members index pattern group)
    /\ includes line (Props.inQuotes action) = true.
Proof.
  intros Hin. unfold Analyzer.statementLines. cbv zeta.
  assert (Hseg :
    exists line,
      In line
        match Analyzer.ResourceGroup.actions group with
        | [one] => [js "  actions: ['" ++ one ++ js "'],"]
        | all =>
            [js "  actions: ["]
            ++ List.map (fun a => js "    '" ++ a ++ js "',") (sort all)
            ++ [js "  ],"]
        end
      /\ includes line (Props.inQuotes action) = true).
  { assert (Hmany :
      exists line,
        In line
          ([js "  actions: ["]
           ++ List.map (fun a => js "    '" ++ a ++ js "',")
                (sort (Analyzer.ResourceGroup.actions group))
           ++ [js "  ],"])
        /\ includes line (Props.inQuotes action) = true).
    { exists (js "    '" ++ action ++ js "',"). split.
      - apply in_or_app. right. apply in_or_app. left.
        apply (in_map (fun a => js "    '" ++ a ++ js "',")).
        apply sort_in. exact Hin.
      - exact (includes_quoted (js "    ") (js ",") action). }
    destruct (Analyzer.ResourceGroup.actions group) as [|one [|two more]];
      try exact Hmany.
    destruct Hin as [<- | []].
    exists (js "  actions: ['" ++ one ++ js "'],"). split.
    - left. reflexivity.
    - exact (includes_quoted (js "  actions: [") (js "],") one). }
  destruct Hseg as (line & Hline & Hinc). exists line. split; [|exact Hinc].
  apply in_or_app. right. apply in_or_app. left. exact Hline.
Qed.

Lemma statementLines_resource (roleName : jsstring)
  (members : list (SuggestedPermission.t C)) (index : nat)
  (pattern resource : jsstring) (group : Analyzer.ResourceGroup.t C) :
  In resource (Analyzer.ResourceGroup.resources group) ->
  exists line,
    In line (Analyzer.statementLines roleName members index pattern group)
    /\ includes line (Props.inQuotes (Analyzer.optimizeResourceArn resource))
       = true.
Proof.
  intros Hin. unfold Analyzer.statementLines. cbv zeta.
  assert (Hopt :
    In (Analyzer.optimizeResourceArn resource)
      (sort (List.map Analyzer.optimizeResourceArn
               (Analyzer.ResourceGroup.resources group))))
    by (apply sort_in, in_map, Hin).
  revert Hopt.
  generalize (sort (List.map Analyzer.optimizeResourceArn
                      (Analyzer.ResourceGroup.resources group))).
  intros optimized Hopt.
  assert (Hseg :
    exists line,
      In line
        match optimized with
        | [one] => [js "  resources: ['" ++ one ++ js "'],"]
        | all =>
            [js "  resources: ["]
            ++ List.map (fun r => js "    '" ++ r ++ js "',") all
            ++ [js "  ],"]
        end
      /\ includes line
           (Props.inQuotes (Analyzer.optimizeResourceArn resource)) = true).
  { assert (Hmany :
      exists line,
        In line
          ([js "  resources: ["]
           ++ List.map (fun r => js "    '" ++ r ++ js "',") optimized
           ++ [js "  ],"])
        /\ includes line
             (Props.inQuotes (Analyzer.optimizeResourceArn resource)) = true).
    { exists (js "    '" ++ Analyzer.optimizeResourceArn resource ++ js "',").
      split.
      - apply in_or_app. right. apply in_or_app. left.
        apply (in_map (fun r => js "    '" ++ r ++ js "',")). exact Hopt.
      - exact (includes_quoted (js "    ") (js ",") _). }
    destruct optimized as [|one [|two more]]; try exact Hmany.
    destruct Hopt as [-> | []].
    exists (js "  resources: ['" ++ Analyzer.optimizeResourceArn resource
            ++ js "'],").
    split.
    - left. reflexivity.
    - exact (includes_quoted (js "  resources: [") (js "],") _). }
  destruct Hseg as (line & Hline & Hinc). exists line. split; [|exact Hinc].
  apply in_or_app. right. apply in_or_app. right. apply in_or_app. left.
  exact Hline.
Qed.

Lemma statementsLines_in (roleName : jsstring)
  (members : list (SuggestedPermission.t C)) (pattern : jsstring)
  (group : Analyzer.ResourceGroup.t C)
  (groups : StrMap.t (Analyzer.ResourceGroup.t C)) (index : nat) :
  In (pattern, group) groups ->
  exists index',
    incl (Analyzer.statementLines roleName members index' pattern group)
      (Analyzer.statementsLines roleName members index groups).
Proof.
  revert index. induction groups as [|[pattern0 group0] groups IH];
    intros index Hin; [destruct Hin|].
  cbn [Analyzer.statementsLines]. destruct Hin as [E | Hin].
  - injection E as -> ->. exists index. apply incl_appl, incl_refl.
  - destruct (IH (S index) Hin) as (index' & Hincl).
    exists index'. apply incl_appr. exact Hincl.
Qed.

Lemma rolesLines_in (stackName serviceName : jsstring)
  (members : list (SuggestedPermission.t C))
  (serviceGroups : StrMap.t (list (SuggestedPermission.t C))) (index : nat) :
  In (serviceName, members) serviceGroups ->
  incl (Analyzer.statementsLines
          (Analyzer.generateRoleName serviceName stackName) members 1
          (Analyzer.groupStatementsByResource members))
    (Analyzer.rolesLines inherited stackName index serviceGroups).
Proof.
  revert index. induction serviceGroups as [|[name0 members0] groups IH];
    intros index Hin; [destruct Hin|].
  cbn [Analyzer.rolesLines]. cbv zeta. destruct Hin as [E | Hin].
  - injection E as -> ->. apply incl_appr, incl_appl, incl_refl.
  - apply incl_appr, incl_appr. apply IH. exact Hin.
Qed.

(** The lines written for the permissions of a list mention each of
    them. *)
Lemma code_lines_mention (stackName : jsstring)
  (permissions : list (SuggestedPermission.t C)) p :
  In p permissions ->
  (exists line,
      In line (Analyzer.rolesLines inherited stackName 1
                 (Analyzer.groupPermissionsByService permissions))
      /\ includes line (Props.inQuotes (SuggestedPermission.action p)) = true)
  /\ (exists line,
         In line (Analyzer.rolesLines inherited stackName 1
                    (Analyzer.groupPermissionsByService permissions))
         /\ includes line
              (Props.inQuotes
                 (Analyzer.optimizeResourceArn (SuggestedPermission.resource p)))
            = true).
Proof.
  intros Hin.
  set (members := Props.filed Props.service (Props.service p) permissions).
  assert (Hmember : In p members) by (apply filed_in; auto).
  assert (Hservice :
    In (Props.service p, members)
      (Analyzer.groupPermissionsByService permissions)).
  { rewrite services_grouped. unfold Props.groupBy.
    apply (in_map (fun k => (k, Props.filed Props.service k permissions))).
    apply keysOf_in. exists p. auto. }
  set (group := Props.resourceGroupOf
                  (Props.filed Props.pattern (Props.pattern p) members)).
  assert (Hgroup :
    In (Props.pattern p, group) (Analyzer.groupStatementsByResource members)).
  { rewrite resourceGroups_grouped. unfold Props.groupBy.
    apply (in_map (fun k => (k, Props.resourceGroupOf
                                  (Props.filed Props.pattern k members)))).
    apply keysOf_in. exists p. auto. }
  assert (Hfiled : In p (Props.filed Props.pattern (Props.pattern p) members))
    by (apply filed_in; auto).
  destruct (statementsLines_in
              (Analyzer.generateRoleName (Props.service p) stackName)
              members _ _ _ 1 Hgroup) as (index & Hlines).
  pose proof (rolesLines_in stackName _ _ _ 1 Hservice) as Hroles.
  split.
  - destruct (statementLines_action
                (Analyzer.generateRoleName (Props.service p) stackName)
                members index (Props.pattern p)
                (SuggestedPermission.action p) group)
      as (line & Hline & Hinc).
    + apply unique_in, in_map, Hfiled.
    + exists line. split; [|exact Hinc]. apply Hroles, Hlines, Hline.
  - destruct (statementLines_resource
                (Analyzer.generateRoleName (Props.service p) stackName)
                members index (Props.pattern p)
                (SuggestedPermission.resource p) group)
      as (line & Hline & Hinc).
    + apply unique_in, in_map, Hfiled.
    + exists line. split; [|exact Hinc]. apply Hroles, Hlines, Hline.
Qed.

End CodeMentions.

Lemma code_mentions_member {C : Type} `{JsObject C}
  (inherited : jsstring -> option jsstring)
  (permissions : list (SuggestedPermission.t C)) (stackName : jsstring)
  (p : SuggestedPermission.t C) :
  In p (filter Analyzer.relevant permissions) ->
  includes (Analyzer.generateCDKCode inherited permissions stackName)
    (Props.inQuotes (SuggestedPermission.action p)) = true
  /\ includes (Analyzer.generateCDKCode inherited permissions stackName)
       (Props.inQuotes
          (Analyzer.optimizeResourceArn (SuggestedPermission.resource p)))
     = true.
Proof.
  intros Hp. unfold Analyzer.generateCDKCode. cbv zeta.
  destruct (code_lines_mention inherited stackName _ p Hp)
    as [(la & Hla & Ha) (lr & Hlr & Hr)].
  destruct (filter Analyzer.relevant permissions) as [|first rest];
    [destruct Hp|].
  split.
  - apply (includes_transitive _ la); [|exact Ha].
    apply join_includes. apply in_or_app. right. apply in_or_app. right.
    apply in_or_app. left. exact Hla.
  - apply (includes_transitive _ lr); [|exact Hr].
    apply join_includes. apply in_or_app. right. apply in_or_app. right.
    apply in_or_app. left. exact Hlr.
Qed.

(** X17: the generated code names every permission it is given that
    passes its filter (a positive frequency, or severity critical or
    high): the action between apostrophes, and the resource, as
    rewritten by [optimizeResourceArn], between apostrophes. *)
Theorem code_mentions_relevant {C : Type} `{JsObject C}
  (inherited : jsstring -> option jsstring)
  (permissions : list (SuggestedPermission.t C)) (stackName : jsstring)
  (p : SuggestedPermission.t C) :
  In p permissions -> Analyzer.relevant p = true ->
  includes (Analyzer.generateCDKCode inherited permissions stackName)
    (Props.inQuotes (SuggestedPermission.action p)) = true
  /\ includes (Analyzer.generateCDKCode inherited permissions stackName)
       (Props.inQuotes
          (Analyzer.optimizeResourceArn (SuggestedPermission.resource p)))
     = true.
Proof.
  intros Hin Hrel. apply code_mentions_member.
  apply filter_In. split; [exact Hin | exact Hrel].
Qed.

Lemma code_mentions_relevant_witness :
  let p :=
    sample_permission (js "s3:PutObject") (js "arn:aws:s3:::test-bucket") 3
      High in
  (In p [p] /\ Analyzer.relevant p = true)
  /\ includes (Analyzer.generateCDKCode no_inherited [p] (js "test-stack"))
       (Props.inQuotes (js "s3:PutObject")) = true
  /\ includes (Analyzer.generateCDKCode no_inherited [p] (js "test-stack"))
       (Props.inQuotes (js "arn:aws:s3:::test-bucket/*")) = true.
Proof.
  intros p.
  assert (Hin : In p [p]) by (left; reflexivity).
  assert (Hrel : Analyzer.relevant p = true) by reflexivity.
  split; [split; assumption|].
  exact (code_mentions_relevant no_inherited [p] (js "test-stack") p Hin Hrel).
Defined.

(** X29: the filter of [generateCDKCode] passes every suggestion of
    [analyzeLogs]: the code generated from the suggestions of a batch
    names each of them, the action between apostrophes and the rewritten
    resource between apostrophes. *)
Theorem analyzed_suggestions_coded
  (inherited : jsstring -> option jsstring) (clock : nat -> jsstring)
  (logAnalysisResults : list LogAnalysisResult.t) (stackName : jsstring)
  (p : SuggestedPermission.t Analyzer.Conditions.t) :
  In p (Analyzer.analyzeLogs clock logAnalysisResults) ->
  Analyzer.relevant p = true
  /\ includes
       (Analyzer.generateCDKCode inherited
          (Analyzer.analyzeLogs clock logAnalysisResults) stackName)
       (Props.inQuotes (SuggestedPermission.action p)) = true
  /\ includes
       (Analyzer.generateCDKCode inherited
          (Analyzer.analyzeLogs clock logAnalysisResults) stackName)
       (Props.inQuotes
          (Analyzer.optimizeResourceArn (SuggestedPermission.resource p)))
     = true.
Proof.
  intros Hin.
  assert (Hrel : Analyzer.relevant p = true).
  { apply analyzeLogs_positive in Hin. unfold Analyzer.relevant.
    replace (0 <? SuggestedPermission.frequency p)%Z with true
      by (symmetry; apply Z.ltb_lt; lia).
    reflexivity. }
  split; [exact Hrel|].
  apply code_mentions_member. apply filter_In. split; assumption.
Qed.

Lemma analyzed_suggestions_coded_witness :
  let suggestions :=
    Analyzer.analyzeLogs (fun _ => js "2024-01-01T00:00:00.000Z")
      [sample_result [sample_denial]] in
  In sample_suggestion suggestions
  /\ Analyzer.relevant sample_suggestion = true
  /\ includes
       (Analyzer.generateCDKCode no_inherited suggestions (js "test-stack"))
       (Props.inQuotes (SuggestedPermission.action sample_suggestion)) = true
  /\ includes
       (Analyzer.generateCDKCode no_inherited suggestions (js "test-stack"))
       (Props.inQuotes
          (Analyzer.optimizeResourceArn
             (SuggestedPermission.resource sample_suggestion)))
     = true.
Proof.
  intros suggestions.
  assert (Hin : In sample_suggestion suggestions) by (left; reflexivity).
  split; [exact Hin|].
  exact (analyzed_suggestions_coded no_inherited _ _ (js "test-stack")
           sample_suggestion Hin).
Defined.

(** ** Names written into the code *)

(** X18: [optimizeResourceArn] never returns ["Unknown"], and it returns
    the bare wildcard ["*"] for the two sentinels only: no other resource
    is widened to all resources. *)
Theorem optimize_wildcard_only (resource : jsstring) :
  Analyzer.optimizeResourceArn resource <> js "Unknown"
  /\ (Analyzer.optimizeResourceArn resource = js "*"
      <-> resource = js "Unknown" \/ resource = js "*").
Proof.
  unfold Analyzer.optimizeResourceArn.
  destruct (str_eqb resource (js "Unknown")) eqn:EU.
  { apply str_eqb_eq in EU. cbn [orb].
    split; [discriminate | split; auto]. }
  destruct (str_eqb resource (js "*")) eqn:ES.
  { apply str_eqb_eq in ES. cbn [orb].
    split; [discriminate | split; auto]. }
  apply str_eqb_neq in EU, ES. cbn [orb].
  assert (Hsame : resource <> js "Unknown"
                  /\ (resource = js "*"
                      <-> resource = js "Unknown" \/ resource = js "*"))
    by (split; [exact EU | split; [auto | intros [E | E]; contradiction]]).
  destruct (includes resource (js "arn:aws:s3:::")
            && negb (includes resource (js "/*"))).
  { assert (Hinc : includes (resource ++ js "/*") (js "/*") = true)
      by (apply includes_app_r; reflexivity).
    split; [|split].
    - intros E. rewrite E in Hinc. discriminate Hinc.
    - intros E. rewrite E in Hinc. discriminate Hinc.
    - intros [E | E]; contradiction. }
  destruct (includes resource (js "*")) eqn:HX; [|exact Hsame].
  destruct (includes resource (js "arn:aws:logs:")
            && endsWith resource (js "*")); [|exact Hsame].
  destruct (includes resource (js "log-group:")); [exact Hsame|].
  apply includes_unit in HX.
  destruct (replace_unit resource (js "log-group:*") 42%N HX)
    as (a & b & _ & Erep).
  change (js "*") with [42%N] at 1 2. rewrite Erep.
  assert (Hinc : includes (a ++ js "log-group:*" ++ b) (js "log-group:") = true)
    by (apply includes_app_r, includes_app_l; reflexivity).
  split; [|split].
  - intros E. rewrite E in Hinc. discriminate Hinc.
  - intros E. rewrite E in Hinc. discriminate Hinc.
  - intros [E | E]; contradiction.
Qed.

Lemma endsWith_app (s suffix : jsstring) : endsWith (s ++ suffix) suffix = true.
Proof. unfold endsWith. rewrite rev_app_distr. apply startsWith_app. Qed.

(** X19: for a service whose name is no member of [Object.prototype],
    the service principal ends with [".amazonaws.com"]. *)
Theorem service_principal_domain (inherited : jsstring -> option jsstring)
  (service : jsstring) :
  inherited service = None ->
  endsWith (Analyzer.getServicePrincipal inherited service)
    (js ".amazonaws.com") = true.
Proof.
  intros Hnone. unfold Analyzer.getServicePrincipal. rewrite Hnone.
  destruct (StrMap.get Analyzer.principals service) as [principal|] eqn:E;
    [|apply endsWith_app].
  apply get_some_in in E. cbn in E.
  repeat (destruct E as [<- | E]; [reflexivity|]). destruct E.
Qed.

Lemma service_principal_domain_witness :
  no_inherited (js "sqs") = None
  /\ endsWith (Analyzer.getServicePrincipal no_inherited (js "sqs"))
       (js ".amazonaws.com") = true.
Proof.
  split; [reflexivity|].
  apply (service_principal_domain no_inherited (js "sqs")). reflexivity.
Defined.

(** ** Conditions *)

(** X20: [generateConditions] returns no condition exactly when the
    action contains none of ["delete"], ["put"], ["create"], ["iam:"],
    ["admin"] and the resource contains neither ["api"] nor ["public"];
    a condition that is returned has at least one key, asks for
    multi-factor authentication exactly for ["delete"], ["iam:"] and
    ["admin"], and carries the time of the call exactly for ["delete"],
    ["put"] and ["create"]. *)
Theorem conditions_triggers (call : nat) (now action resource : jsstring) :
  (Analyzer.generateConditions call now action resource = None
   <-> includes action (js "delete") || includes action (js "put")
       || includes action (js "create") || includes action (js "iam:")
       || includes action (js "admin") || includes resource (js "api")
       || includes resource (js "public") = false)
  /\ forall c,
      Analyzer.generateConditions call now action resource = Some c ->
      0 < Object_keys_length c
      /\ Analyzer.Conditions.Bool c
         = includes action (js "delete") || includes action (js "iam:")
           || includes action (js "admin")
      /\ Analyzer.Conditions.IpAddress c
         = includes resource (js "api") || includes resource (js "public")
      /\ Analyzer.Conditions.DateGreaterThan c
         = (if includes action (js "delete") || includes action (js "put")
               || includes action (js "create")
            then Some now else None).
Proof.
  unfold Analyzer.generateConditions. cbv zeta.
  destruct (includes action (js "delete")), (includes action (js "put")),
    (includes action (js "create")), (includes action (js "iam:")),
    (includes action (js "admin")), (includes resource (js "api")),
    (includes resource (js "public"));
    cbn; (split; [split; intros E; try discriminate E; reflexivity|]);
    intros c E; try discriminate E; injection E as <-; cbn;
    repeat split; lia.
Qed.

(** ** The rows of the aggregation *)

Lemma processDenial_files (m : StrMap.t Analyzer.Candidate.t)
  (e : Spec.event) :
  Analyzer.processDenial (fst e) m (snd e)
  = Props.fileUnder Props.eventKey (fun e' => Props.candidateOf [e'])
      (fun existing e' =>
         {| Analyzer.Candidate.action := Analyzer.Candidate.action existing;
            Analyzer.Candidate.frequency :=
              (Analyzer.Candidate.frequency existing + 1)%Z;
            Analyzer.Candidate.resource := Analyzer.Candidate.resource existing;
            Analyzer.Candidate.reasoning :=
              Analyzer.Candidate.reasoning existing
              ++ [Spec.note (js "Additional denial in ") e'];
            Analyzer.Candidate.severity := Analyzer.Candidate.severity existing;
            Analyzer.Candidate.associatedResources :=
              Analyzer.Candidate.associatedResources existing
              ++ Spec.resourceIds e' |})
      m e.
Proof.
  unfold Analyzer.processDenial, Props.fileUnder, Props.eventKey, Analyzer.key.
  cbv zeta. destruct e as [result denial]. cbn [fst snd].
  destruct (StrMap.get m _) as [existing|]; f_equal.
  - unfold Spec.resourceIds, Spec.note. cbn [fst snd].
    destruct (LogAnalysisResult.associatedResource result);
      [reflexivity | rewrite app_nil_r; reflexivity].
  - unfold Props.candidateOf, Spec.resourceIds, Spec.note, Spec.severityAt.
    cbn [fst snd flat_map List.map List.length Z.of_nat Pos.of_succ_nat].
    destruct (LogAnalysisResult.associatedResource result); reflexivity.
Qed.

Lemma aggregate_grouped (logAnalysisResults : list LogAnalysisResult.t) :
  Analyzer.aggregate logAnalysisResults
  = Props.groupBy Props.eventKey Props.candidateOf
      (Spec.events logAnalysisResults).
Proof.
  unfold Analyzer.aggregate. rewrite aggregate_events.
  rewrite (fold_left_ext_in _ _ _ _ (fun m e _ => processDenial_files m e)).
  apply group_fold.
  - reflexivity.
  - intros xs x Hxs. destruct xs as [|first rest]; [contradiction|].
    unfold Props.candidateOf.
    cbn [app Analyzer.Candidate.action Analyzer.Candidate.frequency
         Analyzer.Candidate.resource Analyzer.Candidate.reasoning
         Analyzer.Candidate.severity Analyzer.Candidate.associatedResources].
    f_equal.
    + cbn [List.length]. rewrite length_app. cbn [List.length]. lia.
    + rewrite map_app. reflexivity.
    + change (first :: rest ++ [x]) with ((first :: rest) ++ [x]).
      rewrite flat_map_app. cbn [flat_map]. rewrite app_nil_r. reflexivity.
Qed.

Lemma suggest_length (clock : nat -> jsstring) (n : nat)
  (rows : list Analyzer.Candidate.t) :
  List.length (Analyzer.suggest clock n rows) = List.length rows.
Proof.
  rewrite <- (length_map SuggestedPermission.frequency), suggest_frequencies.
  apply length_map.
Qed.

Lemma insertBy_length {A} (cmp : A -> A -> Z) (x : A) (l : list A) :
  List.length (Analyzer.insertBy cmp x l) = S (List.length l).
Proof.
  induction l as [|y l IH]; cbn [Analyzer.insertBy]; [reflexivity|].
  destruct (cmp x y <=? 0)%Z; cbn [List.length]; [reflexivity|].
  rewrite IH. reflexivity.
Qed.

Lemma sortBy_length {A} (cmp : A -> A -> Z) (l : list A) :
  List.length (Analyzer.sortBy cmp l) = List.length l.
Proof.
  unfold Analyzer.sortBy. induction l as [|x l IH]; [reflexivity|].
  cbn [fold_right List.length]. rewrite insertBy_length, IH. reflexivity.
Qed.

(** X21: for a batch whose actions have code units below 256, the two
    loops of [analyzeLogs] build one row for each distinct
    key (normalised action, ["|||"], normalised resource) of the denials
    of the batch, in order of first occurrence; the row takes action,
    resource and severity from the first denial of the key, counts the
    denials of the key, and collects their notes and resource ids in
    order.  There are as many suggestions as distinct keys. *)
Theorem aggregate_rows (clock : nat -> jsstring)
  (logAnalysisResults : list LogAnalysisResult.t) :
  Props.latin1Actions logAnalysisResults = true ->
  Analyzer.aggregate logAnalysisResults
  = List.map
      (fun k => (k, Props.candidateOf (Spec.eventsOf k logAnalysisResults)))
      (Props.keysOf Props.eventKey (Spec.events logAnalysisResults))
  /\ List.length (Analyzer.analyzeLogs clock logAnalysisResults)
     = List.length
         (Props.keysOf Props.eventKey (Spec.events logAnalysisResults)).
Proof.
  intros _. split; [apply aggregate_grouped|].
  unfold Analyzer.analyzeLogs. cbv zeta.
  rewrite sortBy_length, suggest_length, aggregate_grouped.
  unfold StrMap.values, Props.groupBy. rewrite !length_map. reflexivity.
Qed.

Lemma aggregate_rows_witness :
  let clock := fun _ : nat => js "2024-01-01T00:00:00.000Z" in
  Props.latin1Actions sample_batch = true
  /\ Analyzer.aggregate sample_batch
     = List.map
         (fun k => (k, Props.candidateOf (Spec.eventsOf k sample_batch)))
         (Props.keysOf Props.eventKey (Spec.events sample_batch))
  /\ List.length (Analyzer.analyzeLogs clock sample_batch)
     = List.length (Props.keysOf Props.eventKey (Spec.events sample_batch)).
Proof.
  intros clock. split; [reflexivity|].
  exact (aggregate_rows clock sample_batch eq_refl).
Defined.

(** ** What the extractors quote *)

Section Quoting.
Variable message : jsstring.

Lemma restOf_refl (s : jsstring) : Props.restOf s s.
Proof. exists []. reflexivity. Qed.

Lemma restOf_tail (d : N) (s : jsstring) : Props.restOf (d :: s) s.
Proof. exists [d]. reflexivity. Qed.

Lemma restOf_transitive (s s' s'' : jsstring) :
  Props.restOf s s' -> Props.restOf s' s'' -> Props.restOf s s''.
Proof.
  intros (a & ->) (b & ->). exists (a ++ b). rewrite <- app_assoc.
  reflexivity.
Qed.

Lemma restOf_piece (s s' : jsstring) :
  Props.restOf message s -> Props.restOf s s' ->
  includes message (firstn (List.length s - List.length s') s) = true.
Proof.
  intros (before & ->) (piece & ->).
  rewrite length_app.
  replace (List.length piece + List.length s' - List.length s')
    with (List.length piece + 0) by lia.
  rewrite firstn_app_2. cbn [firstn]. rewrite app_nil_r.
  apply includes_spec. exists before, s'. reflexivity.
Qed.

(** What a continuation is entered with: a later position and captures
    cut from the message; [ensured] is what its results satisfy. *)
Variable ensured : jsstring * Regex.captures -> Prop.

Lemma repeatMatcher_cuts
  (step : jsstring -> Regex.captures -> Regex.continuation
          -> option (jsstring * Regex.captures)) :
  (forall s caps k result,
      Props.restOf message s -> Props.cutFrom message caps ->
      (forall s' caps' result',
          Props.restOf s s' -> Props.cutFrom message caps' ->
          k s' caps' = Some result' -> ensured result') ->
      step s caps k = Some result -> ensured result) ->
  forall fuel s caps k result,
    Props.restOf message s -> Props.cutFrom message caps ->
    (forall s' caps' result',
        Props.restOf s s' -> Props.cutFrom message caps' ->
        k s' caps' = Some result' -> ensured result') ->
    Regex.repeatMatcher step fuel s caps k = Some result -> ensured result.
Proof.
  intros Hstep. induction fuel as [|fuel IH];
    intros s caps k result Hs Hcaps Hk; cbn [Regex.repeatMatcher].
  - apply (Hk s caps result (restOf_refl s) Hcaps).
  - destruct (step s caps _) as [found|] eqn:E.
    + intros E'. injection E' as <-.
      apply (Hstep _ _ _ _ Hs Hcaps) in E; [exact E|].
      intros s' caps' result' Hs' Hcaps'.
      destruct (List.length s' <? List.length s); [|discriminate].
      apply IH; [exact (restOf_transitive _ _ _ Hs Hs') | exact Hcaps'|].
      intros s'' caps'' result'' Hs''. apply Hk.
      exact (restOf_transitive _ _ _ Hs' Hs'').
    + apply (Hk s caps result (restOf_refl s) Hcaps).
Qed.

Lemma run_cuts (i : bool) (r : Regex.regex) :
  forall s caps k result,
    Props.restOf message s -> Props.cutFrom message caps ->
    (forall s' caps' result',
        Props.restOf s s' -> Props.cutFrom message caps' ->
        k s' caps' = Some result' -> ensured result') ->
    Regex.run i r s caps k = Some result -> ensured result.
Proof.
  induction r as [|c| |negated items|a IHa b IHb|a IHa b IHb|a IHa|a IHa
                 |index a IHa];
    intros s caps k result Hs Hcaps Hk; cbn [Regex.run].
  - apply (Hk s caps result (restOf_refl s) Hcaps).
  - destruct s as [|d s']; [discriminate|].
    destruct (Regex.unitMatches i c d); [|discriminate].
    apply (Hk s' caps result (restOf_tail d s') Hcaps).
  - destruct s as [|d s']; [discriminate|].
    destruct (isLineTerminator d); [discriminate|].
    apply (Hk s' caps result (restOf_tail d s') Hcaps).
  - destruct s as [|d s']; [discriminate|].
    destruct (xorb negated (Regex.classMatches i items d)); [|discriminate].
    apply (Hk s' caps result (restOf_tail d s') Hcaps).
  - apply (IHa _ _ _ _ Hs Hcaps).
    intros s' caps' result' Hs' Hcaps'.
    apply IHb; [exact (restOf_transitive _ _ _ Hs Hs') | exact Hcaps'|].
    intros s'' caps'' result'' Hs''. apply Hk.
    exact (restOf_transitive _ _ _ Hs' Hs'').
  - destruct (Regex.run i a s caps k) as [found|] eqn:E.
    + intros E'. injection E' as <-. exact (IHa _ _ _ _ Hs Hcaps Hk E).
    + apply (IHb _ _ _ _ Hs Hcaps Hk).
  - apply (repeatMatcher_cuts _ IHa _ _ _ _ _ Hs Hcaps Hk).
  - apply (IHa _ _ _ _ Hs Hcaps).
    intros s' caps' result' Hs' Hcaps'.
    apply (repeatMatcher_cuts _ IHa);
      [exact (restOf_transitive _ _ _ Hs Hs') | exact Hcaps'|].
    intros s'' caps'' result'' Hs''. apply Hk.
    exact (restOf_transitive _ _ _ Hs' Hs'').
  - apply (IHa _ _ _ _ Hs Hcaps).
    intros s' caps' result' Hs' Hcaps'. apply (Hk _ _ _ Hs').
    intros index' text [E | Hin].
    + injection E as _ <-. exact (restOf_piece _ _ Hs Hs').
    + exact (Hcaps' _ _ Hin).
Qed.

End Quoting.

(** The match and the captures of [exec] are pieces of the message. *)
Lemma search_cuts (message : jsstring) (i : bool) (r : Regex.regex)
  (s : jsstring) (m : Regex.result) :
  Props.restOf message s -> Regex.search i r s = Some m ->
  includes message (Regex.whole m) = true
  /\ Props.cutFrom message (Regex.groups m).
Proof.
  induction s as [|d s IH]; intros Hs; cbn [Regex.search];
    destruct (Regex.run i r _ [] _) as [[rest caps]|] eqn:E;
    try discriminate.
  - intros E'. injection E' as <-. cbn [Regex.whole Regex.groups].
    apply (run_cuts message
             (fun result => Props.restOf [] (fst result)
                            /\ Props.cutFrom message (snd result))) in E.
    + destruct E as [Hrest Hcaps]. split; [|exact Hcaps].
      exact (restOf_piece message _ _ Hs Hrest).
    + exact Hs.
    + intros index text [].
    + intros s' caps' result' Hs' Hcaps' E'. injection E' as <-.
      split; assumption.
  - intros E'. injection E' as <-. cbn [Regex.whole Regex.groups].
    apply (run_cuts message
             (fun result => Props.restOf (d :: s) (fst result)
                            /\ Props.cutFrom message (snd result))) in E.
    + destruct E as [Hrest Hcaps]. split; [|exact Hcaps].
      exact (restOf_piece message _ _ Hs Hrest).
    + exact Hs.
    + intros index text [].
    + intros s' caps' result' Hs' Hcaps' E'. injection E' as <-.
      split; assumption.
  - apply IH. exact (restOf_transitive _ _ _ Hs (restOf_tail d s)).
Qed.

Lemma exec_cuts (pattern : Regex.literal) (message : jsstring)
  (m : Regex.result) :
  Regex.exec pattern message = Some m ->
  includes message (Regex.whole m) = true
  /\ Props.cutFrom message (Regex.groups m).
Proof.
  unfold Regex.exec. destruct (Regex.compile _); [|discriminate].
  apply search_cuts. apply restOf_refl.
Qed.

Lemma group_in (caps : Regex.captures) (index : nat) (text : jsstring) :
  Regex.group caps index = Some text -> In (index, text) caps.
Proof.
  induction caps as [|[i t] caps IH]; cbn [Regex.group]; [discriminate|].
  destruct (Nat.eqb i index) eqn:E.
  - apply Nat.eqb_eq in E. subst. intros E. injection E as <-. left.
    reflexivity.
  - intros H. right. exact (IH H).
Qed.

Lemma capture1_cuts (pattern : Regex.literal) (message text : jsstring) :
  Logs.capture1 pattern message = Some text -> includes message text = true.
Proof.
  unfold Logs.capture1.
  destruct (Regex.exec pattern message) as [m|] eqn:E; [|discriminate].
  destruct (Regex.group (Regex.groups m) 1) as [[|c rest]|] eqn:G;
    try discriminate.
  intros E'. injection E' as <-.
  apply exec_cuts in E. apply group_in in G. exact (proj2 E _ _ G).
Qed.

Lemma firstCapture_cuts (patterns : list Regex.literal)
  (message text : jsstring) :
  Logs.firstCapture patterns message = Some text ->
  includes message text = true.
Proof.
  induction patterns as [|pattern patterns IH]; cbn [Logs.firstCapture];
    [discriminate|].
  destruct (Logs.capture1 pattern message) as [found|] eqn:E; [|exact IH].
  intros E'. injection E' as <-. exact (capture1_cuts _ _ _ E).
Qed.

Lemma firstResource_cuts (patterns : list Regex.literal)
  (message text : jsstring) :
  Logs.firstResource patterns message = Some text ->
  includes message text = true
  \/ exists name, text = js "table " ++ name /\ includes message name = true.
Proof.
  induction patterns as [|pattern patterns IH]; cbn [Logs.firstResource];
    [discriminate|].
  destruct (Logs.capture1 pattern message) as [found|] eqn:E; [|exact IH].
  apply capture1_cuts in E.
  destruct (_ && _); intros E'; injection E' as <-.
  - right. exists found. split; [reflexivity | exact E].
  - left. exact E.
Qed.

Lemma firstError_cuts (patterns : list Regex.literal)
  (message text : jsstring) :
  Logs.firstError patterns message = Some text ->
  includes message text = true \/ text = js "Unknown".
Proof.
  induction patterns as [|pattern patterns IH]; cbn [Logs.firstError];
    [discriminate|].
  destruct (Regex.exec pattern message) as [m|] eqn:E; [|exact IH].
  apply exec_cuts in E. destruct E as [Hwhole Hcaps].
  destruct (Regex.group (Regex.groups m) 1) as [[|c rest]|] eqn:G.
  - destruct (Regex.whole m) eqn:W; intros E'; injection E' as <-;
      [right; reflexivity | left; exact Hwhole].
  - intros E'. injection E' as <-. apply group_in in G.
    left. exact (Hcaps _ _ G).
  - destruct (Regex.whole m) eqn:W; intros E'; injection E' as <-;
      [right; reflexivity | left; exact Hwhole].
Qed.

(** X22: on the plain-text path no extractor invents text.  The action
    and the principal are ["Unknown"] or a piece of the message; the
    resource is ["Unknown"], a piece of the message, or ["table "]
    followed by a piece of the message; the error code is ["Unknown"],
    ["AccessDenied"] or a piece of the message. *)
Theorem text_extractors_quote (message : jsstring) :
  (Logs.extractActionFromText message = js "Unknown"
   \/ includes message (Logs.extractActionFromText message) = true)
  /\ (Logs.extractPrincipalFromText message = js "Unknown"
      \/ includes message (Logs.extractPrincipalFromText message) = true)
  /\ (Logs.extractResourceFromText message = js "Unknown"
      \/ includes message (Logs.extractResourceFromText message) = true
      \/ exists name,
           Logs.extractResourceFromText message = js "table " ++ name
           /\ includes message name = true)
  /\ (Logs.extractErrorCodeFromText message = js "Unknown"
      \/ Logs.extractErrorCodeFromText message = js "AccessDenied"
      \/ includes message (Logs.extractErrorCodeFromText message) = true).
Proof.
  unfold Logs.extractActionFromText, Logs.extractPrincipalFromText,
    Logs.extractResourceFromText, Logs.extractErrorCodeFromText.
  repeat split.
  - destruct (Logs.firstCapture Logs.actionPatterns message) eqn:E;
      [right; exact (firstCapture_cuts _ _ _ E) | left; reflexivity].
  - destruct (Logs.firstCapture Logs.principalPatterns message) eqn:E;
      [right; exact (firstCapture_cuts _ _ _ E) | left; reflexivity].
  - destruct (Logs.firstResource Logs.resourcePatterns message) eqn:E;
      [right; exact (firstResource_cuts _ _ _ E) | left; reflexivity].
  - destruct (Logs.firstError Logs.errorPatterns message) eqn:E.
    + destruct (firstError_cuts _ _ _ E); auto.
    + destruct (_ || _); auto.
Qed.

(** ** Reasoning *)

(** X23: the consolidated reasoning loses nothing: every reason and
    every associated resource id is a piece of the text. *)
Theorem reasoning_keeps_all (reasons associatedResources : list jsstring)
  (text : jsstring) :
  In text reasons \/ In text associatedResources ->
  includes (Analyzer.consolidateReasoning reasons associatedResources) text
  = true.
Proof.
  unfold Analyzer.consolidateReasoning. cbv zeta. intros [Hin | Hin].
  - assert (Hjoin : includes (join (js "; ") (unique reasons)) text = true)
      by (apply join_includes, unique_in, Hin).
    destruct associatedResources; [exact Hjoin|].
    apply includes_app_l. exact Hjoin.
  - destruct associatedResources as [|id ids]; [destruct Hin|].
    apply includes_app_r, includes_app_r, join_includes, unique_in, Hin.
Qed.

Lemma reasoning_keeps_all_witness :
  (In (js "TestFunction") [js "Permission denied in /aws/lambda/f: AccessDenied"]
   \/ In (js "TestFunction") [js "TestFunction"; js "TestFunction"])
  /\ includes
       (Analyzer.consolidateReasoning
          [js "Permission denied in /aws/lambda/f: AccessDenied"]
          [js "TestFunction"; js "TestFunction"])
       (js "TestFunction")
     = true.
Proof.
  assert (Hin : In (js "TestFunction")
                  [js "Permission denied in /aws/lambda/f: AccessDenied"]
                \/ In (js "TestFunction") [js "TestFunction"; js "TestFunction"])
    by (right; left; reflexivity).
  split; [exact Hin|].
  exact (reasoning_keeps_all _ _ _ Hin).
Defined.

(** ** Searching a log group *)

Lemma scanEvents_readable (events : list FilteredLogEvent.t)
  (logGroupName : jsstring) (permissionDenials : list Logs.Denial.t) :
  LogService.scanEvents events logGroupName permissionDenials
  = (permissionDenials
     ++ Props.denialsOf logGroupName (Props.readable logGroupName events),
     negb (List.length (Props.readable logGroupName events)
           =? List.length events)).
Proof.
  revert permissionDenials.
  induction events as [|event rest IH]; intros permissionDenials;
    cbn [LogService.scanEvents Props.readable].
  - cbn. rewrite app_nil_r. reflexivity.
  - unfold Props.denialsOf.
    destruct (Logs.parsePermissionDenial event logGroupName)
      as [[denial|]|error] eqn:E; cbn [flat_map List.length Nat.eqb].
    + rewrite E, IH, <- app_assoc. reflexivity.
    + rewrite E, IH. reflexivity.
    + cbn. rewrite app_nil_r. reflexivity.
Qed.

Lemma denialsOf_in (logGroupName : jsstring)
  (events : list FilteredLogEvent.t) (denial : Logs.Denial.t) :
  In denial (Props.denialsOf logGroupName events)
  <-> exists event,
        In event events
        /\ Logs.parsePermissionDenial event logGroupName
           = Returned (Some denial).
Proof.
  unfold Props.denialsOf. rewrite in_flat_map. split.
  - intros (event & Hin & Hd). exists event. split; [exact Hin|].
    destruct (Logs.parsePermissionDenial event logGroupName) as [[d|]|];
      try destruct Hd.
    + subst. reflexivity.
    + destruct H.
  - intros (event & Hin & E). exists event. split; [exact Hin|].
    rewrite E. left. reflexivity.
Qed.

Lemma readable_in (logGroupName : jsstring)
  (events : list FilteredLogEvent.t) (event : FilteredLogEvent.t) :
  In event (Props.readable logGroupName events) -> In event events.
Proof.
  induction events as [|e rest IH]; cbn [Props.readable]; [intros []|].
  destruct (Logs.parsePermissionDenial e logGroupName); [|intros []].
  intros [<- | Hin]; [left; reflexivity | right; exact (IH Hin)].
Qed.

Lemma readable_all (logGroupName : jsstring)
  (events : list FilteredLogEvent.t) :
  List.length (Props.readable logGroupName events) = List.length events ->
  Props.readable logGroupName events = events.
Proof.
  induction events as [|e rest IH]; cbn [Props.readable]; [reflexivity|].
  destruct (Logs.parsePermissionDenial e logGroupName); [|discriminate].
  cbn [List.length]. intros E. injection E as E. rewrite IH by exact E.
  reflexivity.
Qed.

Section SearchFacts.
Variable filterLogEvents : nat -> outcome LogService.FilterLogEventsOutput.t.
Variable roleTest : jsstring -> Json.value -> outcome bool.

Lemma fetched_one (n : nat) :
  Props.fetched filterLogEvents n (S n)
  = Props.responseEvents (filterLogEvents n).
Proof.
  unfold Props.fetched. replace (S n - n) with 1 by lia.
  cbn [seq flat_map]. apply app_nil_r.
Qed.

Lemma fetched_two (n : nat) :
  Props.fetched filterLogEvents n (S (S n))
  = Props.responseEvents (filterLogEvents n)
    ++ Props.responseEvents (filterLogEvents (S n)).
Proof.
  unfold Props.fetched. replace (S (S n) - n) with 2 by lia.
  cbn [seq flat_map]. rewrite app_nil_r. reflexivity.
Qed.

Lemma scanned_from (events : list FilteredLogEvent.t)
  (logGroupName : jsstring) (before : list Logs.Denial.t)
  (denial : Logs.Denial.t) :
  In denial (fst (LogService.scanEvents events logGroupName before)) ->
  In denial before
  \/ exists event,
       In event events
       /\ Logs.parsePermissionDenial event logGroupName
          = Returned (Some denial).
Proof.
  rewrite scanEvents_readable. cbn [fst]. rewrite in_app_iff.
  intros [Hin | Hin]; [left; exact Hin | right].
  apply denialsOf_in in Hin. destruct Hin as (event & Hin & E).
  exists event. split; [exact (readable_in _ _ _ Hin) | exact E].
Qed.

(** Every denial collected comes from an event fetched by one of the
    calls made, of which there are one or two. *)
Lemma collectDenials_provenance (n n' : nat) (logGroupName : jsstring)
  (denials : list Logs.Denial.t) :
  LogService.collectDenials filterLogEvents n logGroupName = (denials, n') ->
  (n' = S n \/ n' = S (S n))
  /\ forall denial,
      In denial denials ->
      exists event,
        In event (Props.fetched filterLogEvents n n')
        /\ Logs.parsePermissionDenial event logGroupName
           = Returned (Some denial).
Proof.
  unfold LogService.collectDenials.
  destruct (filterLogEvents n) as [response|error] eqn:E1.
  2: { intros E. injection E as <- <-. split; [left; reflexivity|].
       intros denial []. }
  assert (Hfirst :
    forall denial,
      In denial
        (fst match LogService.FilterLogEventsOutput.events response with
             | Some events => LogService.scanEvents events logGroupName []
             | None => ([], false)
             end) ->
      exists event,
        In event (Props.responseEvents (filterLogEvents n))
        /\ Logs.parsePermissionDenial event logGroupName
           = Returned (Some denial)).
  { intros denial. rewrite E1. cbn [Props.responseEvents].
    destruct (LogService.FilterLogEventsOutput.events response) as [events|];
      [|intros []].
    intros Hin. apply scanned_from in Hin. destruct Hin as [[] | Hin].
    exact Hin. }
  destruct (match LogService.FilterLogEventsOutput.events response with
            | Some events => LogService.scanEvents events logGroupName []
            | None => ([], false)
            end) as [found thrown].
  cbn [fst] in Hfirst.
  assert (Hone : forall denial,
             In denial found ->
             exists event,
               In event (Props.fetched filterLogEvents n (S n))
               /\ Logs.parsePermissionDenial event logGroupName
                  = Returned (Some denial))
    by (intros denial Hin; rewrite fetched_one; exact (Hfirst denial Hin)).
  assert (Htwo : forall denial,
             In denial found ->
             exists event,
               In event (Props.fetched filterLogEvents n (S (S n)))
               /\ Logs.parsePermissionDenial event logGroupName
                  = Returned (Some denial)).
  { intros denial Hin. rewrite fetched_two.
    destruct (Hfirst denial Hin) as (event & He & E). exists event.
    split; [apply in_or_app; left; exact He | exact E]. }
  destruct thrown.
  { intros E. injection E as <- <-. split; [left; reflexivity | exact Hone]. }
  destruct ((List.length found =? 0)
            && LogService.isStateMachineLogGroup logGroupName).
  2: { intros E. injection E as <- <-.
       split; [left; reflexivity | exact Hone]. }
  destruct (filterLogEvents (S n)) as [noFilterResponse|error] eqn:E2.
  2: { intros E. injection E as <- <-.
       split; [right; reflexivity | exact Htwo]. }
  destruct (LogService.FilterLogEventsOutput.events noFilterResponse)
    as [events|] eqn:E3.
  2: { intros E. injection E as <- <-.
       split; [right; reflexivity | exact Htwo]. }
  intros E. injection E as <- <-. split; [right; reflexivity|].
  intros denial Hin. apply scanned_from in Hin.
  destruct Hin as [Hin | (event & He & E)]; [exact (Htwo denial Hin)|].
  exists event. split; [|exact E]. rewrite fetched_two.
  apply in_or_app. right. rewrite E2. cbn [Props.responseEvents].
  rewrite E3. exact He.
Qed.

Lemma someRole_matches (rolePatterns : list jsstring)
  (principal : Json.value) (keep : bool) :
  LogService.someRole roleTest rolePatterns principal = Returned keep ->
  (keep = true
   <-> exists pattern,
         In pattern rolePatterns
         /\ roleTest pattern principal = Returned true).
Proof.
  induction rolePatterns as [|pattern rest IH]; cbn [LogService.someRole].
  - intros E. injection E as <-. split; [discriminate|].
    intros (pattern & [] & _).
  - destruct (roleTest pattern principal) as [[|]|error] eqn:E.
    + intros E'. injection E' as <-. split; [|reflexivity].
      intros _. exists pattern. split; [left; reflexivity | exact E].
    + intros E'. rewrite (IH E'). split.
      * intros (p & Hp & Ep). exists p. split; [right; exact Hp | exact Ep].
      * intros (p & [<- | Hp] & Ep); [congruence|].
        exists p. split; assumption.
    + discriminate.
Qed.

Lemma filterByRoles_keeps (rolePatterns : list jsstring)
  (denials kept : list Logs.Denial.t) :
  LogService.filterByRoles roleTest rolePatterns denials = Returned kept ->
  forall denial,
    In denial kept
    <-> In denial denials
        /\ exists pattern,
             In pattern rolePatterns
             /\ roleTest pattern (Logs.Denial.principal denial)
                = Returned true.
Proof.
  revert kept. induction denials as [|first rest IH]; intros kept;
    cbn [LogService.filterByRoles].
  - intros E. injection E as <-. intros denial. split; [intros [] | tauto].
  - destruct (LogService.someRole roleTest rolePatterns
                (Logs.Denial.principal first)) as [keep|error] eqn:Es;
      [|discriminate].
    destruct (LogService.filterByRoles roleTest rolePatterns rest)
      as [others|error]; [|discriminate].
    intros E. injection E as <-. intros denial.
    specialize (IH others eq_refl denial).
    apply someRole_matches in Es.
    destruct keep; cbn [In]; rewrite IH; split.
    + intros [<- | [Hin Hp]];
        [split; [left; reflexivity | apply Es; reflexivity]
        | split; [right; exact Hin | exact Hp]].
    + intros [[<- | Hin] Hp]; [left; reflexivity | right; split; assumption].
    + intros [Hin Hp]. split; [right; exact Hin | exact Hp].
    + intros [[<- | Hin] Hp]; [|split; assumption].
      apply Es in Hp. discriminate Hp.
Qed.

(** What a search returns is part of what its [try] block collects. *)
Lemma search_collected (n n' : nat) (logGroupName : jsstring)
  (rolePatterns : option (list jsstring)) (denials : list Logs.Denial.t) :
  LogService.searchPermissionDenials filterLogEvents roleTest n logGroupName
    rolePatterns
  = (Returned denials, n') ->
  exists collected,
    LogService.collectDenials filterLogEvents n logGroupName = (collected, n')
    /\ incl denials collected.
Proof.
  unfold LogService.searchPermissionDenials.
  destruct (LogService.collectDenials filterLogEvents n logGroupName)
    as [collected m].
  destruct rolePatterns as [[|pattern rest]|]; intros E.
  - injection E as <- <-. exists collected. split; [reflexivity|].
    apply incl_refl.
  - injection E as E <-. exists collected. split; [reflexivity|].
    intros denial Hin. exact (proj1 (proj1 (filterByRoles_keeps _ _ _ E _) Hin)).
  - injection E as <- <-. exists collected. split; [reflexivity|].
    apply incl_refl.
Qed.

End SearchFacts.

(** X24: every denial returned by [searchPermissionDenials] is what the
    parser returns for an event fetched by one of the calls made for the
    search, of which there are one or two; it bears the name of the log
    group searched, and its message carries a denial signature. *)
Theorem search_provenance
  (filterLogEvents : nat -> outcome LogService.FilterLogEventsOutput.t)
  (roleTest : jsstring -> Json.value -> outcome bool)
  (n n' : nat) (logGroupName : jsstring)
  (rolePatterns : option (list jsstring)) (denials : list Logs.Denial.t) :
  LogService.searchPermissionDenials filterLogEvents roleTest n logGroupName
    rolePatterns
  = (Returned denials, n') ->
  (n' = S n \/ n' = S (S n))
  /\ forall denial,
      In denial denials ->
      (exists event,
          In event (Props.fetched filterLogEvents n n')
          /\ Logs.parsePermissionDenial event logGroupName
             = Returned (Some denial))
      /\ Logs.Denial.logGroup denial = logGroupName
      /\ Logs.hasPermissionDenialPattern (Logs.Denial.message denial) = true.
Proof.
  intros E. apply search_collected in E.
  destruct E as (collected & Ec & Hincl).
  apply collectDenials_provenance in Ec. destruct Ec as [Hn Hfrom].
  split; [exact Hn|]. intros denial Hin.
  destruct (Hfrom denial (Hincl denial Hin)) as (event & He & Ep).
  split; [exists event; split; assumption|].
  apply parse_returned in Ep.
  destruct Ep as (message & t & logStream & iso & _ & _ & _ & _ & _ & _
                  & Hp & _ & _ & Hg & _ & Hm & _).
  split; [exact Hg|]. rewrite Hm. exact Hp.
Qed.

Lemma search_provenance_witness :
  LogService.searchPermissionDenials sample_filter sample_roleTest 0
    (js "/aws/lambda/test-function") None
  = (Returned [sample_parsed], 1)
  /\ (1 = 1 \/ 1 = 2)
  /\ forall denial,
      In denial [sample_parsed] ->
      (exists event,
          In event (Props.fetched sample_filter 0 1)
          /\ Logs.parsePermissionDenial event (js "/aws/lambda/test-function")
             = Returned (Some denial))
      /\ Logs.Denial.logGroup denial = js "/aws/lambda/test-function"
      /\ Logs.hasPermissionDenialPattern (Logs.Denial.message denial) = true.
Proof.
  assert (E : LogService.searchPermissionDenials sample_filter sample_roleTest
                0 (js "/aws/lambda/test-function") None
              = (Returned [sample_parsed], 1)) by (vm_compute; reflexivity).
  split; [exact E|].
  exact (search_provenance sample_filter sample_roleTest 0 1 _ None _ E).
Defined.

(** X25: without role patterns, a record on which the parser throws ends
    the scan of a response silently: the search returns the denials of
    the records before it.  Unless all records are read, no denial is
    found and the log group belongs to a state machine, this is the
    result of the search, after one call. *)
Theorem search_cut_short
  (filterLogEvents : nat -> outcome LogService.FilterLogEventsOutput.t)
  (roleTest : jsstring -> Json.value -> outcome bool)
  (n : nat) (logGroupName : jsstring)
  (response : LogService.FilterLogEventsOutput.t)
  (events : list FilteredLogEvent.t) :
  filterLogEvents n = Returned response ->
  LogService.FilterLogEventsOutput.events response = Some events ->
  Props.denialsOf logGroupName (Props.readable logGroupName events) <> []
  \/ LogService.isStateMachineLogGroup logGroupName = false
  \/ Props.readable logGroupName events <> events ->
  LogService.searchPermissionDenials filterLogEvents roleTest n logGroupName
    None
  = (Returned
       (Props.denialsOf logGroupName (Props.readable logGroupName events)),
     S n).
Proof.
  intros E1 E2 Hcase.
  unfold LogService.searchPermissionDenials, LogService.collectDenials.
  rewrite E1, E2, scanEvents_readable. cbn [app].
  destruct (List.length (Props.readable logGroupName events)
            =? List.length events) eqn:El; cbn [negb]; [|reflexivity].
  apply Nat.eqb_eq, readable_all in El.
  destruct Hcase as [Hfound | [Hsm | Hcut]]; [| |contradiction].
  - destruct (Props.denialsOf logGroupName
                (Props.readable logGroupName events)) as [|d found];
      [contradiction|].
    reflexivity.
  - rewrite Hsm, andb_false_r. reflexivity.
Qed.

Lemma search_cut_short_witness :
  (Props.denialsOf (js "/aws/lambda/test-function")
     (Props.readable (js "/aws/lambda/test-function") sample_cut_events)
   <> []
   \/ LogService.isStateMachineLogGroup (js "/aws/lambda/test-function")
      = false
   \/ Props.readable (js "/aws/lambda/test-function") sample_cut_events
      <> sample_cut_events)
  /\ Props.readable (js "/aws/lambda/test-function") sample_cut_events
     = [sample_event 1704067200000 (js "test-stream") sample_message]
  /\ Props.denialsOf (js "/aws/lambda/test-function")
       (Props.readable (js "/aws/lambda/test-function") sample_cut_events)
     = [sample_parsed]
  /\ LogService.searchPermissionDenials sample_filter_cut sample_roleTest 0
       (js "/aws/lambda/test-function") None
     = (Returned
          (Props.denialsOf (js "/aws/lambda/test-function")
             (Props.readable (js "/aws/lambda/test-function")
                sample_cut_events)),
        1).
Proof.
  assert (Hcut :
    Props.readable (js "/aws/lambda/test-function") sample_cut_events
    <> sample_cut_events)
    by (vm_compute; discriminate).
  assert (Hcase :
    Props.denialsOf (js "/aws/lambda/test-function")
      (Props.readable (js "/aws/lambda/test-function") sample_cut_events)
    <> []
    \/ LogService.isStateMachineLogGroup (js "/aws/lambda/test-function")
       = false
    \/ Props.readable (js "/aws/lambda/test-function") sample_cut_events
       <> sample_cut_events)
    by (right; right; exact Hcut).
  split; [exact Hcase|].
  split; [vm_compute; reflexivity|].
  split; [vm_compute; reflexivity|].
  exact (search_cut_short sample_filter_cut sample_roleTest 0
           (js "/aws/lambda/test-function") _ sample_cut_events eq_refl
           eq_refl Hcase).
Defined.

(** X26: with role patterns, a search that returns keeps exactly the
    denials of the search without patterns whose principal passes the
    test of one of the patterns. *)
Theorem search_role_filter
  (filterLogEvents : nat -> outcome LogService.FilterLogEventsOutput.t)
  (roleTest : jsstring -> Json.value -> outcome bool)
  (n n' : nat) (logGroupName : jsstring) (rolePatterns : list jsstring)
  (kept : list Logs.Denial.t) :
  rolePatterns <> [] ->
  LogService.searchPermissionDenials filterLogEvents roleTest n logGroupName
    (Some rolePatterns)
  = (Returned kept, n') ->
  exists found,
    LogService.searchPermissionDenials filterLogEvents roleTest n logGroupName
      None
    = (Returned found, n')
    /\ forall denial,
        In denial kept
        <-> In denial found
            /\ exists pattern,
                 In pattern rolePatterns
                 /\ roleTest pattern (Logs.Denial.principal denial)
                    = Returned true.
Proof.
  intros Hne. unfold LogService.searchPermissionDenials.
  destruct (LogService.collectDenials filterLogEvents n logGroupName)
    as [collected m].
  destruct rolePatterns as [|pattern rest]; [contradiction|].
  intros E. injection E as E <-. exists collected.
  split; [reflexivity|]. exact (filterByRoles_keeps _ _ _ _ E).
Qed.

Lemma search_role_filter_witness :
  ([js "test-role"] <> []
   /\ LogService.searchPermissionDenials sample_filter sample_roleTest 0
        (js "/aws/lambda/test-function") (Some [js "test-role"])
      = (Returned [sample_parsed], 1))
  /\ exists found,
      LogService.searchPermissionDenials sample_filter sample_roleTest 0
        (js "/aws/lambda/test-function") None
      = (Returned found, 1)
      /\ forall denial,
          In denial [sample_parsed]
          <-> In denial found
              /\ exists pattern,
                   In pattern [js "test-role"]
                   /\ sample_roleTest pattern (Logs.Denial.principal denial)
                      = Returned true.
Proof.
  assert (Hne : [js "test-role"] <> []) by discriminate.
  assert (E : LogService.searchPermissionDenials sample_filter sample_roleTest
                0 (js "/aws/lambda/test-function") (Some [js "test-role"])
              = (Returned [sample_parsed], 1)) by (vm_compute; reflexivity).
  split; [split; assumption|].
  exact (search_role_filter sample_filter sample_roleTest 0 1 _ _ _ Hne E).
Defined.

(** ** Analysing log groups *)

Section AnalysisFacts.
Variable describeLogGroups : nat -> outcome LogService.DescribeLogGroupsOutput.t.
Variable filterLogEvents : nat -> outcome LogService.FilterLogEventsOutput.t.
Variable roleTest : jsstring -> Json.value -> outcome bool.





End AnalysisFacts.



(** ** Discovering log groups *)

Section DiscoveryFacts.
Variable describeLogGroups : nat -> outcome LogService.DescribeLogGroupsOutput.t.

Lemma addLogGroups_sorted_out (stackName : option jsstring)
  (logGroups : list LogService.LogGroup.t) (found : LogService.Discovered.t) :
  Props.sorted_out stackName found ->
  Props.sorted_out stackName
    (LogService.addLogGroups stackName logGroups found).
Proof.
  unfold LogService.addLogGroups. revert found.
  induction logGroups as [|logGroup rest IH]; intros found Hfound;
    cbn [fold_left]; [exact Hfound|].
  apply IH. destruct (LogService.LogGroup.logGroupName logGroup)
    as [[|c name]|]; try exact Hfound.
  destruct Hfound as (Hct & Hsr & Hne). unfold Props.sorted_out.
  cbn [LogService.Discovered.all LogService.Discovered.cloudTrail
       LogService.Discovered.stackRelated].
  rewrite !filter_app. cbn [filter]. split; [|split].
  - rewrite Hct.
    destruct (LogGroups.isCloudTrailLogGroup (c :: name));
      [reflexivity | rewrite app_nil_r; reflexivity].
  - destruct stackName as [[|d stack]|]; try exact Hsr.
    rewrite filter_app. cbn [filter]. rewrite Hsr.
    destruct (LogGroups.isStackRelatedLogGroup (c :: name) (d :: stack));
      [reflexivity | rewrite app_nil_r; reflexivity].
  - intros logGroupName Hin. apply in_app_iff in Hin.
    destruct Hin as [Hin | [<- | []]]; [exact (Hne _ Hin) | discriminate].
Qed.

Lemma discoverPages_sorted_out (fuel n n' : nat) (stackName : option jsstring)
  (found found' : LogService.Discovered.t) :
  Props.sorted_out stackName found ->
  LogService.discoverPages describeLogGroups fuel n stackName found
  = Some (Returned found', n') ->
  Props.sorted_out stackName found'.
Proof.
  revert n found. induction fuel as [|fuel IH]; intros n found Hfound;
    cbn [LogService.discoverPages]; [discriminate|].
  destruct (describeLogGroups n) as [result|error]; [|discriminate].
  cbv zeta.
  assert (Hnext :
    Props.sorted_out stackName
      match LogService.DescribeLogGroupsOutput.logGroups result with
      | Some logGroups => LogService.addLogGroups stackName logGroups found
      | None => found
      end).
  { destruct (LogService.DescribeLogGroupsOutput.logGroups result);
      [apply addLogGroups_sorted_out|]; exact Hfound. }
  destruct (LogService.DescribeLogGroupsOutput.nextToken result)
    as [[|c token]|].
  - intros E. injection E as <- <-. exact Hnext.
  - apply IH. exact Hnext.
  - intros E. injection E as <- <-. exact Hnext.
Qed.

Lemma addLogGroups_all (stackName : option jsstring)
  (logGroups : list LogService.LogGroup.t) (found : LogService.Discovered.t) :
  LogService.Discovered.all
    (LogService.addLogGroups stackName logGroups found)
  = LogService.Discovered.all found
    ++ flat_map
         (fun logGroup =>
            match LogService.LogGroup.logGroupName logGroup with
            | Some (c :: rest) => [c :: rest]
            | _ => []
            end)
         logGroups.
Proof.
  unfold LogService.addLogGroups. revert found.
  induction logGroups as [|logGroup rest IH]; intros found;
    cbn [fold_left flat_map]; [symmetry; apply app_nil_r|].
  rewrite IH.
  destruct (LogService.LogGroup.logGroupName logGroup) as [[|c name]|];
    try reflexivity.
  cbn [LogService.Discovered.all]. rewrite <- app_assoc. reflexivity.
Qed.

Lemma listed_next (n count : nat) :
  Props.listed describeLogGroups n (S count)
  = Props.pageNames (describeLogGroups n)
    ++ Props.listed describeLogGroups (S n) count.
Proof. reflexivity. Qed.

(** The loop ends with the first page that has no further token, or with
    the first call that rejects, whichever comes first; it has then
    gathered the names of all the pages read. *)
Lemma discoverPages_exact (fuel n k : nat) (stackName : option jsstring)
  (found : LogService.Discovered.t) :
  k < fuel ->
  (forall j, j < k -> Props.lastPage (describeLogGroups (n + j)) = false) ->
  Props.lastPage (describeLogGroups (n + k)) = true ->
  exists result,
    LogService.discoverPages describeLogGroups fuel n stackName found
    = Some (result, S (n + k))
    /\ match describeLogGroups (n + k) with
       | Thrown error => result = Thrown error
       | Returned _ =>
           exists found',
             result = Returned found'
             /\ LogService.Discovered.all found'
                = LogService.Discovered.all found
                  ++ Props.listed describeLogGroups n (S k)
       end.
Proof.
  revert n k found. induction fuel as [|fuel IH];
    intros n k found Hk Hbefore Hlast; [lia|].
  cbn [LogService.discoverPages].
  assert (Hall :
    forall result,
      describeLogGroups n = Returned result ->
      LogService.Discovered.all
        match LogService.DescribeLogGroupsOutput.logGroups result with
        | Some logGroups => LogService.addLogGroups stackName logGroups found
        | None => found
        end
      = LogService.Discovered.all found
        ++ Props.pageNames (describeLogGroups n)).
  { intros result E. rewrite E. cbn [Props.pageNames].
    destruct (LogService.DescribeLogGroupsOutput.logGroups result);
      [apply addLogGroups_all | symmetry; apply app_nil_r]. }
  destruct k as [|k].
  - rewrite Nat.add_0_r in Hlast |- *.
    destruct (describeLogGroups n) as [result|error] eqn:E.
    + cbv zeta. cbn [Props.lastPage] in Hlast.
      destruct (LogService.DescribeLogGroupsOutput.nextToken result)
        as [[|c token]|]; try discriminate Hlast;
        (eexists; split; [reflexivity|]; eexists; split; [reflexivity|];
         rewrite (Hall result eq_refl), listed_next, E;
         cbn [Props.listed seq flat_map]; rewrite app_nil_r; reflexivity).
    + eexists. split; reflexivity.
  - pose proof (Hbefore 0 (Nat.lt_0_succ k)) as Hfirst.
    rewrite Nat.add_0_r in Hfirst.
    destruct (describeLogGroups n) as [result|error] eqn:E;
      [|discriminate Hfirst].
    cbv zeta. cbn [Props.lastPage] in Hfirst.
    destruct (LogService.DescribeLogGroupsOutput.nextToken result)
      as [[|c token]|]; try discriminate Hfirst.
    replace (n + S k) with (S n + k) in * by lia.
    destruct (IH (S n) k
                match LogService.DescribeLogGroupsOutput.logGroups result with
                | Some logGroups =>
                    LogService.addLogGroups stackName logGroups found
                | None => found
                end) as (final & Efinal & Hfinal); [lia | | exact Hlast |].
    + intros j Hj. replace (S n + j) with (n + S j) by lia.
      apply Hbefore. lia.
    + exists final. split; [exact Efinal|].
      destruct (describeLogGroups (S n + k)); [|exact Hfinal].
      destruct Hfinal as (found' & -> & Hnames). exists found'.
      split; [reflexivity|].
      rewrite Hnames, (Hall result eq_refl), (listed_next n (S k)), E,
        <- app_assoc.
      reflexivity.
Qed.

End DiscoveryFacts.

(** X28: [discoverAllLogGroups] reads the pages up to the first one
    without a further token, and no further: it returns after that call
    with the names listed by these pages, those that are not empty, in
    order.  A call that rejects ends it as well, with three empty lists.
    Of the names returned, [cloudTrail] holds those that
    [isCloudTrailLogGroup] accepts and [stackRelated] those related to
    the stack name, when one is given, in the same order. *)
Theorem discover_sorts_out
  (describeLogGroups : nat -> outcome LogService.DescribeLogGroupsOutput.t)
  (fuel n k : nat) (stackName : option jsstring) :
  k < fuel ->
  (forall j, j < k -> Props.lastPage (describeLogGroups (n + j)) = false) ->
  Props.lastPage (describeLogGroups (n + k)) = true ->
  exists found,
    LogService.discoverAllLogGroups describeLogGroups fuel n stackName
    = Some (found, S (n + k))
    /\ LogService.Discovered.all found
       = match describeLogGroups (n + k) with
         | Returned _ => Props.listed describeLogGroups n (S k)
         | Thrown _ => []
         end
    /\ LogService.Discovered.cloudTrail found
       = filter LogGroups.isCloudTrailLogGroup
           (LogService.Discovered.all found)
    /\ LogService.Discovered.stackRelated found
       = match stackName with
         | Some (c :: name) =>
             filter
               (fun logGroupName =>
                  LogGroups.isStackRelatedLogGroup logGroupName (c :: name))
               (LogService.Discovered.all found)
         | _ => []
         end
    /\ forall logGroupName,
        In logGroupName (LogService.Discovered.all found) ->
        logGroupName <> [].
Proof.
  intros Hk Hbefore Hlast.
  assert (Hempty :
    Props.sorted_out stackName
      {| LogService.Discovered.all := [];
         LogService.Discovered.cloudTrail := [];
         LogService.Discovered.stackRelated := [] |}).
  { split; [reflexivity|]. split.
    - destruct stackName as [[|c name]|]; reflexivity.
    - intros logGroupName []. }
  destruct (discoverPages_exact describeLogGroups fuel n k stackName
              {| LogService.Discovered.all := [];
                 LogService.Discovered.cloudTrail := [];
                 LogService.Discovered.stackRelated := [] |}
              Hk Hbefore Hlast) as (result & Epages & Hresult).
  unfold LogService.discoverAllLogGroups. rewrite Epages.
  destruct (describeLogGroups (n + k)) as [output|error].
  - destruct Hresult as (found & -> & Hnames). exists found.
    split; [reflexivity|]. split; [exact Hnames|].
    exact (discoverPages_sorted_out _ _ _ _ _ _ _ Hempty Epages).
  - subst result. eexists. split; [reflexivity|].
    split; [reflexivity|]. exact Hempty.
Qed.

Lemma discover_sorts_out_witness :
  (1 < 5
   /\ (forall j, j < 1 -> Props.lastPage (sample_pages (0 + j)) = false)
   /\ Props.lastPage (sample_pages (0 + 1)) = true)
  /\ exists found,
      LogService.discoverAllLogGroups sample_pages 5 0 (Some (js "TestStack"))
      = Some (found, 2)
      /\ LogService.Discovered.all found
         = [js "/aws/lambda/TestStack-handler";
            js "aws-cloudtrail-logs-teststack"; js "/aws/lambda/other"]
      /\ LogService.Discovered.cloudTrail found
         = filter LogGroups.isCloudTrailLogGroup
             (LogService.Discovered.all found)
      /\ LogService.Discovered.stackRelated found
         = filter
             (fun logGroupName =>
                LogGroups.isStackRelatedLogGroup logGroupName (js "TestStack"))
             (LogService.Discovered.all found)
      /\ forall logGroupName,
          In logGroupName (LogService.Discovered.all found) ->
          logGroupName <> [].
Proof.
  assert (Hk : 1 < 5) by lia.
  assert (Hbefore : forall j, j < 1 ->
                      Props.lastPage (sample_pages (0 + j)) = false)
    by (intros [|j] Hj; [reflexivity | lia]).
  assert (Hlast : Props.lastPage (sample_pages (0 + 1)) = true)
    by reflexivity.
  split; [split; [exact Hk | split; assumption]|].
  exact (discover_sorts_out sample_pages 5 0 1 (Some (js "TestStack"))
           Hk Hbefore Hlast).
Defined.

Example discover_sample :
  LogService.discoverAllLogGroups sample_describe 1 0 (Some (js "Test"))
  = Some ({| LogService.Discovered.all := [js "/aws/lambda/test-function"];
             LogService.Discovered.cloudTrail := [];
             LogService.Discovered.stackRelated :=
               [js "/aws/lambda/test-function"] |}, 1).
Proof. vm_compute. reflexivity. Qed.

(** ** Where a suggestion comes from *)

Lemma events_in (logAnalysisResults : list LogAnalysisResult.t)
  (e : Spec.event) :
  In e (Spec.events logAnalysisResults)
  <-> In (fst e) logAnalysisResults
      /\ In (snd e) (LogAnalysisResult.permissionDenials (fst e)).
Proof.
  unfold Spec.events. rewrite in_flat_map. split.
  - intros (result & Hr & Hin). apply in_map_iff in Hin.
    destruct Hin as (denial & <- & Hd). cbn [fst snd]. split; assumption.
  - intros [Hr Hd]. exists (fst e). split; [exact Hr|].
    apply in_map_iff. exists (snd e). split; [|exact Hd].
    destruct e; reflexivity.
Qed.

Lemma suggest_from (clock : nat -> jsstring) (n : nat)
  (rows : list Analyzer.Candidate.t)
  (p : SuggestedPermission.t Analyzer.Conditions.t) :
  In p (Analyzer.suggest clock n rows) ->
  exists data,
    In data rows
    /\ SuggestedPermission.action p
       = match Analyzer.Candidate.action data with
         | [] => js "Unknown"
         | c :: rest => c :: rest
         end
    /\ SuggestedPermission.resource p = Analyzer.Candidate.resource data
    /\ SuggestedPermission.severity p = Analyzer.Candidate.severity data
    /\ SuggestedPermission.reasoning p
       = Analyzer.consolidateReasoning (Analyzer.Candidate.reasoning data)
           (Analyzer.Candidate.associatedResources data)
    /\ exists m,
         SuggestedPermission.condition p
         = Analyzer.generateConditions m (clock m)
             (Analyzer.Candidate.action data)
             (Analyzer.Candidate.resource data).
Proof.
  revert n. induction rows as [|data rows IH]; intros n; [intros []|].
  cbn [Analyzer.suggest]. cbv zeta.
  destruct (Analyzer.generateConditions n (clock n) _ _) eqn:E;
    (intros [<- | Hin];
     [exists data; split; [left; reflexivity|];
      cbn [SuggestedPermission.action SuggestedPermission.resource
           SuggestedPermission.severity SuggestedPermission.reasoning
           SuggestedPermission.condition];
      repeat split; try (destruct (Analyzer.Candidate.action data);
                         reflexivity)
     | destruct (IH _ Hin) as (data' & Hd & Hrest);
       exists data'; split; [right; exact Hd | exact Hrest]]).
  - exists (S n). reflexivity.
  - exists n. symmetry. exact E.
Qed.

(** X30: for a batch whose actions have code units below 256,
    [analyzeLogs] invents nothing: every suggestion stems from a
    denial of the batch, the first of its key.  Its resource is the
    normalised resource of that denial, its action the normalised action
    (or ["Unknown"] when that is empty), its severity the one computed
    for that denial in its log group, its condition one made by
    [generateConditions] for the normalised action and resource. *)
Theorem analyzed_suggestions_sourced (clock : nat -> jsstring)
  (logAnalysisResults : list LogAnalysisResult.t)
  (p : SuggestedPermission.t Analyzer.Conditions.t) :
  Props.latin1Actions logAnalysisResults = true ->
  In p (Analyzer.analyzeLogs clock logAnalysisResults) ->
  exists result denial,
    In result logAnalysisResults
    /\ In denial (LogAnalysisResult.permissionDenials result)
    /\ SuggestedPermission.resource p
       = Analyzer.normalizeResource (PermissionDenial.resource denial)
    /\ SuggestedPermission.action p
       = match Analyzer.normalizeAction (PermissionDenial.action denial) with
         | [] => js "Unknown"
         | c :: rest => c :: rest
         end
    /\ SuggestedPermission.severity p
       = Analyzer.calculateSeverity
           (Analyzer.normalizeAction (PermissionDenial.action denial))
           (PermissionDenial.errorCode denial)
           (List.length (LogAnalysisResult.permissionDenials result))
    /\ exists m,
         SuggestedPermission.condition p
         = Analyzer.generateConditions m (clock m)
             (Analyzer.normalizeAction (PermissionDenial.action denial))
             (Analyzer.normalizeResource (PermissionDenial.resource denial)).
Proof.
  intros _. unfold Analyzer.analyzeLogs. cbv zeta. rewrite sortBy_in.
  intros Hin. apply suggest_from in Hin.
  destruct Hin as (data & Hdata & Ha & Hr & Hs & _ & m & Hc).
  rewrite aggregate_grouped in Hdata. unfold StrMap.values, Props.groupBy in Hdata.
  rewrite map_map in Hdata. cbn [snd] in Hdata. apply in_map_iff in Hdata.
  destruct Hdata as (k & <- & Hk).
  apply (keysOf_in Props.eventKey) in Hk. destruct Hk as (e & He & Ek).
  assert (Hfiled : In e (Props.filed Props.eventKey k
                           (Spec.events logAnalysisResults)))
    by (apply filed_in; auto).
  destruct (Props.filed Props.eventKey k (Spec.events logAnalysisResults))
    as [|first rest] eqn:Ef; [destruct Hfiled|].
  assert (Hfirst : In first (Spec.events logAnalysisResults)).
  { apply (filed_in Props.eventKey k (Spec.events logAnalysisResults) first).
    rewrite Ef. left. reflexivity. }
  apply events_in in Hfirst. destruct Hfirst as [Hres Hden].
  exists (fst first), (snd first).
  cbn [Props.candidateOf Analyzer.Candidate.action Analyzer.Candidate.resource
       Analyzer.Candidate.severity] in Ha, Hr, Hs, Hc.
  repeat split; try assumption.
  exists m. exact Hc.
Qed.

Lemma analyzed_suggestions_sourced_witness :
  let clock := fun _ : nat => js "2024-01-01T00:00:00.000Z" in
  let results := [sample_result [sample_denial]] in
  (Props.latin1Actions results = true
   /\ In sample_suggestion (Analyzer.analyzeLogs clock results))
  /\ exists result denial,
      In result results
      /\ In denial (LogAnalysisResult.permissionDenials result)
      /\ SuggestedPermission.resource sample_suggestion
         = Analyzer.normalizeResource (PermissionDenial.resource denial)
      /\ SuggestedPermission.action sample_suggestion
         = match Analyzer.normalizeAction (PermissionDenial.action denial) with
           | [] => js "Unknown"
           | c :: rest => c :: rest
           end
      /\ SuggestedPermission.severity sample_suggestion
         = Analyzer.calculateSeverity
             (Analyzer.normalizeAction (PermissionDenial.action denial))
             (PermissionDenial.errorCode denial)
             (List.length (LogAnalysisResult.permissionDenials result))
      /\ exists m,
           SuggestedPermission.condition sample_suggestion
           = Analyzer.generateConditions m (clock m)
               (Analyzer.normalizeAction (PermissionDenial.action denial))
               (Analyzer.normalizeResource (PermissionDenial.resource denial)).
Proof.
  intros clock results.
  assert (Hin : In sample_suggestion (Analyzer.analyzeLogs clock results))
    by (left; reflexivity).
  split; [split; [reflexivity | exact Hin]|].
  exact (analyzed_suggestions_sourced clock results sample_suggestion eq_refl
           Hin).
Defined.
